(** * Pong Extreme: the server-authoritative game core

    A shallow embedding of the pure TypeScript modules

      - [src/lib/game/constants.ts]      (module [Constants])
      - [src/lib/game/types.ts]          (module [Types])
      - [src/lib/game/physics.ts]        (module [Physics])
      - [src/lib/party/gameLogic.ts]     (module [GameLogic])
      - [src/lib/party/matchmakerLogic.ts] (module [Matchmaker])

    Conventions.

    - A JavaScript [number] that holds a coordinate, a velocity or an angle is
      a real number ([R]); [Math.max], [Math.min], [Math.abs], [Math.sqrt],
      [Math.cos], [Math.sin] and [Math.PI] are [Rmax], [Rmin], [Rabs], [sqrt],
      [cos], [sin] and [PI].  Rounding of IEEE doubles is outside this
      model, and so are infinities and [NaN] in the ball: the ball starts
      from finite values and no infinity or [NaN] reaches it (a paddle that
      is not a finite number is never hit).
    - The paddle positions are the one place where an arbitrary value comes
      in from a client: [input.y] of a [PADDLE_MOVE] is passed on unchecked,
      and [Math.min] and [Math.max] convert it to a number, which is [NaN]
      for a field that is missing or not numeric and an infinity for a
      literal such as [1e999].  A paddle position and the [y] that is
      written to it are therefore of type [Js.JsNumber]: a real, an infinity
      or [NaN].
    - A [number] that counts (scores, countdown seconds, ticks, timestamps)
      is an integer ([Z]).
    - [Math.random()] and [Date.now()] are inputs: every function that calls
      one of them takes the value it obtained as an explicit argument.
    - Object spread [{...o, f: v}] is a record rebuilt field by field.
    - A [Set<string>] is a [gset string]; an array is a [list]. *)

From Stdlib Require Import Reals Lra Lia ZArith List Ascii.
From stdpp Require Import gmap strings.
Import ListNotations.

(** ** JavaScript numbers that need not be finite *)

Module Js.
Open Scope R_scope.

Inductive JsNumber :=
| Num (r : R)
| PosInf
| NegInf
| NaN.

(** [Math.min] and [Math.max] return [NaN] as soon as an argument is
    [NaN], and order the infinities below and above every real. *)
Definition Math_min (a b : JsNumber) : JsNumber :=
  match a, b with
  | NaN, _ | _, NaN => NaN
  | NegInf, _ | _, NegInf => NegInf
  | PosInf, x | x, PosInf => x
  | Num x, Num y => Num (Rmin x y)
  end.

Definition Math_max (a b : JsNumber) : JsNumber :=
  match a, b with
  | NaN, _ | _, NaN => NaN
  | PosInf, _ | _, PosInf => PosInf
  | NegInf, x | x, NegInf => x
  | Num x, Num y => Num (Rmax x y)
  end.

(** The real behind a finite number.  It is only read where a comparison
    has already excluded the other cases. *)
Definition toReal (a : JsNumber) : R :=
  match a with
  | Num x => x
  | _ => 0
  end.
End Js.

(** ** constants.ts *)

Module Constants.
Open Scope R_scope.

Definition ARENA_WIDTH : R := 100.
Definition ARENA_HEIGHT : R := 100.

Definition PADDLE_WIDTH : R := 3.
Definition PADDLE_HEIGHT : R := 20.
Definition PADDLE_MARGIN : R := 2.

Definition BALL_RADIUS : R := 2.

Definition BALL_INITIAL_SPEED : R := 8 / 10.
Definition BALL_MAX_SPEED : R := 2.
Definition BALL_SPEED_INCREMENT : R := 5 / 100.

Definition WINNING_SCORE : Z := 7.
Definition COUNTDOWN_SECONDS : Z := 3.
(** [GAME_TICK_RATE = 1000 / 60], the length of a tick in milliseconds. *)
Definition GAME_TICK_RATE : R := 1000 / 60.
End Constants.

(** ** types.ts *)

Module Types.
Inductive GameStatus := Waiting | Countdown | Playing | Paused | Finished.
Inductive PlayerRole := Host | Guest.
(** The two string literals ['player1'] and ['player2']. *)
Inductive Side := Player1 | Player2.
(** [Winner = 'player1' | 'player2' | null]. *)
Definition Winner := option Side.

Record GameState := mkGameState {
  ballX : R;
  ballY : R;
  ballVelX : R;
  ballVelY : R;
  paddle1Y : Js.JsNumber;
  paddle2Y : Js.JsNumber;
  score1 : Z;
  score2 : Z;
  status : GameStatus;
  winner : Winner;
  countdown : Z
}.

Record PlayerInfo := mkPlayerInfo {
  id : string;
  username : string;
  role : PlayerRole
}.

Definition GameStatus_eqb (a b : GameStatus) : bool :=
  match a, b with
  | Waiting, Waiting | Countdown, Countdown | Playing, Playing
  | Paused, Paused | Finished, Finished => true
  | _, _ => false
  end.

Definition createInitialGameState : GameState :=
  {| ballX := 50; ballY := 50; ballVelX := 0; ballVelY := 0;
     paddle1Y := Js.Num 50; paddle2Y := Js.Num 50; score1 := 0; score2 := 0;
     status := Waiting; winner := None; countdown := 0 |}.
End Types.

(** ** physics.ts *)

Module Physics.
Import Constants.
Import Types(Side, Player1, Player2).
Open Scope R_scope.

Record PhysicsState := mkPhysicsState {
  ballX : R;
  ballY : R;
  ballVelX : R;
  ballVelY : R;
  paddle1Y : Js.JsNumber;
  paddle2Y : Js.JsNumber
}.

(** [BallState] has the four ball fields of [PhysicsState]; its projections
    carry the prefix [b_] because the field names are taken. *)
Record BallState := mkBallState {
  b_ballX : R;
  b_ballY : R;
  b_ballVelX : R;
  b_ballVelY : R
}.

Definition MAX_BOUNCE_ANGLE : R := PI / 3.

Definition updateBallPosition (state : PhysicsState) : PhysicsState :=
  {| ballX := ballX state + ballVelX state;
     ballY := ballY state + ballVelY state;
     ballVelX := ballVelX state;
     ballVelY := ballVelY state;
     paddle1Y := paddle1Y state;
     paddle2Y := paddle2Y state |}.

(** The two [if] statements of [checkWallCollision] run one after the other
    on the local variables [ballY] and [ballVelY]. *)
Definition checkWallCollision (state : PhysicsState) : PhysicsState :=
  let '(y1, v1) :=
    if Rle_dec (ballY state) BALL_RADIUS
    then (BALL_RADIUS, Rabs (ballVelY state))
    else (ballY state, ballVelY state) in
  let '(y2, v2) :=
    if Rge_dec y1 (ARENA_HEIGHT - BALL_RADIUS)
    then (ARENA_HEIGHT - BALL_RADIUS, - Rabs v1)
    else (y1, v1) in
  {| ballX := ballX state;
     ballY := y2;
     ballVelX := ballVelX state;
     ballVelY := v2;
     paddle1Y := paddle1Y state;
     paddle2Y := paddle2Y state |}.

Definition calculateBallAngle (ballY paddleY : R) : R :=
  let relativeHit := (ballY - paddleY) / (PADDLE_HEIGHT / 2) in
  let clampedHit := Rmax (-1) (Rmin 1 relativeHit) in
  clampedHit * MAX_BOUNCE_ANGLE.

(** [Math.sqrt(ballVelX ** 2 + ballVelY ** 2)]. *)
Definition speed (state : PhysicsState) : R :=
  sqrt (ballVelX state ^ 2 + ballVelY state ^ 2).

(** [ballY >= paddleY - PADDLE_HEIGHT / 2 && ballY <= paddleY +
    PADDLE_HEIGHT / 2]: with [paddleY] [NaN] both bounds are [NaN] and both
    comparisons are false; with [paddleY] an infinity both bounds are that
    infinity and one of the comparisons is false. *)
Definition withinPaddle (ballY : R) (paddleY : Js.JsNumber) : Prop :=
  match paddleY with
  | Js.Num centre =>
    let paddleTop := centre - PADDLE_HEIGHT / 2 in
    let paddleBottom := centre + PADDLE_HEIGHT / 2 in
    ballY >= paddleTop /\ ballY <= paddleBottom
  | Js.PosInf | Js.NegInf | Js.NaN => False
  end.

(** The condition of the first [if] of [checkPaddleCollision]. *)
Definition hitsPaddle1 (state : PhysicsState) : Prop :=
  let leftPaddleX := PADDLE_MARGIN + PADDLE_WIDTH in
  ballVelX state < 0 /\
  ballX state - BALL_RADIUS <= leftPaddleX /\
  ballX state + BALL_RADIUS >= PADDLE_MARGIN /\
  withinPaddle (ballY state) (paddle1Y state).

(** The condition of the second [if] of [checkPaddleCollision]. *)
Definition hitsPaddle2 (state : PhysicsState) : Prop :=
  let rightPaddleX := ARENA_WIDTH - PADDLE_MARGIN - PADDLE_WIDTH in
  ballVelX state > 0 /\
  ballX state + BALL_RADIUS >= rightPaddleX /\
  ballX state - BALL_RADIUS <= ARENA_WIDTH - PADDLE_MARGIN /\
  withinPaddle (ballY state) (paddle2Y state).

#[global] Instance withinPaddle_dec ballY paddleY : Decision (withinPaddle ballY paddleY).
Proof.
  destruct paddleY as [centre | | |]; cbn;
    [apply and_dec; [apply Rge_dec | apply Rle_dec] | right; intros [] ..].
Defined.

#[global] Instance hitsPaddle1_dec state : Decision (hitsPaddle1 state).
Proof.
  unfold hitsPaddle1; cbv zeta.
  repeat apply and_dec;
    first [apply Rlt_dec | apply Rle_dec | apply Rge_dec | apply Rgt_dec
          | apply withinPaddle_dec].
Defined.

#[global] Instance hitsPaddle2_dec state : Decision (hitsPaddle2 state).
Proof.
  unfold hitsPaddle2; cbv zeta.
  repeat apply and_dec;
    first [apply Rlt_dec | apply Rle_dec | apply Rge_dec | apply Rgt_dec
          | apply withinPaddle_dec].
Defined.

(** In each branch the paddle position is a finite number, the condition
    of the branch having compared against it; [Js.toReal] reads it. *)
Definition checkPaddleCollision (state : PhysicsState) : PhysicsState :=
  let currentSpeed := speed state in
  let leftPaddleX := PADDLE_MARGIN + PADDLE_WIDTH in
  if decide (hitsPaddle1 state) then
    let bounceAngle := calculateBallAngle (ballY state) (Js.toReal (paddle1Y state)) in
    let newSpeed := Rmin (currentSpeed + BALL_SPEED_INCREMENT) BALL_MAX_SPEED in
    let newVelX := Rabs (newSpeed * cos bounceAngle) in
    let newVelY := newSpeed * sin bounceAngle in
    {| ballX := leftPaddleX + BALL_RADIUS;
       ballY := ballY state;
       ballVelX := newVelX;
       ballVelY := newVelY;
       paddle1Y := paddle1Y state;
       paddle2Y := paddle2Y state |}
  else
    let rightPaddleX := ARENA_WIDTH - PADDLE_MARGIN - PADDLE_WIDTH in
    if decide (hitsPaddle2 state) then
      let bounceAngle := calculateBallAngle (ballY state) (Js.toReal (paddle2Y state)) in
      let newSpeed := Rmin (currentSpeed + BALL_SPEED_INCREMENT) BALL_MAX_SPEED in
      let newVelX := - Rabs (newSpeed * cos bounceAngle) in
      let newVelY := newSpeed * sin bounceAngle in
      {| ballX := rightPaddleX - BALL_RADIUS;
         ballY := ballY state;
         ballVelX := newVelX;
         ballVelY := newVelY;
         paddle1Y := paddle1Y state;
         paddle2Y := paddle2Y state |}
    else state.

Definition checkScoring (state : PhysicsState) : option Side :=
  if Rlt_dec (ballX state) (- BALL_RADIUS) then Some Player2
  else if Rgt_dec (ballX state) (ARENA_WIDTH + BALL_RADIUS) then Some Player1
  else None.

(** [y] is the argument as [Math.min] reads it, that is converted to a
    number: [NaN] when it is [undefined] or not numeric. *)
Definition clampPaddlePosition (y : Js.JsNumber) : Js.JsNumber :=
  let minY := PADDLE_HEIGHT / 2 in
  let maxY := ARENA_HEIGHT - PADDLE_HEIGHT / 2 in
  Js.Math_max (Js.Num minY) (Js.Math_min (Js.Num maxY) y).

Definition resetBall : BallState :=
  {| b_ballX := 50; b_ballY := 50; b_ballVelX := 0; b_ballVelY := 0 |}.

(** [rnd] is the value [Math.random()] returned, a real in [[0, 1)]. *)
Definition startBall (towardsPlayer : Side) (rnd : R) : BallState :=
  let angle := (rnd - 1 / 2) * (PI / 2) in
  let direction := match towardsPlayer with Player1 => -1 | Player2 => 1 end in
  {| b_ballX := 50;
     b_ballY := 50;
     b_ballVelX := direction * BALL_INITIAL_SPEED * cos angle;
     b_ballVelY := BALL_INITIAL_SPEED * sin angle |}.

(** The result [{ state, scored }] of [physicsTick] is a pair. *)
Definition physicsTick (state : PhysicsState) : PhysicsState * option Side :=
  let newState := updateBallPosition state in
  let newState := checkWallCollision newState in
  let newState := checkPaddleCollision newState in
  let scored := checkScoring newState in
  (newState, scored).

(** A paddle collision occurs on a tick when the state that reaches
    [checkPaddleCollision] satisfies the condition of one of its branches. *)
Definition paddleCollision (state : PhysicsState) : Prop :=
  let s := checkWallCollision (updateBallPosition state) in
  hitsPaddle1 s \/ hitsPaddle2 s.

#[global] Instance paddleCollision_dec state : Decision (paddleCollision state).
Proof. unfold paddleCollision; cbv zeta; apply or_dec; apply _. Defined.
End Physics.

(** ** gameLogic.ts *)

Module GameLogic.
Import Constants.
Import Types.

Record GameServerState := mkGameServerState {
  roomId : string;
  players : list PlayerInfo;
  gameState : GameState;
  tickCount : Z
}.

Definition createGameServerState (roomId : string) : GameServerState :=
  {| roomId := roomId; players := []; gameState := createInitialGameState;
     tickCount := 0 |}.

(** [{...state, players: ps}] *)
Definition withPlayers (state : GameServerState) (ps : list PlayerInfo) :=
  {| roomId := roomId state; players := ps; gameState := gameState state;
     tickCount := tickCount state |}.

(** [{...state, gameState: gs}] *)
Definition withGameState (state : GameServerState) (gs : GameState) :=
  {| roomId := roomId state; players := players state; gameState := gs;
     tickCount := tickCount state |}.

(** [{...state, tickCount: n}] *)
Definition withTickCount (state : GameServerState) (n : Z) :=
  {| roomId := roomId state; players := players state;
     gameState := gameState state; tickCount := n |}.

(** [{...gs, ...ballState}]: the four ball fields are overwritten. *)
Definition withBall (gs : GameState) (b : Physics.BallState) : GameState :=
  {| ballX := Physics.b_ballX b; ballY := Physics.b_ballY b;
     ballVelX := Physics.b_ballVelX b; ballVelY := Physics.b_ballVelY b;
     paddle1Y := paddle1Y gs; paddle2Y := paddle2Y gs;
     score1 := score1 gs; score2 := score2 gs;
     status := status gs; winner := winner gs; countdown := countdown gs |}.

Definition addPlayer (state : GameServerState) (connectionId username : string)
  : GameServerState :=
  if (2 <=? length (players state))%nat then state
  else
    let role := if (length (players state) =? 0)%nat then Host else Guest in
    let player := {| id := connectionId; username := username; role := role |} in
    withPlayers state (players state ++ [player]).

(** [(p) => p.id === connectionId] *)
Definition hasId (connectionId : string) (p : PlayerInfo) : bool :=
  String.eqb (id p) connectionId.

Definition removePlayer (state : GameServerState) (connectionId : string)
  : GameServerState :=
  match List.find (hasId connectionId) (players state) with
  | None => state
  | Some _ =>
    let newPlayers :=
      List.filter (fun p => negb (hasId connectionId p)) (players state) in
    let gs := gameState state in
    let newGameState :=
      if GameStatus_eqb (status gs) Playing || GameStatus_eqb (status gs) Countdown
      then
        (* remainingPlayer?.role === 'host' ? 'player1' : 'player2' *)
        let remainingPlayer := nth_error newPlayers 0 in
        let winner :=
          match remainingPlayer with
          | Some p => match role p with Host => Player1 | Guest => Player2 end
          | None => Player2
          end in
        {| ballX := ballX gs; ballY := ballY gs;
           ballVelX := ballVelX gs; ballVelY := ballVelY gs;
           paddle1Y := paddle1Y gs; paddle2Y := paddle2Y gs;
           score1 := score1 gs; score2 := score2 gs;
           status := Finished; winner := Some winner;
           countdown := countdown gs |}
      else gs in
    {| roomId := roomId state; players := newPlayers;
       gameState := newGameState; tickCount := tickCount state |}
  end.

Definition getPlayer (state : GameServerState) (connectionId : string)
  : option PlayerInfo :=
  List.find (hasId connectionId) (players state).

Definition updatePaddlePosition (state : GameServerState)
  (connectionId : string) (y : Js.JsNumber) : GameServerState :=
  match getPlayer state connectionId with
  | None => state
  | Some player =>
    let clampedY := Physics.clampPaddlePosition y in
    let gs := gameState state in
    match role player with
    | Host =>
      withGameState state
        {| ballX := ballX gs; ballY := ballY gs;
           ballVelX := ballVelX gs; ballVelY := ballVelY gs;
           paddle1Y := clampedY; paddle2Y := paddle2Y gs;
           score1 := score1 gs; score2 := score2 gs;
           status := status gs; winner := winner gs;
           countdown := countdown gs |}
    | Guest =>
      withGameState state
        {| ballX := ballX gs; ballY := ballY gs;
           ballVelX := ballVelX gs; ballVelY := ballVelY gs;
           paddle1Y := paddle1Y gs; paddle2Y := clampedY;
           score1 := score1 gs; score2 := score2 gs;
           status := status gs; winner := winner gs;
           countdown := countdown gs |}
    end
  end.

Definition startCountdown (state : GameServerState) : GameServerState :=
  if (length (players state) <? 2)%nat then state
  else
    let gs := gameState state in
    withGameState state
      {| ballX := ballX gs; ballY := ballY gs;
         ballVelX := ballVelX gs; ballVelY := ballVelY gs;
         paddle1Y := paddle1Y gs; paddle2Y := paddle2Y gs;
         score1 := score1 gs; score2 := score2 gs;
         status := Countdown; winner := winner gs;
         countdown := COUNTDOWN_SECONDS |}.

(** [{...gs, status: s}] *)
Definition withStatus (gs : GameState) (s : GameStatus) : GameState :=
  {| ballX := ballX gs; ballY := ballY gs;
     ballVelX := ballVelX gs; ballVelY := ballVelY gs;
     paddle1Y := paddle1Y gs; paddle2Y := paddle2Y gs;
     score1 := score1 gs; score2 := score2 gs;
     status := s; winner := winner gs; countdown := countdown gs |}.

(** [{...gs, countdown: n}] *)
Definition withCountdown (gs : GameState) (n : Z) : GameState :=
  {| ballX := ballX gs; ballY := ballY gs;
     ballVelX := ballVelX gs; ballVelY := ballVelY gs;
     paddle1Y := paddle1Y gs; paddle2Y := paddle2Y gs;
     score1 := score1 gs; score2 := score2 gs;
     status := status gs; winner := winner gs; countdown := n |}.

(** [rndSide] and [rndAngle] are the values of the two calls of
    [Math.random()]: the one in [startGame], then the one in [startBall]. *)
Definition startGame (state : GameServerState) (rndSide rndAngle : R)
  : GameServerState :=
  let serveToPlayer := if Rlt_dec rndSide (1 / 2) then Player1 else Player2 in
  let ballState := Physics.startBall serveToPlayer rndAngle in
  withGameState state
    (withCountdown (withBall (withStatus (gameState state) Playing) ballState) 0).

(** [rnd] is the value of the call of [Math.random()] in [startBall], made
    only when the game goes on. *)
Definition handleScoring (state : GameServerState) (scorer : Side) (rnd : R)
  : GameServerState :=
  let gs := gameState state in
  let score1' := match scorer with Player1 => (score1 gs + 1)%Z | Player2 => score1 gs end in
  let score2' := match scorer with Player1 => score2 gs | Player2 => (score2 gs + 1)%Z end in
  let '(winner', status') :=
    if (WINNING_SCORE <=? score1')%Z then (Some Player1, Finished)
    else if (WINNING_SCORE <=? score2')%Z then (Some Player2, Finished)
    else (None, status gs) in
  let finished := GameStatus_eqb status' Finished in
  let base :=
    {| ballX := ballX gs; ballY := ballY gs;
       ballVelX := ballVelX gs; ballVelY := ballVelY gs;
       paddle1Y := paddle1Y gs; paddle2Y := paddle2Y gs;
       score1 := score1'; score2 := score2';
       status := status'; winner := winner';
       countdown := countdown gs |} in
  (* ...ballState, where ballState = finished ? {} : resetBall() *)
  let afterReset := if finished then base else withBall base Physics.resetBall in
  (* ...(status !== 'finished' ? startBall(scorer) : {}) *)
  let afterServe :=
    if negb finished then withBall afterReset (Physics.startBall scorer rnd)
    else afterReset in
  withGameState state afterServe.

(** [Math.round(x)] is the largest integer not above [x + 0.5]. *)
Definition Math_round (x : R) : Z := Int_part (x + 1 / 2).

Definition ticksPerSecond : Z := Math_round (1000 / GAME_TICK_RATE).

(** [rnd1] and [rnd2] are the values of the calls of [Math.random()] a tick
    makes, in order: two in the countdown branch when the game starts, one
    in the playing branch when a point is scored and the game goes on. *)
Definition tick (state : GameServerState) (rnd1 rnd2 : R) : GameServerState :=
  let gs := gameState state in
  if GameStatus_eqb (status gs) Countdown then
    let newTickCount := (tickCount state + 1)%Z in
    let newCountdown :=
      if (Z.rem newTickCount ticksPerSecond =? 0)%Z
      then Z.max 0 (countdown gs - 1)
      else countdown gs in
    if (newCountdown =? 0)%Z && (0 <? countdown gs)%Z then
      startGame (withTickCount state newTickCount) rnd1 rnd2
    else
      {| roomId := roomId state; players := players state;
         gameState := withCountdown gs newCountdown;
         tickCount := newTickCount |}
  else if negb (GameStatus_eqb (status gs) Playing) then state
  else
    let physicsState :=
      {| Physics.ballX := ballX gs; Physics.ballY := ballY gs;
         Physics.ballVelX := ballVelX gs; Physics.ballVelY := ballVelY gs;
         Physics.paddle1Y := paddle1Y gs; Physics.paddle2Y := paddle2Y gs |} in
    let '(newPhysicsState, scored) := Physics.physicsTick physicsState in
    let newState :=
      {| roomId := roomId state; players := players state;
         gameState :=
           {| ballX := Physics.ballX newPhysicsState;
              ballY := Physics.ballY newPhysicsState;
              ballVelX := Physics.ballVelX newPhysicsState;
              ballVelY := Physics.ballVelY newPhysicsState;
              paddle1Y := paddle1Y gs; paddle2Y := paddle2Y gs;
              score1 := score1 gs; score2 := score2 gs;
              status := status gs; winner := winner gs;
              countdown := countdown gs |};
         tickCount := (tickCount state + 1)%Z |} in
    match scored with
    | Some scorer => handleScoring newState scorer rnd1
    | None => newState
    end.

Definition isReadyToStart (state : GameServerState) : bool :=
  (length (players state) =? 2)%nat && GameStatus_eqb (status (gameState state)) Waiting.
End GameLogic.

(** ** matchmakerLogic.ts *)

Module Matchmaker.

Record QueuedPlayer := mkQueuedPlayer {
  connectionId : string;
  username : string;
  joinedAt : Z
}.

Record MatchmakerState := mkMatchmakerState {
  queue : list QueuedPlayer;
  activeUsernames : gset string
}.

Record MatchResult := mkMatchResult {
  player1 : QueuedPlayer;
  player2 : QueuedPlayer;
  gameRoomId : string
}.

Inductive JoinError := USERNAME_TAKEN | INVALID_USERNAME.

(** The optional fields [position?] and [error?] are options; the
    projections carry the prefix [jq_] ([fm_] below) because both result
    records have a field [state]. *)
Record JoinQueueResult := mkJoinQueueResult {
  jq_success : bool;
  jq_state : MatchmakerState;
  jq_position : option nat;
  jq_error : option JoinError
}.

Record FindMatchResult := mkFindMatchResult {
  fm_state : MatchmakerState;
  fm_match : option MatchResult
}.

Definition createMatchmakerState : MatchmakerState :=
  {| queue := []; activeUsernames := ∅ |}.

(** [String.prototype.toLowerCase] on the letters [A]..[Z] (codes 65 to 90);
    every other character is kept.  Usernames that reach the matchmaker match
    [/^[a-zA-Z0-9_]{3,15}$/]. *)
Definition lowerAscii (c : ascii) : ascii :=
  let n := nat_of_ascii c in
  if (65 <=? n)%nat && (n <=? 90)%nat then ascii_of_nat (n + 32) else c.

Fixpoint toLowerCase (s : string) : string :=
  match s with
  | EmptyString => EmptyString
  | String c rest => String (lowerAscii c) (toLowerCase rest)
  end.

Definition isUsernameTaken (state : MatchmakerState) (username : string) : bool :=
  bool_decide (toLowerCase username ∈ activeUsernames state).

(** [now] is the value of [Date.now()]. *)
Definition joinQueue (state : MatchmakerState) (connectionId username : string)
  (now : Z) : JoinQueueResult :=
  let normalizedUsername := toLowerCase username in
  if bool_decide (normalizedUsername ∈ activeUsernames state) then
    {| jq_success := false; jq_state := state;
       jq_position := None; jq_error := Some USERNAME_TAKEN |}
  else
    let player :=
      {| connectionId := connectionId; username := username; joinedAt := now |} in
    let newQueue := queue state ++ [player] in
    let newUsernames := {[ normalizedUsername ]} ∪ activeUsernames state in
    {| jq_success := true;
       jq_state := {| queue := newQueue; activeUsernames := newUsernames |};
       jq_position := Some (length newQueue);
       jq_error := None |}.

(** [(p) => p.connectionId === connectionId] *)
Definition hasConnection (cid : string) (p : QueuedPlayer) : bool :=
  String.eqb (connectionId p) cid.

Definition leaveQueue (state : MatchmakerState) (connectionId : string)
  : MatchmakerState :=
  match List.find (hasConnection connectionId) (queue state) with
  | None => state
  | Some player =>
    let newQueue :=
      List.filter (fun p => negb (hasConnection connectionId p)) (queue state) in
    let newUsernames := activeUsernames state ∖ {[ toLowerCase (username player) ]} in
    {| queue := newQueue; activeUsernames := newUsernames |}
  end.

Definition freeUsername (state : MatchmakerState) (username : string)
  : MatchmakerState :=
  {| queue := queue state;
     activeUsernames := activeUsernames state ∖ {[ toLowerCase username ]} |}.

(** [timestamp] is [Date.now().toString(36)] and [random] is
    [Math.random().toString(36).substring(2, 8)]. *)
Definition generateGameRoomId (timestamp random : string) : string :=
  ("game-" ++ timestamp ++ "-" ++ random)%string.

(** [timestamp] and [random] are what [generateGameRoomId] reads from the
    clock and the random generator.  After the length test the array
    destructuring [[player1, player2, ...remainingQueue]] always finds two
    players; the last branch is never taken. *)
Definition findMatch (state : MatchmakerState) (timestamp random : string)
  : FindMatchResult :=
  if (length (queue state) <? 2)%nat then
    {| fm_state := state; fm_match := None |}
  else
    match queue state with
    | player1 :: player2 :: remainingQueue =>
      let m :=
        {| player1 := player1; player2 := player2;
           gameRoomId := generateGameRoomId timestamp random |} in
      {| fm_state :=
           {| queue := remainingQueue;
              activeUsernames := activeUsernames state |};
         fm_match := Some m |}
    | _ => {| fm_state := state; fm_match := None |}
    end.

(** [findIndex] gives the index of the first match. *)
Fixpoint findIndex (cid : string) (q : list QueuedPlayer) : option nat :=
  match q with
  | [] => None
  | p :: rest =>
    if hasConnection cid p then Some 0%nat
    else option_map S (findIndex cid rest)
  end.

Definition getQueuePosition (state : MatchmakerState) (connectionId : string) : Z :=
  match findIndex connectionId (queue state) with
  | None => -1
  | Some index => Z.of_nat index + 1
  end.
End Matchmaker.

(** * Vocabulary of the statements and sample states *)

Local Open Scope R_scope.

(** A ball faster than [BALL_MAX_SPEED], in mid-field, away from both
    paddles and walls. *)
Definition fastBall : Physics.PhysicsState :=
  {| Physics.ballX := 50; Physics.ballY := 50;
     Physics.ballVelX := 3; Physics.ballVelY := 0;
     Physics.paddle1Y := Js.Num 50; Physics.paddle2Y := Js.Num 50 |}.

(** A ball one step left of the face of the left paddle, moving left at the
    initial speed, level with the paddle centre. *)
Definition incomingBall : Physics.PhysicsState :=
  {| Physics.ballX := 7; Physics.ballY := 50;
     Physics.ballVelX := - (8 / 10); Physics.ballVelY := 0;
     Physics.paddle1Y := Js.Num 50; Physics.paddle2Y := Js.Num 50 |}.

(** Two game states agree on the ball: position and velocity. *)
Definition sameBall (a b : Types.GameState) : Prop :=
  Types.ballX a = Types.ballX b /\ Types.ballY a = Types.ballY b /\
  Types.ballVelX a = Types.ballVelX b /\ Types.ballVelY a = Types.ballVelY b.

(** Two game states agree on every field but the two paddle positions. *)
Definition agreeOffPaddles (a b : Types.GameState) : Prop :=
  sameBall a b /\
  Types.score1 a = Types.score1 b /\ Types.score2 a = Types.score2 b /\
  Types.status a = Types.status b /\ Types.winner a = Types.winner b /\
  Types.countdown a = Types.countdown b.

(** Two room states agree on everything outside the embedded game state. *)
Definition sameRoom (a b : GameLogic.GameServerState) : Prop :=
  GameLogic.roomId a = GameLogic.roomId b /\
  GameLogic.players a = GameLogic.players b /\
  GameLogic.tickCount a = GameLogic.tickCount b.

(** The side a role plays on: the host is player 1, the guest player 2. *)
Definition sideOfRole (r : Types.PlayerRole) : Types.Side :=
  match r with Types.Host => Types.Player1 | Types.Guest => Types.Player2 end.

(** The two scores once [handleScoring] has counted the point of [scorer]. *)
Definition scoreAfter1 (gs : Types.GameState) (scorer : Types.Side) : Z :=
  match scorer with
  | Types.Player1 => (Types.score1 gs + 1)%Z
  | Types.Player2 => Types.score1 gs
  end.

Definition scoreAfter2 (gs : Types.GameState) (scorer : Types.Side) : Z :=
  match scorer with
  | Types.Player1 => Types.score2 gs
  | Types.Player2 => (Types.score2 gs + 1)%Z
  end.

(** A room in the given status and at the given score, with the ball at
    [(x, y)], at rest, no player attached. *)
Definition roomAt (st : Types.GameStatus) (s1 s2 : Z) (x y : R)
  : GameLogic.GameServerState :=
  {| GameLogic.roomId := "test-room-123";
     GameLogic.players := [];
     GameLogic.gameState :=
       {| Types.ballX := x; Types.ballY := y;
          Types.ballVelX := 0; Types.ballVelY := 0;
          Types.paddle1Y := Js.Num 50; Types.paddle2Y := Js.Num 50;
          Types.score1 := s1; Types.score2 := s2;
          Types.status := st; Types.winner := None; Types.countdown := 0 |};
     GameLogic.tickCount := 0 |}.

(** [roomAt] with the given players attached. *)
Definition roomWith (ps : list Types.PlayerInfo) (st : Types.GameStatus)
  : GameLogic.GameServerState :=
  GameLogic.withPlayers (roomAt st 0 0 50 50) ps.

Definition hostPlayer : Types.PlayerInfo :=
  {| Types.id := "conn-1"; Types.username := "Player1"; Types.role := Types.Host |}.

Definition guestPlayer : Types.PlayerInfo :=
  {| Types.id := "conn-2"; Types.username := "Player2"; Types.role := Types.Guest |}.

(** A room whose match is running with the host alone: the guest left while
    the match was paused and the host resumed it. *)
Definition loneHostPlaying : GameLogic.GameServerState :=
  roomWith [hostPlayer] Types.Playing.

(** Four players in the order in which they joined the queue. *)
Definition playerA : Matchmaker.QueuedPlayer :=
  {| Matchmaker.connectionId := "conn-a"; Matchmaker.username := "Alice";
     Matchmaker.joinedAt := 1000 |}.
Definition playerB : Matchmaker.QueuedPlayer :=
  {| Matchmaker.connectionId := "conn-b"; Matchmaker.username := "Bob";
     Matchmaker.joinedAt := 1001 |}.
Definition playerC : Matchmaker.QueuedPlayer :=
  {| Matchmaker.connectionId := "conn-c"; Matchmaker.username := "Carol";
     Matchmaker.joinedAt := 1002 |}.
Definition playerD : Matchmaker.QueuedPlayer :=
  {| Matchmaker.connectionId := "conn-d"; Matchmaker.username := "Dave";
     Matchmaker.joinedAt := 1003 |}.

Definition fourQueued : Matchmaker.MatchmakerState :=
  {| Matchmaker.queue := [playerA; playerB; playerC; playerD];
     Matchmaker.activeUsernames := {[ "alice"; "bob"; "carol"; "dave" ]} |}.

(** The matchmaker once ["player1"] has joined an empty queue. *)
Definition onePlayerQueued : Matchmaker.MatchmakerState :=
  Matchmaker.jq_state
    (Matchmaker.joinQueue Matchmaker.createMatchmakerState "conn-1" "player1" 1000).

From stdpp Require Import pretty.

Local Open Scope R_scope.

(** ** types.ts: the wire messages *)

Module GameMessages.
Import Types.

(** [y] of [PADDLE_MOVE] is [input.y] as the clamp reads it: the message is
    cast from [JSON.parse] unchecked, so the field can be missing or not
    numeric, which is [Js.NaN], or a literal beyond the doubles, which is
    an infinity. *)
Inductive ClientMessage :=
| PADDLE_MOVE (y : Js.JsNumber) (timestamp : Z)
| READY
| PAUSE
| RESUME
| LEAVE.

Inductive ServerMessage :=
| GAME_STATE (state : GameState)
| PLAYER_JOINED (player : PlayerInfo)
| PLAYER_LEFT (playerId : string)
| ASSIGNED_ROLE (role : PlayerRole) (playerId : string)
| COUNTDOWN (seconds : Z)
| GAME_START
| GAME_OVER (winner : Winner) (finalScore : Z * Z)
| OPPONENT_DISCONNECTED
| ERROR (message : string).
End GameMessages.

Module MatchmakerMessages.
Inductive MatchmakerClientMessage :=
| JOIN_QUEUE (username : string)
| LEAVE_QUEUE.

(** [position] of [QUEUE_JOINED] is [result.position!], the optional field
    of the join result passed on as it is. *)
Inductive MatchmakerServerMessage :=
| QUEUE_JOINED (position : option nat)
| QUEUE_UPDATE (position totalInQueue : nat)
| MATCH_FOUND (gameRoomId opponent : string)
| USERNAME_TAKEN (username : string)
| ERROR (message : string).
End MatchmakerMessages.

(** ** party/game.ts: the game room server

    The class [GameServer] is a record of its two fields; [gameLoop] is
    [true] when the interval handle is set.  A handler returns the new
    server and the messages it sends, in order.  The callback of
    [setInterval] is [onTimer]; it can only run while the interval is set. *)

Module GameServer.
Import Types GameMessages.

Record Server := mkServer {
  state : GameLogic.GameServerState;
  gameLoop : bool
}.

(** [connection.send] to one connection, [room.broadcast] to all. *)
Inductive Action :=
| Send (connection : string) (message : ServerMessage)
| Broadcast (message : ServerMessage).

Definition create (roomId : string) : Server :=
  {| state := GameLogic.createGameServerState roomId; gameLoop := false |}.

Definition startGameLoop (s : Server) : Server :=
  if gameLoop s then s else {| state := state s; gameLoop := true |}.

Definition stopGameLoop (s : Server) : Server :=
  if gameLoop s then {| state := state s; gameLoop := false |} else s.

Definition broadcastGameState (s : Server) : list Action :=
  [Broadcast (GAME_STATE (GameLogic.gameState (state s)))].

Definition startCountdownPhase (s : Server) : Server * list Action :=
  let s1 := {| state := GameLogic.startCountdown (state s); gameLoop := gameLoop s |} in
  (startGameLoop s1,
   [Broadcast (COUNTDOWN (countdown (GameLogic.gameState (state s1))))]).

(** [usernameParam] is [url.searchParams.get('username')]: [None] for
    [null]; [null] and the empty string are falsy and give the default
    name [Player<n + 1>]. *)
Definition onConnect (s : Server) (connection : string)
  (usernameParam : option string) : Server * list Action :=
  let fallback := ("Player" +:+ pretty (length (GameLogic.players (state s)) + 1)%nat) in
  let username :=
    match usernameParam with
    | Some u => if String.eqb u "" then fallback else u
    | None => fallback
    end in
  let s1 := {| state := GameLogic.addPlayer (state s) connection username;
               gameLoop := gameLoop s |} in
  let player := List.find (GameLogic.hasId connection) (GameLogic.players (state s1)) in
  let joined :=
    match player with
    | Some p => [Send connection (ASSIGNED_ROLE (role p) connection);
                 Broadcast (PLAYER_JOINED p)]
    | None => []
    end in
  let current := [Send connection (GAME_STATE (GameLogic.gameState (state s1)))] in
  if GameLogic.isReadyToStart (state s1) then
    let '(s2, started) := startCountdownPhase s1 in
    (s2, joined ++ current ++ started)
  else (s1, joined ++ current).

Definition onClose (s : Server) (connection : string) : Server * list Action :=
  let leavingPlayer :=
    List.find (GameLogic.hasId connection) (GameLogic.players (state s)) in
  let s1 := {| state := GameLogic.removePlayer (state s) connection;
               gameLoop := gameLoop s |} in
  match leavingPlayer with
  | Some _ =>
    let left := [Broadcast (PLAYER_LEFT connection)] in
    if GameStatus_eqb (status (GameLogic.gameState (state s1))) Finished then
      (stopGameLoop s1, left ++ [Broadcast OPPONENT_DISCONNECTED])
    else (s1, left)
  | None => (s1, [])
  end.

Definition handlePaddleMove (s : Server) (sender : string) (y : Js.JsNumber) : Server :=
  {| state := GameLogic.updatePaddlePosition (state s) sender y;
     gameLoop := gameLoop s |}.

Definition handlePause (s : Server) : Server * list Action :=
  if GameStatus_eqb (status (GameLogic.gameState (state s))) Playing then
    let s1 := {| state := GameLogic.withGameState (state s)
                            (GameLogic.withStatus (GameLogic.gameState (state s)) Paused);
                 gameLoop := gameLoop s |} in
    let s2 := stopGameLoop s1 in
    (s2, broadcastGameState s2)
  else (s, []).

Definition handleResume (s : Server) : Server * list Action :=
  if GameStatus_eqb (status (GameLogic.gameState (state s))) Paused then
    let s1 := {| state := GameLogic.withGameState (state s)
                            (GameLogic.withStatus (GameLogic.gameState (state s)) Playing);
                 gameLoop := gameLoop s |} in
    let s2 := startGameLoop s1 in
    (s2, broadcastGameState s2)
  else (s, []).

(** [message] is the parsed client message; [None] stands for a text on
    which [JSON.parse] throws or whose [type] matches no case: the handler
    logs the error, if any, and changes nothing. *)
Definition onMessage (s : Server) (message : option ClientMessage) (sender : string)
  : Server * list Action :=
  match message with
  | Some (PADDLE_MOVE y _) => (handlePaddleMove s sender y, [])
  | Some READY => (s, [])
  | Some PAUSE => handlePause s
  | Some RESUME => handleResume s
  | Some LEAVE => onClose s sender
  | None => (s, [])
  end.

(** One firing of the interval set by [startGameLoop]; [rnd1] and [rnd2]
    are the random values of the tick.  A cleared interval does not fire:
    with [gameLoop] unset nothing happens. *)
Definition onTimer (s : Server) (rnd1 rnd2 : R) : Server * list Action :=
  if negb (gameLoop s) then (s, [])
  else
    let previousStatus := status (GameLogic.gameState (state s)) in
    let previousCountdown := countdown (GameLogic.gameState (state s)) in
    let s1 := {| state := GameLogic.tick (state s) rnd1 rnd2; gameLoop := gameLoop s |} in
    let gs := GameLogic.gameState (state s1) in
    let started :=
      if GameStatus_eqb previousStatus Countdown && GameStatus_eqb (status gs) Playing
      then [Broadcast GAME_START] else [] in
    let counted :=
      if GameStatus_eqb previousStatus Countdown
         && negb (countdown gs =? previousCountdown)%Z
      then [Broadcast (COUNTDOWN (countdown gs))] else [] in
    let '(s2, over) :=
      if GameStatus_eqb (status gs) Finished
      then (stopGameLoop s1,
            [Broadcast (GAME_OVER (winner gs) (score1 gs, score2 gs))])
      else (s1, []) in
    (s2, started ++ counted ++ over ++ broadcastGameState s2).
End GameServer.

(** ** party/game.ts: the matchmaker server

    The class [MatchmakerServer] has one field, the matchmaker state; a
    handler returns the new state and the messages it sends, in order. *)

Module MatchmakerServer.
Import MatchmakerMessages.

(** [connection.send] on the connection at hand, or on the connection that
    [room.getConnection(id)] finds, which sends only when that connection is
    still open. *)
Inductive Action :=
| Send (connection : string) (message : MatchmakerServerMessage)
| SendIfOpen (connectionId : string) (message : MatchmakerServerMessage).

(** [USERNAME_PATTERN = /^[a-zA-Z0-9_]{3,15}$/] of constants.ts. *)
Definition isWordChar (c : ascii) : bool :=
  let n := nat_of_ascii c in
  ((48 <=? n) && (n <=? 57) || (65 <=? n) && (n <=? 90)
   || (97 <=? n) && (n <=? 122) || (n =? 95))%nat.

Fixpoint everyChar (test : ascii -> bool) (s : string) : bool :=
  match s with
  | EmptyString => true
  | String c rest => test c && everyChar test rest
  end.

Definition USERNAME_PATTERN_test (username : string) : bool :=
  (3 <=? String.length username)%nat && (String.length username <=? 15)%nat
  && everyChar isWordChar username.

Definition create : Matchmaker.MatchmakerState := Matchmaker.createMatchmakerState.

Definition onConnect (state : Matchmaker.MatchmakerState) (connection : string)
  : Matchmaker.MatchmakerState * list Action :=
  (state, [Send connection (QUEUE_UPDATE 0 (length (Matchmaker.queue state)))]).

(** [queue.forEach((player, index) => ...)] from the given index on. *)
Fixpoint queueUpdates (players : list Matchmaker.QueuedPlayer) (index total : nat)
  : list Action :=
  match players with
  | [] => []
  | player :: rest =>
    SendIfOpen (Matchmaker.connectionId player) (QUEUE_UPDATE (index + 1) total)
    :: queueUpdates rest (S index) total
  end.

Definition broadcastQueueUpdate (state : Matchmaker.MatchmakerState) : list Action :=
  queueUpdates (Matchmaker.queue state) 0 (length (Matchmaker.queue state)).

Definition tryMatch (state : Matchmaker.MatchmakerState) (timestamp random : string)
  : Matchmaker.MatchmakerState * list Action :=
  let result := Matchmaker.findMatch state timestamp random in
  match Matchmaker.fm_match result with
  | Some m =>
    let state' := Matchmaker.fm_state result in
    let found :=
      [SendIfOpen (Matchmaker.connectionId (Matchmaker.player1 m))
         (MATCH_FOUND (Matchmaker.gameRoomId m)
                      (Matchmaker.username (Matchmaker.player2 m)));
       SendIfOpen (Matchmaker.connectionId (Matchmaker.player2 m))
         (MATCH_FOUND (Matchmaker.gameRoomId m)
                      (Matchmaker.username (Matchmaker.player1 m)))] in
    (state', found ++ broadcastQueueUpdate state')
  | None => (state, broadcastQueueUpdate state)
  end.

(** [now] is the [Date.now()] of [joinQueue]; [timestamp] and [random] are
    what [generateGameRoomId] reads. *)
Definition handleJoinQueue (state : Matchmaker.MatchmakerState)
  (sender username : string) (now : Z) (timestamp random : string)
  : Matchmaker.MatchmakerState * list Action :=
  if negb (USERNAME_PATTERN_test username) then
    (state,
     [Send sender
        (ERROR "Invalid username. Use 3-15 alphanumeric characters or underscores.")])
  else
    let result := Matchmaker.joinQueue state sender username now in
    if negb (Matchmaker.jq_success result) then
      (state, [Send sender (USERNAME_TAKEN username)])
    else
      let state1 := Matchmaker.jq_state result in
      let joined := [Send sender (QUEUE_JOINED (Matchmaker.jq_position result))] in
      let '(state2, matched) := tryMatch state1 timestamp random in
      (state2, joined ++ matched).

Definition handleLeaveQueue (state : Matchmaker.MatchmakerState) (sender : string)
  : Matchmaker.MatchmakerState * list Action :=
  let state' := Matchmaker.leaveQueue state sender in
  (state', broadcastQueueUpdate state').

(** [message] is the parsed client message; [None] stands for a text on
    which [JSON.parse] throws. *)
Definition onMessage (state : Matchmaker.MatchmakerState)
  (message : option MatchmakerClientMessage) (sender : string)
  (now : Z) (timestamp random : string)
  : Matchmaker.MatchmakerState * list Action :=
  match message with
  | Some (JOIN_QUEUE username) =>
    handleJoinQueue state sender username now timestamp random
  | Some LEAVE_QUEUE => handleLeaveQueue state sender
  | None => (state, [Send sender (ERROR "Invalid message format")])
  end.

Definition onClose (state : Matchmaker.MatchmakerState) (connection : string)
  : Matchmaker.MatchmakerState * list Action :=
  let state' := Matchmaker.leaveQueue state connection in
  (state', broadcastQueueUpdate state').

(** The [freeUsernames] action of [onRequest]:
    [body.usernames.forEach(username => freeUsername(...))]. *)
Definition freeUsernames (state : Matchmaker.MatchmakerState) (usernames : list string)
  : Matchmaker.MatchmakerState :=
  fold_left Matchmaker.freeUsername usernames state.
End MatchmakerServer.

(** * Vocabulary of the further properties *)

(** Proof steps shared by the physics lemmas. *)
Ltac unfold_constants :=
  unfold Constants.BALL_RADIUS, Constants.ARENA_HEIGHT, Constants.ARENA_WIDTH,
    Constants.PADDLE_MARGIN, Constants.PADDLE_WIDTH, Constants.PADDLE_HEIGHT,
    Constants.BALL_MAX_SPEED, Constants.BALL_SPEED_INCREMENT,
    Constants.BALL_INITIAL_SPEED in *.

Ltac physics_fields :=
  cbn [Physics.ballX Physics.ballY Physics.ballVelX Physics.ballVelY
       Physics.paddle1Y Physics.paddle2Y] in *.


(** The room after a sequence of connections [(connectionId, username)],
    each handled by [addPlayer]. *)
Definition joinAll (st : GameLogic.GameServerState) (joins : list (string * string))
  : GameLogic.GameServerState :=
  fold_left (fun s j => GameLogic.addPlayer s (fst j) (snd j)) joins st.

(** The room after a sequence of ticks; each tick gets its own pair of
    values of [Math.random()]. *)
Definition ticks (st : GameLogic.GameServerState) (rnds : list (R * R))
  : GameLogic.GameServerState :=
  fold_left (fun s r => GameLogic.tick s (fst r) (snd r)) rnds st.

(** A paddle centre is a finite number in the range [clampPaddlePosition]
    clamps to. *)
Definition inPaddleRange (y : Js.JsNumber) : Prop :=
  match y with
  | Js.Num r =>
    Constants.PADDLE_HEIGHT / 2 <= r
      <= Constants.ARENA_HEIGHT - Constants.PADDLE_HEIGHT / 2
  | Js.PosInf | Js.NegInf | Js.NaN => False
  end.

(** Both paddle centres are in that range. *)
Definition paddlesInRange (gs : Types.GameState) : Prop :=
  inPaddleRange (Types.paddle1Y gs) /\ inPaddleRange (Types.paddle2Y gs).

(** The speed of the ball of a game state. *)
Definition ballSpeed (gs : Types.GameState) : R :=
  sqrt (Types.ballVelX gs ^ 2 + Types.ballVelY gs ^ 2).

(** The physics snapshot [tick] takes of a game state. *)
Definition physicsOf (gs : Types.GameState) : Physics.PhysicsState :=
  {| Physics.ballX := Types.ballX gs; Physics.ballY := Types.ballY gs;
     Physics.ballVelX := Types.ballVelX gs; Physics.ballVelY := Types.ballVelY gs;
     Physics.paddle1Y := Types.paddle1Y gs; Physics.paddle2Y := Types.paddle2Y gs |}.

(** The room [tick] builds in the playing branch before it looks at the
    scoring signal: the ball of the new physics state written back, the
    tick counter advanced. *)
Definition advanced (st : GameLogic.GameServerState) : GameLogic.GameServerState :=
  let gs := GameLogic.gameState st in
  let p := fst (Physics.physicsTick (physicsOf gs)) in
  {| GameLogic.roomId := GameLogic.roomId st;
     GameLogic.players := GameLogic.players st;
     GameLogic.gameState :=
       {| Types.ballX := Physics.ballX p; Types.ballY := Physics.ballY p;
          Types.ballVelX := Physics.ballVelX p; Types.ballVelY := Physics.ballVelY p;
          Types.paddle1Y := Types.paddle1Y gs; Types.paddle2Y := Types.paddle2Y gs;
          Types.score1 := Types.score1 gs; Types.score2 := Types.score2 gs;
          Types.status := Types.status gs; Types.winner := Types.winner gs;
          Types.countdown := Types.countdown gs |};
     GameLogic.tickCount := (GameLogic.tickCount st + 1)%Z |}.

(** The score of a side. *)
Definition scoreOf (gs : Types.GameState) (side : Types.Side) : Z :=
  match side with
  | Types.Player1 => Types.score1 gs
  | Types.Player2 => Types.score2 gs
  end.

(** A room with both players attached, as [addPlayer] leaves it. *)
Definition twoPlayerRoom : GameLogic.GameServerState :=
  joinAll (GameLogic.createGameServerState "test-room-123")
          [("conn-1", "Player1"); ("conn-2", "Player2")]%string.

(** The lower-cased names of the queued players, in queue order. *)
Definition queuedNames (st : Matchmaker.MatchmakerState) : list string :=
  List.map (fun p => Matchmaker.toLowerCase (Matchmaker.username p))
           (Matchmaker.queue st).

(** No two queued players share a name up to letter case, and every queued
    name is in the active set. *)
Definition queueConsistent (st : Matchmaker.MatchmakerState) : Prop :=
  List.NoDup (queuedNames st) /\
  (forall n, In n (queuedNames st) -> n ∈ Matchmaker.activeUsernames st).

(** The connection is in the queue. *)
Definition queued (st : Matchmaker.MatchmakerState) (cid : string) : Prop :=
  exists p, In p (Matchmaker.queue st) /\ Matchmaker.connectionId p = cid.

(** What can happen to a game room server: a connection opens, a message
    arrives, a connection closes, the interval fires. *)
Inductive GameEvent :=
| Connect (connection : string) (usernameParam : option string)
| Message (sender : string) (message : option GameMessages.ClientMessage)
| Close (connection : string)
| Timer (rnd1 rnd2 : R).

Definition gameStep (s : GameServer.Server) (e : GameEvent)
  : GameServer.Server * list GameServer.Action :=
  match e with
  | Connect c u => GameServer.onConnect s c u
  | Message c m => GameServer.onMessage s m c
  | Close c => GameServer.onClose s c
  | Timer r1 r2 => GameServer.onTimer s r1 r2
  end.

(** The server handles its events one at a time; the messages add up. *)
Fixpoint gameRun (s : GameServer.Server) (es : list GameEvent)
  : GameServer.Server * list GameServer.Action :=
  match es with
  | [] => (s, [])
  | e :: rest =>
    let '(s1, out1) := gameStep s e in
    let '(s2, out2) := gameRun s1 rest in
    (s2, out1 ++ out2)
  end.

(** A match is in progress in [countdown] and [playing]. *)
Definition inProgress (st : Types.GameStatus) : bool :=
  match st with
  | Types.Countdown | Types.Playing => true
  | _ => false
  end.

(** The number of [GAME_OVER] broadcasts among the messages sent. *)
Fixpoint gameOvers (out : list GameServer.Action) : nat :=
  match out with
  | [] => 0
  | GameServer.Broadcast (GameMessages.GAME_OVER _ _) :: rest => S (gameOvers rest)
  | _ :: rest => gameOvers rest
  end.

(** The interval runs exactly while a match is in progress, and the room
    holds at most two players. *)
Definition serverConsistent (s : GameServer.Server) : Prop :=
  GameServer.gameLoop s
  = inProgress (Types.status (GameLogic.gameState (GameServer.state s))) /\
  (length (GameLogic.players (GameServer.state s)) <= 2)%nat.

(** The result of a finished match: status, winner and scores of the second
    state are [finished] and those of the first. *)
Definition sameResult (a b : Types.GameState) : Prop :=
  Types.status b = Types.Finished /\
  Types.winner b = Types.winner a /\
  Types.score1 b = Types.score1 a /\ Types.score2 b = Types.score2 a.

(** What can happen to the matchmaker server: a connection opens, a message
    arrives (with the clock and random readings its handling makes), a
    connection closes, a request frees usernames. *)
Inductive MatchmakerEvent :=
| QConnect (connection : string)
| QMessage (sender : string)
           (message : option MatchmakerMessages.MatchmakerClientMessage)
           (now : Z) (timestamp random : string)
| QClose (connection : string)
| QFree (usernames : list string).

Definition matchmakerStep (state : Matchmaker.MatchmakerState) (e : MatchmakerEvent)
  : Matchmaker.MatchmakerState * list MatchmakerServer.Action :=
  match e with
  | QConnect c => MatchmakerServer.onConnect state c
  | QMessage c m now ts rnd => MatchmakerServer.onMessage state m c now ts rnd
  | QClose c => MatchmakerServer.onClose state c
  | QFree names => (MatchmakerServer.freeUsernames state names, [])
  end.

Fixpoint matchmakerRun (state : Matchmaker.MatchmakerState) (es : list MatchmakerEvent)
  : Matchmaker.MatchmakerState * list MatchmakerServer.Action :=
  match es with
  | [] => (state, [])
  | e :: rest =>
    let '(s1, out1) := matchmakerStep state e in
    let '(s2, out2) := matchmakerRun s1 rest in
    (s2, out1 ++ out2)
  end.

(** * Properties of the physics engine *)

(** The clamp [Math.max(lo, Math.min(hi, x))] used by [clampPaddlePosition]
    and [calculateBallAngle]. *)
Lemma clamp_bounds (lo hi x : R) :
  lo <= hi -> lo <= Rmax lo (Rmin hi x) <= hi.
Proof.
  intros Hlh. unfold Rmax, Rmin.
  destruct (Rle_dec hi x); destruct (Rle_dec lo _); lra.
Qed.

Lemma clamp_id (lo hi x : R) :
  lo <= x <= hi -> Rmax lo (Rmin hi x) = x.
Proof.
  intros [Hl Hh]. unfold Rmax, Rmin.
  destruct (Rle_dec hi x); destruct (Rle_dec lo _); lra.
Qed.

Lemma clamp_mono (lo hi x y : R) :
  x <= y -> Rmax lo (Rmin hi x) <= Rmax lo (Rmin hi y).
Proof.
  intros Hxy. unfold Rmax, Rmin.
  destruct (Rle_dec hi x); destruct (Rle_dec hi y);
    repeat match goal with |- context [Rle_dec ?a ?b] => destruct (Rle_dec a b) end;
    lra.
Qed.

Lemma clamp_odd (x : R) :
  Rmax (-1) (Rmin 1 (- x)) = - Rmax (-1) (Rmin 1 x).
Proof.
  unfold Rmin. destruct (Rle_dec 1 (- x)); destruct (Rle_dec 1 x);
    unfold Rmax;
    repeat match goal with |- context [Rle_dec ?a ?b] => destruct (Rle_dec a b) end;
    lra.
Qed.

(** On a number [clampPaddlePosition] is the clamp of the reals. *)
Lemma clampPaddlePosition_Num (y : R) :
  Physics.clampPaddlePosition (Js.Num y)
  = Js.Num (Rmax (Constants.PADDLE_HEIGHT / 2)
                 (Rmin (Constants.ARENA_HEIGHT - Constants.PADDLE_HEIGHT / 2) y)).
Proof. reflexivity. Qed.

Lemma clampPaddlePosition_range (y : R) :
  exists r, Physics.clampPaddlePosition (Js.Num y) = Js.Num r /\ 10 <= r <= 90.
Proof.
  rewrite clampPaddlePosition_Num. eexists. split; [reflexivity |].
  unfold Constants.PADDLE_HEIGHT, Constants.ARENA_HEIGHT.
  replace (20 / 2) with 10 by lra. replace (100 - 10) with 90 by lra.
  apply clamp_bounds; lra.
Qed.

Lemma clampPaddlePosition_id (y : R) :
  10 <= y <= 90 -> Physics.clampPaddlePosition (Js.Num y) = Js.Num y.
Proof.
  intros Hy. rewrite clampPaddlePosition_Num. f_equal.
  unfold Constants.PADDLE_HEIGHT, Constants.ARENA_HEIGHT.
  apply clamp_id. lra.
Qed.

(** On [NaN] it is [NaN]. *)
Lemma clampPaddlePosition_NaN :
  Physics.clampPaddlePosition Js.NaN = Js.NaN.
Proof. reflexivity. Qed.

(** On the infinities it is the nearer bound. *)
Lemma clampPaddlePosition_infinite :
  Physics.clampPaddlePosition Js.PosInf = Js.Num 90 /\
  Physics.clampPaddlePosition Js.NegInf = Js.Num 10.
Proof.
  unfold Physics.clampPaddlePosition. cbn.
  unfold Constants.PADDLE_HEIGHT, Constants.ARENA_HEIGHT. split; f_equal.
  - rewrite Rmax_right; lra.
  - lra.
Qed.

(** The clamp is in the paddle range exactly when its argument is not
    [NaN]. *)
Lemma clampPaddlePosition_inPaddleRange (y : Js.JsNumber) :
  inPaddleRange (Physics.clampPaddlePosition y) <-> y <> Js.NaN.
Proof.
  assert (Hlo : Constants.PADDLE_HEIGHT / 2 = 10)
    by (unfold Constants.PADDLE_HEIGHT; lra).
  assert (Hhi : Constants.ARENA_HEIGHT - Constants.PADDLE_HEIGHT / 2 = 90)
    by (unfold Constants.ARENA_HEIGHT, Constants.PADDLE_HEIGHT; lra).
  destruct clampPaddlePosition_infinite as [Hpos Hneg].
  destruct y as [r | | |].
  - destruct (clampPaddlePosition_range r) as (c & Hc & Hrange).
    rewrite Hc. unfold inPaddleRange. rewrite Hhi, Hlo.
    split; [discriminate | intros _; exact Hrange].
  - rewrite Hpos. unfold inPaddleRange. rewrite Hhi, Hlo.
    split; [discriminate | intros _; lra].
  - rewrite Hneg. unfold inPaddleRange. rewrite Hhi, Hlo.
    split; [discriminate | intros _; lra].
  - rewrite clampPaddlePosition_NaN. cbn. split; [intros [] | congruence].
Qed.

(** The velocity only changes sign at a wall. *)
Lemma speed_updateBallPosition (s : Physics.PhysicsState) :
  Physics.speed (Physics.updateBallPosition s) = Physics.speed s.
Proof. reflexivity. Qed.

Lemma speed_checkWallCollision (s : Physics.PhysicsState) :
  Physics.speed (Physics.checkWallCollision s) = Physics.speed s.
Proof.
  unfold Physics.checkWallCollision, Physics.speed.
  destruct (Rle_dec _ _); destruct (Rge_dec _ _); cbn [Physics.ballVelX Physics.ballVelY];
    f_equal; f_equal;
    rewrite <- ?Rsqr_pow2, <- ?Rsqr_neg, <- ?Rsqr_abs; reflexivity.
Qed.

Lemma speed_nonneg (s : Physics.PhysicsState) : 0 <= Physics.speed s.
Proof. apply sqrt_pos. Qed.

(** A vector of length [n >= 0] at angle [a], whatever the sign given to its
    horizontal part, has length [n]. *)
Lemma bounce_speed (n a : R) :
  0 <= n ->
  sqrt (Rabs (n * cos a) ^ 2 + (n * sin a) ^ 2) = n /\
  sqrt ((- Rabs (n * cos a)) ^ 2 + (n * sin a) ^ 2) = n.
Proof.
  intros Hn.
  assert (E : Rabs (n * cos a) ^ 2 + (n * sin a) ^ 2 = n ^ 2).
  { rewrite pow2_abs. 
    replace ((n * cos a) ^ 2 + (n * sin a) ^ 2)
      with (n ^ 2 * (Rsqr (sin a) + Rsqr (cos a))) by (unfold Rsqr; ring).
    rewrite sin2_cos2. ring. }
  split.
  - rewrite E. apply sqrt_pow2. exact Hn.
  - replace ((- Rabs (n * cos a)) ^ 2) with (Rabs (n * cos a) ^ 2) by ring.
    rewrite E. apply sqrt_pow2. exact Hn.
Qed.

Lemma newSpeed_nonneg (s : Physics.PhysicsState) :
  0 <= Rmin (Physics.speed s + Constants.BALL_SPEED_INCREMENT) Constants.BALL_MAX_SPEED.
Proof.
  pose proof (speed_nonneg s).
  unfold Constants.BALL_SPEED_INCREMENT, Constants.BALL_MAX_SPEED.
  apply Rmin_glb; lra.
Qed.

Lemma speed_checkPaddleCollision_hit (s : Physics.PhysicsState) :
  Physics.hitsPaddle1 s \/ Physics.hitsPaddle2 s ->
  Physics.speed (Physics.checkPaddleCollision s)
  = Rmin (Physics.speed s + Constants.BALL_SPEED_INCREMENT) Constants.BALL_MAX_SPEED.
Proof.
  intros Hhit. unfold Physics.checkPaddleCollision. cbv zeta.
  destruct (decide (Physics.hitsPaddle1 s)) as [H1 | H1].
  - unfold Physics.speed at 1. cbn [Physics.ballVelX Physics.ballVelY].
    apply bounce_speed, newSpeed_nonneg.
  - destruct (decide (Physics.hitsPaddle2 s)) as [H2 | H2]; [| tauto].
    unfold Physics.speed at 1. cbn [Physics.ballVelX Physics.ballVelY].
    apply bounce_speed, newSpeed_nonneg.
Qed.

Lemma checkPaddleCollision_miss (s : Physics.PhysicsState) :
  ~ (Physics.hitsPaddle1 s \/ Physics.hitsPaddle2 s) ->
  Physics.checkPaddleCollision s = s.
Proof.
  intros Hmiss. unfold Physics.checkPaddleCollision. cbv zeta.
  destruct (decide (Physics.hitsPaddle1 s)); [tauto |].
  destruct (decide (Physics.hitsPaddle2 s)); [tauto | reflexivity].
Qed.

Lemma speed_physicsTick_hit (s : Physics.PhysicsState) :
  Physics.paddleCollision s ->
  Physics.speed (fst (Physics.physicsTick s))
  = Rmin (Physics.speed s + Constants.BALL_SPEED_INCREMENT) Constants.BALL_MAX_SPEED.
Proof.
  intros Hhit. unfold Physics.physicsTick. cbn [fst].
  rewrite speed_checkPaddleCollision_hit by exact Hhit.
  rewrite speed_checkWallCollision, speed_updateBallPosition. reflexivity.
Qed.

Lemma speed_physicsTick_miss (s : Physics.PhysicsState) :
  ~ Physics.paddleCollision s ->
  Physics.speed (fst (Physics.physicsTick s)) = Physics.speed s.
Proof.
  intros Hmiss. unfold Physics.physicsTick. cbn [fst].
  rewrite checkPaddleCollision_miss by exact Hmiss.
  rewrite speed_checkWallCollision, speed_updateBallPosition. reflexivity.
Qed.

Lemma fastBall_no_collision : ~ Physics.paddleCollision fastBall.
Proof.
  unfold Physics.paddleCollision, Physics.hitsPaddle1, Physics.hitsPaddle2,
    Physics.withinPaddle, Physics.checkWallCollision, Physics.updateBallPosition, fastBall.
  cbn [Physics.ballX Physics.ballY Physics.ballVelX Physics.ballVelY
       Physics.paddle1Y Physics.paddle2Y].
  unfold Constants.BALL_RADIUS, Constants.ARENA_HEIGHT, Constants.ARENA_WIDTH,
    Constants.PADDLE_MARGIN, Constants.PADDLE_WIDTH, Constants.PADDLE_HEIGHT.
  destruct (Rle_dec _ _); [lra |]. destruct (Rge_dec _ _); [lra |].
  cbn [Physics.ballX Physics.ballY Physics.ballVelX Physics.ballVelY
       Physics.paddle1Y Physics.paddle2Y].
  intros [H | H]; lra.
Qed.

Lemma fastBall_speed : Physics.speed fastBall = 3.
Proof.
  unfold Physics.speed, fastBall. cbn [Physics.ballVelX Physics.ballVelY].
  replace (3 ^ 2 + 0 ^ 2) with (3 ^ 2) by ring.
  apply sqrt_pow2. lra.
Qed.

Lemma incomingBall_collision : Physics.paddleCollision incomingBall.
Proof.
  left.
  unfold Physics.hitsPaddle1, Physics.withinPaddle, Physics.checkWallCollision,
    Physics.updateBallPosition, incomingBall.
  cbn [Physics.ballX Physics.ballY Physics.ballVelX Physics.ballVelY
       Physics.paddle1Y Physics.paddle2Y].
  unfold Constants.BALL_RADIUS, Constants.ARENA_HEIGHT,
    Constants.PADDLE_MARGIN, Constants.PADDLE_WIDTH, Constants.PADDLE_HEIGHT.
  destruct (Rle_dec _ _); [lra |]. destruct (Rge_dec _ _); [lra |].
  cbn [Physics.ballX Physics.ballY Physics.ballVelX Physics.ballVelY
       Physics.paddle1Y Physics.paddle2Y].
  lra.
Qed.

Lemma incomingBall_speed : Physics.speed incomingBall = 8 / 10.
Proof.
  unfold Physics.speed, incomingBall. cbn [Physics.ballVelX Physics.ballVelY].
  replace ((- (8 / 10)) ^ 2 + 0 ^ 2) with ((8 / 10) ^ 2) by ring.
  apply sqrt_pow2. lra.
Qed.

(** C6, as stated, fails: a tick without a paddle collision keeps the speed
    of the ball, so a ball that enters the tick at speed 3 leaves it at
    speed 3, above [BALL_MAX_SPEED = 2]. *)
Lemma physicsTick_speed_counterexample :
  ~ (0 <= Physics.speed (fst (Physics.physicsTick fastBall))
     <= Constants.BALL_MAX_SPEED).
Proof.
  rewrite (speed_physicsTick_miss fastBall fastBall_no_collision), fastBall_speed.
  unfold Constants.BALL_MAX_SPEED. lra.
Qed.

(** C6 (amended): for every physics state whose ball speed is at most
    [BALL_MAX_SPEED], the speed after [physicsTick] lies in
    [[0, BALL_MAX_SPEED]]; and on every tick in which a paddle collision
    occurs the speed after the tick is
    [min (speed before + BALL_SPEED_INCREMENT) BALL_MAX_SPEED], which is at
    most [BALL_MAX_SPEED] and strictly greater than the speed before
    whenever that was below [BALL_MAX_SPEED]. *)
Theorem physicsTick_speed_bounded :
  (forall s : Physics.PhysicsState,
      Physics.speed s <= Constants.BALL_MAX_SPEED ->
      0 <= Physics.speed (fst (Physics.physicsTick s)) <= Constants.BALL_MAX_SPEED) /\
  (forall s : Physics.PhysicsState,
      Physics.paddleCollision s ->
      Physics.speed (fst (Physics.physicsTick s))
      = Rmin (Physics.speed s + Constants.BALL_SPEED_INCREMENT)
             Constants.BALL_MAX_SPEED /\
      Physics.speed (fst (Physics.physicsTick s)) <= Constants.BALL_MAX_SPEED /\
      (Physics.speed s < Constants.BALL_MAX_SPEED ->
       Physics.speed s < Physics.speed (fst (Physics.physicsTick s)))).
Proof.
  assert (Hhit : forall s, Physics.paddleCollision s ->
    Physics.speed (fst (Physics.physicsTick s)) <= Constants.BALL_MAX_SPEED /\
    (Physics.speed s < Constants.BALL_MAX_SPEED ->
     Physics.speed s < Physics.speed (fst (Physics.physicsTick s)))).
  { intros s Hc. rewrite (speed_physicsTick_hit s Hc). split.
    - apply Rmin_r.
    - intros Hlt. apply Rmin_glb_lt; [| exact Hlt].
      unfold Constants.BALL_SPEED_INCREMENT. lra. }
  split.
  - intros s Hle. split; [apply speed_nonneg |].
    destruct (decide (Physics.paddleCollision s)) as [Hc | Hc].
    + apply Hhit, Hc.
    + rewrite (speed_physicsTick_miss s Hc). exact Hle.
  - intros s Hc. split; [apply speed_physicsTick_hit, Hc | apply Hhit, Hc].
Qed.

Lemma physicsTick_speed_bounded_witness :
  (0 <= Physics.speed (fst (Physics.physicsTick incomingBall)) <= Constants.BALL_MAX_SPEED)
  /\ Physics.speed incomingBall < Physics.speed (fst (Physics.physicsTick incomingBall)).
Proof.
  assert (Hs : Physics.speed incomingBall < Constants.BALL_MAX_SPEED).
  { rewrite incomingBall_speed. unfold Constants.BALL_MAX_SPEED. lra. }
  split.
  - apply (proj1 physicsTick_speed_bounded incomingBall). lra.
  - apply (proj2 physicsTick_speed_bounded incomingBall incomingBall_collision).
    exact Hs.
Defined.

(** C9: [calculateBallAngle] is odd about the paddle centre, its absolute
    value never exceeds [PI / 3] (60 degrees), and it is monotonically
    non-decreasing in the hit offset [ballY - paddleY]. *)
Theorem calculateBallAngle_odd_bounded_monotone :
  (forall paddleY d : R,
      Physics.calculateBallAngle (paddleY - d) paddleY
      = - Physics.calculateBallAngle (paddleY + d) paddleY) /\
  (forall ballY paddleY : R,
      Rabs (Physics.calculateBallAngle ballY paddleY) <= PI / 3) /\
  PI / 3 = 60 * (PI / 180) /\
  (forall ballY1 paddleY1 ballY2 paddleY2 : R,
      ballY1 - paddleY1 <= ballY2 - paddleY2 ->
      Physics.calculateBallAngle ballY1 paddleY1
      <= Physics.calculateBallAngle ballY2 paddleY2).
Proof.
  pose proof PI_RGT_0 as Hpi.
  unfold Physics.calculateBallAngle, Physics.MAX_BOUNCE_ANGLE,
    Constants.PADDLE_HEIGHT. cbv zeta.
  repeat split.
  - intros p d.
    replace ((p - d - p) / (20 / 2)) with (- ((p + d - p) / (20 / 2))) by lra.
    rewrite clamp_odd. ring.
  - intros b p.
    pose proof (clamp_bounds (-1) 1 ((b - p) / (20 / 2)) ltac:(lra)) as Hc.
    apply Rabs_le. split; nra.
  - lra.
  - intros b1 p1 b2 p2 Hle.
    apply Rmult_le_compat_r; [lra |].
    apply clamp_mono. lra.
Qed.

Lemma calculateBallAngle_monotone_witness :
  Physics.calculateBallAngle 45 50 <= Physics.calculateBallAngle 55 50.
Proof.
  apply (proj2 (proj2 (proj2 calculateBallAngle_odd_bounded_monotone)) 45 50 55 50).
  lra.
Defined.

(** C10: [physicsTick] returns a state whose [paddle1Y] and [paddle2Y] are
    those of its input. *)
Theorem physicsTick_preserves_paddles (s : Physics.PhysicsState) :
  Physics.paddle1Y (fst (Physics.physicsTick s)) = Physics.paddle1Y s /\
  Physics.paddle2Y (fst (Physics.physicsTick s)) = Physics.paddle2Y s.
Proof.
  unfold Physics.physicsTick, Physics.checkPaddleCollision. cbn [fst]. cbv zeta.
  destruct (decide (Physics.hitsPaddle1 _));
    [| destruct (decide (Physics.hitsPaddle2 _))];
    cbn [Physics.paddle1Y Physics.paddle2Y];
    unfold Physics.checkWallCollision;
    destruct (Rle_dec _ _); destruct (Rge_dec _ _); split; reflexivity.
Qed.

(** * Properties of the game room *)

Lemma handleScoring_scores (st : GameLogic.GameServerState) (scorer : Types.Side) (rnd : R) :
  let gs' := GameLogic.gameState (GameLogic.handleScoring st scorer rnd) in
  Types.score1 gs' = scoreAfter1 (GameLogic.gameState st) scorer /\
  Types.score2 gs' = scoreAfter2 (GameLogic.gameState st) scorer /\
  Types.paddle1Y gs' = Types.paddle1Y (GameLogic.gameState st) /\
  Types.paddle2Y gs' = Types.paddle2Y (GameLogic.gameState st) /\
  Types.countdown gs' = Types.countdown (GameLogic.gameState st) /\
  sameRoom (GameLogic.handleScoring st scorer rnd) st.
Proof.
  unfold GameLogic.handleScoring, scoreAfter1, scoreAfter2, sameRoom. cbv zeta.
  destruct scorer;
    repeat match goal with
           | |- context [Z.leb ?a ?b] => destruct (Z.leb a b)
           end;
    cbn; try destruct (Types.status _); cbn; repeat split; reflexivity.
Qed.

Lemma handleScoring_player1_wins (st : GameLogic.GameServerState) (scorer : Types.Side) (rnd : R) :
  (Constants.WINNING_SCORE <= scoreAfter1 (GameLogic.gameState st) scorer)%Z ->
  let gs' := GameLogic.gameState (GameLogic.handleScoring st scorer rnd) in
  Types.status gs' = Types.Finished /\ Types.winner gs' = Some Types.Player1 /\
  sameBall gs' (GameLogic.gameState st).
Proof.
  intros Hw. apply Z.leb_le in Hw.
  unfold GameLogic.handleScoring, sameBall. cbv zeta.
  unfold scoreAfter1 in Hw. rewrite Hw. cbn. repeat split; reflexivity.
Qed.

Lemma handleScoring_player2_wins (st : GameLogic.GameServerState) (scorer : Types.Side) (rnd : R) :
  (scoreAfter1 (GameLogic.gameState st) scorer < Constants.WINNING_SCORE)%Z ->
  (Constants.WINNING_SCORE <= scoreAfter2 (GameLogic.gameState st) scorer)%Z ->
  let gs' := GameLogic.gameState (GameLogic.handleScoring st scorer rnd) in
  Types.status gs' = Types.Finished /\ Types.winner gs' = Some Types.Player2 /\
  sameBall gs' (GameLogic.gameState st).
Proof.
  intros H1 H2. apply Z.leb_gt in H1. apply Z.leb_le in H2.
  unfold GameLogic.handleScoring, sameBall. cbv zeta.
  unfold scoreAfter1 in H1. unfold scoreAfter2 in H2. rewrite H1, H2.
  cbn. repeat split; reflexivity.
Qed.

Lemma handleScoring_goes_on (st : GameLogic.GameServerState) (scorer : Types.Side) (rnd : R) :
  (scoreAfter1 (GameLogic.gameState st) scorer < Constants.WINNING_SCORE)%Z ->
  (scoreAfter2 (GameLogic.gameState st) scorer < Constants.WINNING_SCORE)%Z ->
  Types.status (GameLogic.gameState st) <> Types.Finished ->
  let gs' := GameLogic.gameState (GameLogic.handleScoring st scorer rnd) in
  Types.status gs' = Types.status (GameLogic.gameState st) /\
  Types.winner gs' = None /\
  Types.ballX gs' = 50 /\ Types.ballY gs' = 50 /\
  Types.ballVelX gs' = Physics.b_ballVelX (Physics.startBall scorer rnd) /\
  Types.ballVelY gs' = Physics.b_ballVelY (Physics.startBall scorer rnd).
Proof.
  intros H1 H2 Hst. apply Z.leb_gt in H1. apply Z.leb_gt in H2.
  unfold GameLogic.handleScoring. cbv zeta.
  unfold scoreAfter1 in H1. unfold scoreAfter2 in H2. rewrite H1, H2.
  destruct (Types.status (GameLogic.gameState st)) eqn:E;
    try congruence; cbn; rewrite ?E; repeat split; reflexivity.
Qed.

(** The serve leaves the centre with a horizontal velocity whose sign is
    that of the side it is aimed at. *)
Lemma startBall_direction (towardsPlayer : Types.Side) (rnd : R) :
  0 <= rnd < 1 ->
  match towardsPlayer with
  | Types.Player1 => Physics.b_ballVelX (Physics.startBall towardsPlayer rnd) < 0
  | Types.Player2 => Physics.b_ballVelX (Physics.startBall towardsPlayer rnd) > 0
  end.
Proof.
  intros [Hlo Hhi]. pose proof PI_RGT_0 as Hpi.
  assert (Hc : 0 < cos ((rnd - 1 / 2) * (PI / 2))) by (apply cos_gt_0; nra).
  unfold Physics.startBall, Constants.BALL_INITIAL_SPEED. cbv zeta.
  destruct towardsPlayer; cbn [Physics.b_ballVelX]; nra.
Qed.

(** C2, as stated, fails in its second half: [handleScoring] tests the score
    of player 1 first, so when player 1 already holds 7 points and player 2
    scores from 6, the winner is player 1. *)
Lemma handleScoring_winning_point_counterexample :
  Types.score2 (GameLogic.gameState (roomAt Types.Playing 7 6 50 50)) = 6%Z /\
  Types.winner
    (GameLogic.gameState
       (GameLogic.handleScoring (roomAt Types.Playing 7 6 50 50) Types.Player2 (1 / 2)))
  = Some Types.Player1.
Proof.
  split; [reflexivity |].
  apply (handleScoring_player1_wins (roomAt Types.Playing 7 6 50 50) Types.Player2).
  cbn. unfold Constants.WINNING_SCORE. lia.
Qed.

(** C2 (amended): for every game-room state with [score1 = 6],
    [handleScoring state 'player1'] yields [score1 = 7], status [finished],
    winner ['player1'] and leaves the ball position and velocity as they
    were; for every game-room state with [score2 = 6] and [score1 < 7],
    [handleScoring state 'player2'] yields [score2 = 7], status [finished],
    winner ['player2'] and leaves the ball as it was. *)
Theorem handleScoring_winning_point (st : GameLogic.GameServerState) (rnd : R) :
  (Types.score1 (GameLogic.gameState st) = 6%Z ->
   let gs' := GameLogic.gameState (GameLogic.handleScoring st Types.Player1 rnd) in
   Types.score1 gs' = 7%Z /\ Types.status gs' = Types.Finished /\
   Types.winner gs' = Some Types.Player1 /\
   sameBall gs' (GameLogic.gameState st)) /\
  (Types.score2 (GameLogic.gameState st) = 6%Z ->
   (Types.score1 (GameLogic.gameState st) < 7)%Z ->
   let gs' := GameLogic.gameState (GameLogic.handleScoring st Types.Player2 rnd) in
   Types.score2 gs' = 7%Z /\ Types.status gs' = Types.Finished /\
   Types.winner gs' = Some Types.Player2 /\
   sameBall gs' (GameLogic.gameState st)).
Proof.
  split.
  - intros H6 gs'.
    destruct (handleScoring_scores st Types.Player1 rnd) as (Hs1 & _).
    destruct (handleScoring_player1_wins st Types.Player1 rnd) as (Hst & Hw & Hb).
    { cbn. rewrite H6. unfold Constants.WINNING_SCORE. lia. }
    subst gs'. rewrite Hs1. cbn. rewrite H6. auto.
  - intros H6 Hlt gs'.
    destruct (handleScoring_scores st Types.Player2 rnd) as (_ & Hs2 & _).
    destruct (handleScoring_player2_wins st Types.Player2 rnd) as (Hst & Hw & Hb).
    { cbn. unfold Constants.WINNING_SCORE. lia. }
    { cbn. rewrite H6. unfold Constants.WINNING_SCORE. lia. }
    subst gs'. rewrite Hs2. cbn. rewrite H6. auto.
Qed.

Lemma handleScoring_winning_point_witness :
  Types.winner
    (GameLogic.gameState
       (GameLogic.handleScoring (roomAt Types.Playing 6 3 10 80) Types.Player1 (1 / 2)))
  = Some Types.Player1 /\
  Types.winner
    (GameLogic.gameState
       (GameLogic.handleScoring (roomAt Types.Playing 3 6 10 80) Types.Player2 (1 / 2)))
  = Some Types.Player2.
Proof.
  split.
  - apply (proj1 (handleScoring_winning_point (roomAt Types.Playing 6 3 10 80) (1 / 2))).
    reflexivity.
  - apply (proj2 (handleScoring_winning_point (roomAt Types.Playing 3 6 10 80) (1 / 2))).
    + reflexivity.
    + cbn. lia.
Defined.

(** C3, as stated, fails on two kinds of states in which the scorer's score
    stays below 7: a room that is already [finished] (a forfeited match)
    keeps its ball where it was, and so does a room in which the other side
    already holds 7 points. *)
Lemma handleScoring_reserve_counterexample :
  (Types.score1 (GameLogic.gameState (roomAt Types.Finished 0 0 10 80)) + 1 < 7)%Z /\
  Types.ballX
    (GameLogic.gameState
       (GameLogic.handleScoring (roomAt Types.Finished 0 0 10 80) Types.Player1 (1 / 2)))
  = 10 /\
  (Types.score2 (GameLogic.gameState (roomAt Types.Playing 7 0 10 80)) + 1 < 7)%Z /\
  Types.ballX
    (GameLogic.gameState
       (GameLogic.handleScoring (roomAt Types.Playing 7 0 10 80) Types.Player2 (1 / 2)))
  = 10 /\
  10 <> 50.
Proof.
  repeat split; try (cbn; lia); try reflexivity. lra.
Qed.

(** C3 (amended): for every game-room state whose status is not [finished]
    and in which, once the point is counted, both scores are below 7, and
    for every value in [[0, 1)] of [Math.random()], [handleScoring state
    scorer] increments the scorer's score by one, keeps the other score and
    the status, and serves the ball from the centre [(50, 50)] with a
    nonzero horizontal velocity directed toward the scoring side: negative
    [ballVelX] when the scorer is ['player1'], positive when ['player2']. *)
Theorem handleScoring_reserve (st : GameLogic.GameServerState)
  (scorer : Types.Side) (rnd : R) :
  0 <= rnd < 1 ->
  Types.status (GameLogic.gameState st) <> Types.Finished ->
  (scoreAfter1 (GameLogic.gameState st) scorer < 7)%Z ->
  (scoreAfter2 (GameLogic.gameState st) scorer < 7)%Z ->
  let gs := GameLogic.gameState st in
  let gs' := GameLogic.gameState (GameLogic.handleScoring st scorer rnd) in
  match scorer with
  | Types.Player1 =>
    Types.score1 gs' = (Types.score1 gs + 1)%Z /\ Types.score2 gs' = Types.score2 gs /\
    Types.ballVelX gs' < 0
  | Types.Player2 =>
    Types.score2 gs' = (Types.score2 gs + 1)%Z /\ Types.score1 gs' = Types.score1 gs /\
    Types.ballVelX gs' > 0
  end /\
  Types.ballX gs' = 50 /\ Types.ballY gs' = 50 /\
  Types.ballVelX gs' <> 0 /\
  Types.status gs' = Types.status gs.
Proof.
  intros Hrnd Hst H1 H2 gs gs'.
  destruct (handleScoring_scores st scorer rnd) as (Hs1 & Hs2 & _).
  destruct (handleScoring_goes_on st scorer rnd H1 H2 Hst)
    as (Hstatus & _ & Hx & Hy & Hvx & _).
  pose proof (startBall_direction scorer rnd Hrnd) as Hdir.
  fold gs' in Hs1, Hs2, Hstatus, Hx, Hy, Hvx. fold gs in Hs1, Hs2, Hstatus.
  rewrite <- Hvx in Hdir.
  destruct scorer; cbn in Hs1, Hs2; repeat split; auto; lra.
Qed.

Lemma handleScoring_reserve_witness :
  Types.ballX
    (GameLogic.gameState
       (GameLogic.handleScoring (roomAt Types.Playing 2 3 10 80) Types.Player1 (1 / 4)))
  = 50.
Proof.
  apply (handleScoring_reserve (roomAt Types.Playing 2 3 10 80) Types.Player1 (1 / 4)).
  - lra.
  - cbn. discriminate.
  - cbn. lia.
  - cbn. lia.
Defined.

(** C7, as stated, fails: outside [countdown] and [playing], [tick] returns
    its argument, so the tick counter is not incremented. *)
Lemma tick_idle_counterexample :
  Types.status (GameLogic.gameState (roomAt Types.Waiting 0 0 50 50)) = Types.Waiting /\
  GameLogic.tickCount (roomAt Types.Waiting 0 0 50 50) = 0%Z /\
  GameLogic.tickCount (GameLogic.tick (roomAt Types.Waiting 0 0 50 50) (1 / 2) (1 / 2)) = 0%Z /\
  ~ (GameLogic.tickCount (GameLogic.tick (roomAt Types.Waiting 0 0 50 50) (1 / 2) (1 / 2))
     = (GameLogic.tickCount (roomAt Types.Waiting 0 0 50 50) + 1)%Z).
Proof. repeat split; try reflexivity. cbn. lia. Qed.

(** C7 (amended): for every game-room state whose status is [waiting],
    [paused] or [finished], [tick state] is [state] itself: every field is
    unchanged, the tick counter included. *)
Theorem tick_idle_unchanged (st : GameLogic.GameServerState) (rnd1 rnd2 : R) :
  Types.status (GameLogic.gameState st) = Types.Waiting \/
  Types.status (GameLogic.gameState st) = Types.Paused \/
  Types.status (GameLogic.gameState st) = Types.Finished ->
  GameLogic.tick st rnd1 rnd2 = st.
Proof.
  intros H. unfold GameLogic.tick. cbv zeta.
  destruct H as [H | [H | H]]; rewrite H; reflexivity.
Qed.

Lemma tick_idle_unchanged_witness :
  GameLogic.tick (roomAt Types.Paused 2 3 40 60) (1 / 2) (1 / 2)
  = roomAt Types.Paused 2 3 40 60.
Proof.
  apply (tick_idle_unchanged (roomAt Types.Paused 2 3 40 60)).
  right; left; reflexivity.
Defined.

(** [find] on the player list against membership. *)
Lemma getPlayer_none (st : GameLogic.GameServerState) (cid : string) :
  GameLogic.getPlayer st cid = None <->
  (forall p, In p (GameLogic.players st) -> Types.id p <> cid).
Proof.
  unfold GameLogic.getPlayer. split.
  - intros Hnone p Hin Heq.
    pose proof (find_none _ _ Hnone p Hin) as Hf.
    unfold GameLogic.hasId in Hf. apply String.eqb_neq in Hf. contradiction.
  - intros Hall. destruct (find _ _) as [p |] eqn:E; [| reflexivity].
    apply find_some in E as [Hin Hf].
    unfold GameLogic.hasId in Hf. apply String.eqb_eq in Hf.
    exfalso. exact (Hall p Hin Hf).
Qed.

Lemma getPlayer_some (st : GameLogic.GameServerState) (cid : string) :
  (exists p, In p (GameLogic.players st) /\ Types.id p = cid) ->
  exists player, GameLogic.getPlayer st cid = Some player /\
                 In player (GameLogic.players st) /\ Types.id player = cid.
Proof.
  intros (p & Hin & Hid).
  destruct (GameLogic.getPlayer st cid) as [q |] eqn:E.
  - exists q. split; [reflexivity |].
    unfold GameLogic.getPlayer in E. apply find_some in E as [Hq Hf].
    unfold GameLogic.hasId in Hf. apply String.eqb_eq in Hf. auto.
  - exfalso. exact (proj1 (getPlayer_none st cid) E p Hin Hid).
Qed.

(** What [updatePaddlePosition] does, whatever [y] is: if the connection
    matches no player it returns the state unchanged; otherwise it writes
    [clampPaddlePosition y] to [paddle1Y] when the role of the matched
    player is [host] and to [paddle2Y] otherwise, and changes nothing
    else. *)
Lemma updatePaddlePosition_writes (st : GameLogic.GameServerState)
  (cid : string) (y : Js.JsNumber) :
  ((forall p, In p (GameLogic.players st) -> Types.id p <> cid) ->
   GameLogic.updatePaddlePosition st cid y = st) /\
  ((exists p, In p (GameLogic.players st) /\ Types.id p = cid) ->
   exists player,
     GameLogic.getPlayer st cid = Some player /\
     In player (GameLogic.players st) /\ Types.id player = cid /\
     let gs := GameLogic.gameState st in
     let st' := GameLogic.updatePaddlePosition st cid y in
     let gs' := GameLogic.gameState st' in
     sameRoom st' st /\ agreeOffPaddles gs' gs /\
     match Types.role player with
     | Types.Host =>
       Types.paddle1Y gs' = Physics.clampPaddlePosition y /\
       Types.paddle2Y gs' = Types.paddle2Y gs
     | Types.Guest =>
       Types.paddle2Y gs' = Physics.clampPaddlePosition y /\
       Types.paddle1Y gs' = Types.paddle1Y gs
     end).
Proof.
  split.
  - intros Hnone. apply getPlayer_none in Hnone.
    unfold GameLogic.updatePaddlePosition. rewrite Hnone. reflexivity.
  - intros Hsome. destruct (getPlayer_some st cid Hsome) as (player & Hget & Hin & Hid).
    exists player. repeat (split; [assumption |]).
    unfold GameLogic.updatePaddlePosition. rewrite Hget.
    unfold sameRoom, agreeOffPaddles, sameBall.
    destruct (Types.role player); cbn; repeat split; reflexivity.
Qed.

(** On every [y] other than [NaN] the clamp lies in
    [[PADDLE_HEIGHT / 2, ARENA_HEIGHT - PADDLE_HEIGHT / 2] = [10, 90]], and
    it is [y] when [y] is in that range. *)
Lemma clampPaddlePosition_numbers (y : Js.JsNumber) :
  (Constants.PADDLE_HEIGHT / 2 = 10 /\
   Constants.ARENA_HEIGHT - Constants.PADDLE_HEIGHT / 2 = 90) /\
  (y <> Js.NaN -> inPaddleRange (Physics.clampPaddlePosition y)) /\
  (inPaddleRange y -> Physics.clampPaddlePosition y = y).
Proof.
  assert (Hlo : Constants.PADDLE_HEIGHT / 2 = 10)
    by (unfold Constants.PADDLE_HEIGHT; lra).
  assert (Hhi : Constants.ARENA_HEIGHT - Constants.PADDLE_HEIGHT / 2 = 90)
    by (unfold Constants.ARENA_HEIGHT, Constants.PADDLE_HEIGHT; lra).
  split; [split; assumption |]. split.
  - apply clampPaddlePosition_inPaddleRange.
  - destruct y as [r | | |]; cbn [inPaddleRange]; [| intros [] ..].
    rewrite Hhi, Hlo. apply clampPaddlePosition_id.
Qed.

(** C8, at the input on which the code departs from it.  A [PADDLE_MOVE]
    whose [y] is missing or not numeric reaches [clampPaddlePosition] as
    [NaN]; [Math.min] and [Math.max] return [NaN], so the clamp is [NaN],
    which does not lie in [[10, 90]], and [updatePaddlePosition] writes it
    to the paddle of the sender: through [onMessage] of the server the
    paddle of the host of a running match becomes [NaN].  [NaN] is the only
    such input: on every other [y] the clamp is in the range. *)
Theorem updatePaddlePosition_stores_NaN :
  Physics.clampPaddlePosition Js.NaN = Js.NaN /\
  ~ inPaddleRange (Physics.clampPaddlePosition Js.NaN) /\
  (forall y, inPaddleRange (Physics.clampPaddlePosition y) <-> y <> Js.NaN) /\
  Types.paddle1Y
    (GameLogic.gameState
       (GameLogic.updatePaddlePosition
          (roomWith [hostPlayer; guestPlayer] Types.Playing) "conn-1" Js.NaN))
  = Js.NaN /\
  Types.paddle1Y
    (GameLogic.gameState
       (GameServer.state
          (fst (GameServer.onMessage
                  (GameServer.mkServer
                     (roomWith [hostPlayer; guestPlayer] Types.Playing) true)
                  (Some (GameMessages.PADDLE_MOVE Js.NaN 0)) "conn-1"))))
  = Js.NaN /\
  ~ paddlesInRange
      (GameLogic.gameState
         (GameLogic.updatePaddlePosition
            (roomWith [hostPlayer; guestPlayer] Types.Playing) "conn-1" Js.NaN)).
Proof.
  split; [reflexivity |]. split; [intros [] |].
  split; [apply clampPaddlePosition_inPaddleRange |].
  split; [reflexivity |]. split; [reflexivity |].
  intros [H _]. exact H.
Qed.

(** What [removePlayer] does for a known connection while a match is in
    progress: every player with that connection id is removed, the status
    becomes [finished], and the winner is the side of the first remaining
    player; with no remaining player the winner is ['player2']. *)
Lemma removePlayer_forfeit (st : GameLogic.GameServerState) (cid : string) :
  ((forall p, In p (GameLogic.players st) -> Types.id p <> cid) ->
   GameLogic.removePlayer st cid = st) /\
  ((exists p, In p (GameLogic.players st) /\ Types.id p = cid) ->
   Types.status (GameLogic.gameState st) = Types.Countdown \/
   Types.status (GameLogic.gameState st) = Types.Playing ->
   let st' := GameLogic.removePlayer st cid in
   GameLogic.players st'
   = List.filter (fun p => negb (GameLogic.hasId cid p)) (GameLogic.players st) /\
   (forall p, In p (GameLogic.players st') <->
              In p (GameLogic.players st) /\ Types.id p <> cid) /\
   Types.status (GameLogic.gameState st') = Types.Finished /\
   (forall remaining others,
       GameLogic.players st' = remaining :: others ->
       Types.winner (GameLogic.gameState st')
       = Some (sideOfRole (Types.role remaining))) /\
   (GameLogic.players st' = [] ->
    Types.winner (GameLogic.gameState st') = Some Types.Player2)).
Proof.
  split.
  - intros Hnone. apply getPlayer_none in Hnone.
    unfold GameLogic.removePlayer. unfold GameLogic.getPlayer in Hnone.
    rewrite Hnone. reflexivity.
  - intros Hsome Hst st'.
    destruct (getPlayer_some st cid Hsome) as (player & Hget & _).
    unfold GameLogic.getPlayer in Hget.
    assert (Hplayers : GameLogic.players st'
      = List.filter (fun p => negb (GameLogic.hasId cid p)) (GameLogic.players st)).
    { subst st'. unfold GameLogic.removePlayer. rewrite Hget. reflexivity. }
    split; [exact Hplayers |]. split; [| split; [| split]].
    + intros p. rewrite Hplayers, filter_In. unfold GameLogic.hasId.
      rewrite negb_true_iff, String.eqb_neq. reflexivity.
    + subst st'. unfold GameLogic.removePlayer. rewrite Hget.
      destruct Hst as [Hst | Hst]; rewrite Hst; reflexivity.
    + intros remaining others Hrem. rewrite Hplayers in Hrem.
      subst st'. unfold GameLogic.removePlayer. rewrite Hget. cbv zeta.
      rewrite Hrem.
      destruct Hst as [Hst | Hst]; rewrite Hst; cbn;
        destruct (Types.role remaining); reflexivity.
    + intros Hrem. rewrite Hplayers in Hrem.
      subst st'. unfold GameLogic.removePlayer. rewrite Hget. cbv zeta.
      rewrite Hrem.
      destruct Hst as [Hst | Hst]; rewrite Hst; reflexivity.
Qed.

(** C1, at the input on which the code departs from it: when the only
    player of a running match leaves, nobody remains, and [removePlayer]
    does not leave the winner unset ([None], as it was): it names
    ['player2'] the winner. *)
Theorem removePlayer_last_player_winner :
  Types.status (GameLogic.gameState loneHostPlaying) = Types.Playing /\
  Types.winner (GameLogic.gameState loneHostPlaying) = None /\
  GameLogic.players (GameLogic.removePlayer loneHostPlaying "conn-1") = [] /\
  Types.status (GameLogic.gameState (GameLogic.removePlayer loneHostPlaying "conn-1"))
  = Types.Finished /\
  Types.winner (GameLogic.gameState (GameLogic.removePlayer loneHostPlaying "conn-1"))
  = Some Types.Player2.
Proof. repeat split; reflexivity. Qed.

(** * Properties of the matchmaking queue *)

Example toLowerCase_Player1 :
  Matchmaker.toLowerCase "Player1" = "player1"%string.
Proof. reflexivity. Qed.

(** C4: if the lower-cased name is in the active-name set, [joinQueue] fails
    with [USERNAME_TAKEN] and returns the state unchanged; the test ignores
    case, so ["Player1"] collides with ["player1"]; otherwise [joinQueue]
    succeeds, appends the player at the tail of the queue, adds the
    lower-cased name to the active set and returns the 1-based position of
    the player, which is the new length of the queue. *)
Theorem joinQueue_spec (st : Matchmaker.MatchmakerState)
  (cid name : string) (now : Z) :
  (Matchmaker.toLowerCase name ∈ Matchmaker.activeUsernames st ->
   let r := Matchmaker.joinQueue st cid name now in
   Matchmaker.jq_success r = false /\
   Matchmaker.jq_error r = Some Matchmaker.USERNAME_TAKEN /\
   Matchmaker.jq_position r = None /\
   Matchmaker.jq_state r = st) /\
  (Matchmaker.toLowerCase name ∉ Matchmaker.activeUsernames st ->
   let r := Matchmaker.joinQueue st cid name now in
   let player :=
     {| Matchmaker.connectionId := cid; Matchmaker.username := name;
        Matchmaker.joinedAt := now |} in
   Matchmaker.jq_success r = true /\
   Matchmaker.jq_error r = None /\
   Matchmaker.queue (Matchmaker.jq_state r) = Matchmaker.queue st ++ [player] /\
   Matchmaker.activeUsernames (Matchmaker.jq_state r)
   = {[ Matchmaker.toLowerCase name ]} ∪ Matchmaker.activeUsernames st /\
   Matchmaker.jq_position r = Some (length (Matchmaker.queue (Matchmaker.jq_state r))) /\
   Matchmaker.jq_position r = Some (S (length (Matchmaker.queue st))) /\
   nth_error (Matchmaker.queue (Matchmaker.jq_state r)) (length (Matchmaker.queue st))
   = Some player) /\
  (let st1 := Matchmaker.jq_state (Matchmaker.joinQueue st cid "player1" now) in
   forall (cid' : string) (now' : Z),
     Matchmaker.jq_error (Matchmaker.joinQueue st1 cid' "Player1" now')
     = Some Matchmaker.USERNAME_TAKEN /\
     Matchmaker.jq_state (Matchmaker.joinQueue st1 cid' "Player1" now') = st1).
Proof.
  split; [| split].
  - intros Hin r. subst r. unfold Matchmaker.joinQueue. cbv zeta.
    rewrite bool_decide_eq_true_2 by exact Hin. repeat split; reflexivity.
  - intros Hnotin r player. subst r player. unfold Matchmaker.joinQueue. cbv zeta.
    rewrite bool_decide_eq_false_2 by exact Hnotin.
    cbn [Matchmaker.jq_success Matchmaker.jq_error Matchmaker.jq_state
         Matchmaker.jq_position Matchmaker.queue Matchmaker.activeUsernames].
    repeat split; try reflexivity.
    + rewrite length_app. cbn. f_equal. lia.
    + rewrite nth_error_app2 by lia. rewrite Nat.sub_diag. reflexivity.
  - intros st1 cid' now'.
    assert (Hin : Matchmaker.toLowerCase "Player1" ∈ Matchmaker.activeUsernames st1).
    { subst st1. unfold Matchmaker.joinQueue. cbv zeta.
      case_bool_decide as Hdec; cbn [Matchmaker.jq_state Matchmaker.activeUsernames].
      - exact Hdec.
      - change (Matchmaker.toLowerCase "player1") with "player1"%string.
        change (Matchmaker.toLowerCase "Player1") with "player1"%string.
        set_solver. }
    unfold Matchmaker.joinQueue at 1 2. cbv zeta.
    rewrite bool_decide_eq_true_2 by exact Hin. split; reflexivity.
Qed.

Lemma joinQueue_spec_witness :
  Matchmaker.jq_position
    (Matchmaker.joinQueue Matchmaker.createMatchmakerState "conn-1" "player1" 1000)
  = Some 1%nat /\
  Matchmaker.jq_error (Matchmaker.joinQueue onePlayerQueued "conn-2" "PLAYER1" 1001)
  = Some Matchmaker.USERNAME_TAKEN.
Proof.
  split.
  - apply (proj1 (proj2 (joinQueue_spec Matchmaker.createMatchmakerState
                           "conn-1" "player1" 1000))).
    cbn. set_solver.
  - apply (proj1 (joinQueue_spec onePlayerQueued "conn-2" "PLAYER1" 1001)).
    vm_compute. set_solver.
Defined.

(** C5: with fewer than two players queued, [findMatch] returns no match and
    the state unchanged; otherwise it pairs the first two players of the
    queue, in that order, leaves the rest of the queue in its order and
    leaves the active-name set unchanged.  From the queue [[A; B; C; D]] the
    first call pairs [A] with [B] and leaves [[C; D]], and a second call
    pairs [C] with [D]. *)
Theorem findMatch_fifo (st : Matchmaker.MatchmakerState) (timestamp random : string) :
  ((length (Matchmaker.queue st) < 2)%nat ->
   Matchmaker.findMatch st timestamp random
   = {| Matchmaker.fm_state := st; Matchmaker.fm_match := None |}) /\
  ((2 <= length (Matchmaker.queue st))%nat ->
   exists first second rest m,
     Matchmaker.queue st = first :: second :: rest /\
     Matchmaker.fm_match (Matchmaker.findMatch st timestamp random) = Some m /\
     Matchmaker.player1 m = first /\ Matchmaker.player2 m = second /\
     Matchmaker.queue (Matchmaker.fm_state (Matchmaker.findMatch st timestamp random))
     = rest /\
     Matchmaker.activeUsernames
       (Matchmaker.fm_state (Matchmaker.findMatch st timestamp random))
     = Matchmaker.activeUsernames st) /\
  (forall (A B C D : Matchmaker.QueuedPlayer) (timestamp' random' : string),
      Matchmaker.queue st = [A; B; C; D] ->
      let r1 := Matchmaker.findMatch st timestamp random in
      let r2 := Matchmaker.findMatch (Matchmaker.fm_state r1) timestamp' random' in
      (exists m1, Matchmaker.fm_match r1 = Some m1 /\
                  Matchmaker.player1 m1 = A /\ Matchmaker.player2 m1 = B) /\
      Matchmaker.queue (Matchmaker.fm_state r1) = [C; D] /\
      (exists m2, Matchmaker.fm_match r2 = Some m2 /\
                  Matchmaker.player1 m2 = C /\ Matchmaker.player2 m2 = D) /\
      Matchmaker.queue (Matchmaker.fm_state r2) = [] /\
      Matchmaker.activeUsernames (Matchmaker.fm_state r2)
      = Matchmaker.activeUsernames st).
Proof.
  split; [| split].
  - intros Hlt. unfold Matchmaker.findMatch.
    apply Nat.ltb_lt in Hlt. rewrite Hlt. reflexivity.
  - intros Hge. unfold Matchmaker.findMatch.
    destruct (Matchmaker.queue st) as [| first [| second rest]] eqn:Hq;
      cbn in Hge; try lia.
    cbn. eexists first, second, rest, _. repeat split; reflexivity.
  - intros A B C D timestamp' random' Hq r1 r2. subst r1 r2.
    unfold Matchmaker.findMatch. rewrite Hq. cbn.
    repeat split; try reflexivity; eexists; repeat split; reflexivity.
Qed.

Lemma findMatch_fifo_witness :
  Matchmaker.findMatch Matchmaker.createMatchmakerState "lx2k9" "a1b2c3"
  = {| Matchmaker.fm_state := Matchmaker.createMatchmakerState;
       Matchmaker.fm_match := None |} /\
  Matchmaker.queue
    (Matchmaker.fm_state (Matchmaker.findMatch fourQueued "lx2k9" "a1b2c3"))
  = [playerC; playerD].
Proof.
  split.
  - apply (proj1 (findMatch_fifo Matchmaker.createMatchmakerState "lx2k9" "a1b2c3")).
    cbn. lia.
  - apply (proj2 (proj2 (findMatch_fifo fourQueued "lx2k9" "a1b2c3"))
             playerA playerB playerC playerD "lx2ka" "d4e5f6").
    reflexivity.
Defined.

(** * Sanity of the countdown clock *)

(** [Math.round(1000 / GAME_TICK_RATE)] is 60 ticks per second. *)
Lemma ticksPerSecond_60 : GameLogic.ticksPerSecond = 60%Z.
Proof.
  unfold GameLogic.ticksPerSecond, GameLogic.Math_round, Constants.GAME_TICK_RATE.
  replace (1000 / (1000 / 60) + 1 / 2) with (60 + 1 / 2) by field.
  symmetry. apply Int_part_spec. simpl. lra.
Qed.

(** * Further properties of the physics engine *)

(** X1: [checkWallCollision] puts the ball between the two walls, sends it
    down from the top wall and up from the bottom wall, leaves a ball
    strictly between the walls alone, and applying it twice is applying it
    once. *)
Theorem checkWallCollision_within_walls (s : Physics.PhysicsState) :
  let s' := Physics.checkWallCollision s in
  (Constants.BALL_RADIUS <= Physics.ballY s'
     <= Constants.ARENA_HEIGHT - Constants.BALL_RADIUS) /\
  (Physics.ballY s <= Constants.BALL_RADIUS ->
   Physics.ballY s' = Constants.BALL_RADIUS /\ 0 <= Physics.ballVelY s') /\
  (Physics.ballY s >= Constants.ARENA_HEIGHT - Constants.BALL_RADIUS ->
   Physics.ballY s' = Constants.ARENA_HEIGHT - Constants.BALL_RADIUS /\
   Physics.ballVelY s' <= 0) /\
  (Constants.BALL_RADIUS < Physics.ballY s
     < Constants.ARENA_HEIGHT - Constants.BALL_RADIUS -> s' = s) /\
  Physics.ballX s' = Physics.ballX s /\
  Physics.ballVelX s' = Physics.ballVelX s /\
  Physics.checkWallCollision s' = s'.
Proof.
  destruct s as [x y vx vy p1 p2]. cbv zeta.
  unfold Physics.checkWallCollision. physics_fields. unfold_constants.
  pose proof (Rabs_pos vy) as Hvy.
  destruct (Rle_dec y 2) as [Ht | Ht];
    [destruct (Rge_dec 2 (100 - 2)); [lra |]
    | destruct (Rge_dec y (100 - 2)) as [Hb | Hb]];
    physics_fields.
  - repeat split; try lra.
    destruct (Rle_dec 2 2); [| lra]. destruct (Rge_dec 2 (100 - 2)); [lra |].
    rewrite Rabs_Rabsolu. reflexivity.
  - repeat split; try lra.
    destruct (Rle_dec (100 - 2) 2); [lra |].
    destruct (Rge_dec (100 - 2) (100 - 2)); [| lra].
    rewrite Rabs_Ropp, Rabs_Rabsolu. reflexivity.
  - repeat split; try lra.
    destruct (Rle_dec y 2); [lra |]. destruct (Rge_dec y (100 - 2)); [lra |].
    reflexivity.
Qed.

Lemma checkWallCollision_within_walls_witness :
  Physics.checkWallCollision incomingBall = incomingBall.
Proof.
  apply (checkWallCollision_within_walls incomingBall).
  unfold incomingBall. physics_fields. unfold_constants. lra.
Defined.

(** The bounce angle stays within a quarter turn, so its cosine is at
    least one half. *)
Lemma cos_calculateBallAngle (ballY paddleY : R) :
  1 / 2 <= cos (Physics.calculateBallAngle ballY paddleY).
Proof.
  pose proof PI_RGT_0 as Hpi.
  set (a := Physics.calculateBallAngle ballY paddleY).
  assert (Hb : - (PI / 3) <= a <= PI / 3).
  { subst a. unfold Physics.calculateBallAngle, Physics.MAX_BOUNCE_ANGLE. cbv zeta.
    pose proof (clamp_bounds (-1) 1
      ((ballY - paddleY) / (Constants.PADDLE_HEIGHT / 2)) ltac:(lra)) as Hc.
    split; nra. }
  rewrite <- cos_PI3.
  destruct (Rle_dec 0 a) as [Hpos | Hneg].
  - apply cos_decr_1; lra.
  - rewrite <- (cos_neg a). apply cos_decr_1; lra.
Qed.

Lemma newSpeed_pos (s : Physics.PhysicsState) :
  5 / 100 <= Rmin (Physics.speed s + Constants.BALL_SPEED_INCREMENT)
                  Constants.BALL_MAX_SPEED.
Proof.
  pose proof (speed_nonneg s). unfold_constants. apply Rmin_glb; lra.
Qed.

(** After a bounce the horizontal velocity is at least half the new speed. *)
Lemma bounce_horizontal (s : Physics.PhysicsState) (a : R) :
  1 / 2 <= cos a ->
  Rmin (Physics.speed s + Constants.BALL_SPEED_INCREMENT) Constants.BALL_MAX_SPEED / 2
  <= Rabs (Rmin (Physics.speed s + Constants.BALL_SPEED_INCREMENT)
                Constants.BALL_MAX_SPEED * cos a).
Proof.
  intros Hc. pose proof (newSpeed_pos s) as Hn.
  rewrite Rabs_right by nra. nra.
Qed.

Lemma hitsPaddle_exclusive (s : Physics.PhysicsState) :
  Physics.hitsPaddle1 s -> Physics.hitsPaddle2 s -> False.
Proof.
  unfold Physics.hitsPaddle1, Physics.hitsPaddle2. cbv zeta.
  intros (H1 & _) (H2 & _). lra.
Qed.

(** What a hit on the left paddle does. *)
Lemma bounce_left (s : Physics.PhysicsState) :
  Physics.hitsPaddle1 s ->
  Physics.ballX (Physics.checkPaddleCollision s) = 7 /\
  Physics.ballY (Physics.checkPaddleCollision s) = Physics.ballY s /\
  0 < Rmin (Physics.speed s + Constants.BALL_SPEED_INCREMENT)
           Constants.BALL_MAX_SPEED / 2
    <= Physics.ballVelX (Physics.checkPaddleCollision s).
Proof.
  intros H1. pose proof (newSpeed_pos s) as Hn.
  unfold Physics.checkPaddleCollision. cbv zeta.
  destruct (decide (Physics.hitsPaddle1 s)); [| contradiction]. physics_fields.
  pose proof (bounce_horizontal s _
    (cos_calculateBallAngle (Physics.ballY s) (Js.toReal (Physics.paddle1Y s)))).
  unfold_constants. repeat split; lra.
Qed.

(** What a hit on the right paddle does. *)
Lemma bounce_right (s : Physics.PhysicsState) :
  Physics.hitsPaddle2 s ->
  Physics.ballX (Physics.checkPaddleCollision s) = 93 /\
  Physics.ballY (Physics.checkPaddleCollision s) = Physics.ballY s /\
  Physics.ballVelX (Physics.checkPaddleCollision s)
    <= - (Rmin (Physics.speed s + Constants.BALL_SPEED_INCREMENT)
               Constants.BALL_MAX_SPEED / 2) < 0.
Proof.
  intros H2. pose proof (newSpeed_pos s) as Hn.
  unfold Physics.checkPaddleCollision. cbv zeta.
  destruct (decide (Physics.hitsPaddle1 s)) as [H1 | _];
    [destruct (hitsPaddle_exclusive s H1 H2) |].
  destruct (decide (Physics.hitsPaddle2 s)); [| contradiction]. physics_fields.
  pose proof (bounce_horizontal s _
    (cos_calculateBallAngle (Physics.ballY s) (Js.toReal (Physics.paddle2Y s)))).
  unfold_constants. repeat split; lra.
Qed.

(** A state that [checkPaddleCollision] returns meets neither condition. *)
Lemma no_second_hit (s : Physics.PhysicsState) :
  ~ (Physics.hitsPaddle1 (Physics.checkPaddleCollision s) \/
     Physics.hitsPaddle2 (Physics.checkPaddleCollision s)).
Proof.
  destruct (decide (Physics.hitsPaddle1 s)) as [H1 | H1].
  - destruct (bounce_left s H1) as (Hx & _ & Hv).
    unfold Physics.hitsPaddle1, Physics.hitsPaddle2. cbv zeta.
    unfold_constants. intros [H | H]; lra.
  - destruct (decide (Physics.hitsPaddle2 s)) as [H2 | H2].
    + destruct (bounce_right s H2) as (Hx & _ & Hv).
      unfold Physics.hitsPaddle1, Physics.hitsPaddle2. cbv zeta.
      unfold_constants. intros [H | H]; lra.
    + rewrite checkPaddleCollision_miss by tauto. tauto.
Qed.

(** X2: a ball that hits a paddle is put flush against the face of that
    paddle ([ballX = 7] on the left, [93] on the right), keeps its height,
    and leaves moving away from the paddle with a horizontal speed of at
    least half its new speed; a ball that hits no paddle is unchanged. *)
Theorem checkPaddleCollision_bounces (s : Physics.PhysicsState) :
  let s' := Physics.checkPaddleCollision s in
  let newSpeed :=
    Rmin (Physics.speed s + Constants.BALL_SPEED_INCREMENT) Constants.BALL_MAX_SPEED in
  (Physics.hitsPaddle1 s ->
   Physics.ballX s' = 7 /\ Physics.ballY s' = Physics.ballY s /\
   0 < newSpeed / 2 <= Physics.ballVelX s') /\
  (Physics.hitsPaddle2 s ->
   Physics.ballX s' = 93 /\ Physics.ballY s' = Physics.ballY s /\
   Physics.ballVelX s' <= - (newSpeed / 2) < 0) /\
  (~ Physics.hitsPaddle1 s -> ~ Physics.hitsPaddle2 s -> s' = s).
Proof.
  cbv zeta. split; [| split].
  - apply bounce_left.
  - apply bounce_right.
  - intros H1 H2. apply checkPaddleCollision_miss. tauto.
Qed.

Lemma incomingBall_hits_left :
  Physics.hitsPaddle1
    (Physics.checkWallCollision (Physics.updateBallPosition incomingBall)).
Proof.
  pose proof incomingBall_collision as [H | H]; [exact H |].
  exfalso. revert H.
  unfold Physics.hitsPaddle2, Physics.withinPaddle, Physics.checkWallCollision,
    Physics.updateBallPosition, incomingBall.
  physics_fields. unfold_constants.
  destruct (Rle_dec _ _); [lra |]. destruct (Rge_dec _ _); [lra |].
  physics_fields. lra.
Qed.

Lemma checkPaddleCollision_bounces_witness :
  Physics.ballX
    (Physics.checkPaddleCollision
       (Physics.checkWallCollision (Physics.updateBallPosition incomingBall)))
  = 7.
Proof.
  apply (checkPaddleCollision_bounces
           (Physics.checkWallCollision (Physics.updateBallPosition incomingBall))).
  exact incomingBall_hits_left.
Defined.

(** X3: [checkPaddleCollision] never hits twice: applied to its own result
    it changes nothing, whether the first application hit a paddle or not. *)
Theorem checkPaddleCollision_idempotent (s : Physics.PhysicsState) :
  Physics.checkPaddleCollision (Physics.checkPaddleCollision s)
  = Physics.checkPaddleCollision s.
Proof.
  apply checkPaddleCollision_miss. apply no_second_hit.
Qed.

(** Where the ball is when [checkScoring] looks at it. *)
Lemma physicsTick_ballX (s : Physics.PhysicsState) :
  (Physics.paddleCollision s ->
   Physics.ballX (fst (Physics.physicsTick s)) = 7 \/
   Physics.ballX (fst (Physics.physicsTick s)) = 93) /\
  (~ Physics.paddleCollision s ->
   Physics.ballX (fst (Physics.physicsTick s))
   = Physics.ballX s + Physics.ballVelX s).
Proof.
  unfold Physics.physicsTick, Physics.paddleCollision. cbn [fst]. cbv zeta. split.
  - intros [H | H]; [left; apply bounce_left | right; apply bounce_right]; exact H.
  - intros H. rewrite checkPaddleCollision_miss by exact H.
    unfold Physics.checkWallCollision.
    destruct (Rle_dec _ _); destruct (Rge_dec _ _); reflexivity.
Qed.

(** A ball beyond a goal line after the move is out of reach of both
    paddles. *)
Lemma beyond_goal_no_collision (s : Physics.PhysicsState) :
  Physics.ballX s + Physics.ballVelX s < - Constants.BALL_RADIUS \/
  Physics.ballX s + Physics.ballVelX s > Constants.ARENA_WIDTH + Constants.BALL_RADIUS ->
  ~ Physics.paddleCollision s.
Proof.
  intros Hout Hc. revert Hc.
  unfold Physics.paddleCollision, Physics.hitsPaddle1, Physics.hitsPaddle2. cbv zeta.
  assert (Hx : Physics.ballX (Physics.checkWallCollision (Physics.updateBallPosition s))
               = Physics.ballX s + Physics.ballVelX s).
  { unfold Physics.checkWallCollision.
    destruct (Rle_dec _ _); destruct (Rge_dec _ _); reflexivity. }
  rewrite Hx. unfold_constants. intros [H | H]; lra.
Qed.

(** X4: whether a tick scores depends only on where the move takes the
    ball: player 2 scores exactly when [ballX + ballVelX < -2], player 1
    exactly when [ballX + ballVelX > 102], and nobody otherwise; a ball that
    touches the line does not score, and a tick with a paddle collision
    never scores. *)
Theorem physicsTick_scored (s : Physics.PhysicsState) :
  (snd (Physics.physicsTick s) = Some Types.Player2 <->
   Physics.ballX s + Physics.ballVelX s < - Constants.BALL_RADIUS) /\
  (snd (Physics.physicsTick s) = Some Types.Player1 <->
   Physics.ballX s + Physics.ballVelX s > Constants.ARENA_WIDTH + Constants.BALL_RADIUS) /\
  (snd (Physics.physicsTick s) = None <->
   - Constants.BALL_RADIUS <= Physics.ballX s + Physics.ballVelX s
     <= Constants.ARENA_WIDTH + Constants.BALL_RADIUS) /\
  (Physics.paddleCollision s -> snd (Physics.physicsTick s) = None).
Proof.
  destruct (physicsTick_ballX s) as [Hhit Hmiss].
  pose proof (beyond_goal_no_collision s) as Hout.
  assert (Hsnd : snd (Physics.physicsTick s)
                 = Physics.checkScoring (fst (Physics.physicsTick s))) by reflexivity.
  rewrite Hsnd. unfold Physics.checkScoring.
  destruct (decide (Physics.paddleCollision s)) as [Hc | Hc].
  - assert (Hin : ~ (Physics.ballX s + Physics.ballVelX s < - Constants.BALL_RADIUS \/
                     Physics.ballX s + Physics.ballVelX s
                     > Constants.ARENA_WIDTH + Constants.BALL_RADIUS)) by tauto.
    unfold_constants.
    destruct (Hhit Hc) as [Hx | Hx]; rewrite Hx;
      (destruct (Rlt_dec _ _); [lra |]); (destruct (Rgt_dec _ _); [lra |]);
      repeat split; try discriminate; try reflexivity; intros; lra.
  - rewrite (Hmiss Hc). unfold_constants.
    destruct (Rlt_dec _ _); [| destruct (Rgt_dec _ _)];
      repeat split; try discriminate; try reflexivity; intros; try lra;
      try contradiction.
Qed.

Lemma physicsTick_scored_witness :
  snd (Physics.physicsTick incomingBall) = None.
Proof.
  apply (proj2 (proj2 (proj2 (physicsTick_scored incomingBall)))).
  exact incomingBall_collision.
Defined.

(** The move and the walls leave the horizontal motion alone. *)
Lemma wall_keeps_horizontal (s : Physics.PhysicsState) :
  let s1 := Physics.checkWallCollision (Physics.updateBallPosition s) in
  Physics.ballX s1 = Physics.ballX s + Physics.ballVelX s /\
  Physics.ballVelX s1 = Physics.ballVelX s /\
  Physics.paddle1Y s1 = Physics.paddle1Y s /\
  Physics.paddle2Y s1 = Physics.paddle2Y s.
Proof.
  cbv zeta. unfold Physics.checkWallCollision.
  destruct (Rle_dec _ _); destruct (Rge_dec _ _); repeat split; reflexivity.
Qed.

(** X5: no tunnelling.  A ball right of the face of the left paddle that
    moves left by at most 7 units, reaches or passes the face during the
    tick and is then at a height the paddle covers, is bounced: it ends the
    tick flush against the face, moving right, and nobody scores.  The same
    holds, mirrored, at the right paddle. *)
Theorem physicsTick_no_tunnelling (s : Physics.PhysicsState) :
  let s1 := Physics.checkWallCollision (Physics.updateBallPosition s) in
  let s' := fst (Physics.physicsTick s) in
  (- 7 <= Physics.ballVelX s < 0 ->
   7 <= Physics.ballX s ->
   Physics.ballX s + Physics.ballVelX s <= 7 ->
   (exists centre, Physics.paddle1Y s = Js.Num centre /\
                   centre - 10 <= Physics.ballY s1 <= centre + 10) ->
   Physics.ballX s' = 7 /\ 0 < Physics.ballVelX s' /\
   snd (Physics.physicsTick s) = None) /\
  (0 < Physics.ballVelX s <= 7 ->
   Physics.ballX s <= 93 ->
   93 <= Physics.ballX s + Physics.ballVelX s ->
   (exists centre, Physics.paddle2Y s = Js.Num centre /\
                   centre - 10 <= Physics.ballY s1 <= centre + 10) ->
   Physics.ballX s' = 93 /\ Physics.ballVelX s' < 0 /\
   snd (Physics.physicsTick s) = None).
Proof.
  cbv zeta.
  destruct (wall_keeps_horizontal s) as (Hx & Hv & Hp1 & Hp2). cbv zeta in *.
  assert (Hsnd : snd (Physics.physicsTick s)
                 = Physics.checkScoring (fst (Physics.physicsTick s))) by reflexivity.
  split.
  - intros Hvel Hpos Hreach (centre & Hcentre & Hcover).
    assert (Hhit : Physics.hitsPaddle1
              (Physics.checkWallCollision (Physics.updateBallPosition s))).
    { unfold Physics.hitsPaddle1. cbv zeta. rewrite Hx, Hv, Hp1, Hcentre.
      unfold Physics.withinPaddle. unfold_constants. lra. }
    destruct (bounce_left _ Hhit) as (Bx & _ & Bv).
    rewrite Hsnd. unfold Physics.physicsTick. cbn [fst]. cbv zeta.
    unfold Physics.checkScoring. rewrite Bx. unfold_constants.
    destruct (Rlt_dec _ _); [lra |]. destruct (Rgt_dec _ _); [lra |].
    repeat split; lra.
  - intros Hvel Hpos Hreach (centre & Hcentre & Hcover).
    assert (Hhit : Physics.hitsPaddle2
              (Physics.checkWallCollision (Physics.updateBallPosition s))).
    { unfold Physics.hitsPaddle2. cbv zeta. rewrite Hx, Hv, Hp2, Hcentre.
      unfold Physics.withinPaddle. unfold_constants. lra. }
    destruct (bounce_right _ Hhit) as (Bx & _ & Bv).
    rewrite Hsnd. unfold Physics.physicsTick. cbn [fst]. cbv zeta.
    unfold Physics.checkScoring. rewrite Bx. unfold_constants.
    destruct (Rlt_dec _ _); [lra |]. destruct (Rgt_dec _ _); [lra |].
    repeat split; lra.
Qed.

Lemma physicsTick_no_tunnelling_witness :
  Physics.ballX (fst (Physics.physicsTick incomingBall)) = 7.
Proof.
  apply (proj1 (physicsTick_no_tunnelling incomingBall));
    [| | | exists 50; split; [reflexivity |]];
    unfold Physics.checkWallCollision, Physics.updateBallPosition, incomingBall;
    physics_fields; unfold_constants; try lra.
  destruct (Rle_dec _ _); [lra |]. destruct (Rge_dec _ _); [lra |].
  physics_fields. lra.
Defined.

(** Within 45 degrees of the horizontal the sine does not exceed the
    cosine. *)
Lemma sin_le_cos_PI4 (a : R) :
  - (PI / 4) <= a <= PI / 4 -> Rabs (sin a) <= cos a.
Proof.
  intros [Hlo Hhi]. pose proof PI_RGT_0 as Hpi.
  assert (Hs2 : 0 < 1 / sqrt 2).
  { apply Rdiv_lt_0_compat; [lra | apply sqrt_lt_R0; lra]. }
  assert (Hp : 0 <= cos (a + PI / 4)) by (apply cos_ge_0; lra).
  assert (Hm : 0 <= cos (a - PI / 4)) by (apply cos_ge_0; lra).
  rewrite cos_plus in Hp. rewrite cos_minus in Hm.
  rewrite cos_PI4, sin_PI4 in Hp, Hm.
  apply Rabs_le. split; nra.
Qed.

(** Whatever the random value, the serve has the initial speed. *)
Lemma startBall_speed (towardsPlayer : Types.Side) (rnd : R) :
  sqrt (Physics.b_ballVelX (Physics.startBall towardsPlayer rnd) ^ 2
        + Physics.b_ballVelY (Physics.startBall towardsPlayer rnd) ^ 2)
  = Constants.BALL_INITIAL_SPEED.
Proof.
  unfold Physics.startBall. cbv zeta.
  cbn [Physics.b_ballVelX Physics.b_ballVelY].
  set (a := (rnd - 1 / 2) * (PI / 2)).
  replace ((match towardsPlayer with
            | Types.Player1 => -1 | Types.Player2 => 1 end
            * Constants.BALL_INITIAL_SPEED * cos a) ^ 2
           + (Constants.BALL_INITIAL_SPEED * sin a) ^ 2)
    with (Constants.BALL_INITIAL_SPEED ^ 2 * (Rsqr (sin a) + Rsqr (cos a)))
    by (unfold Rsqr; destruct towardsPlayer; ring).
  rewrite sin2_cos2, Rmult_1_r. apply sqrt_pow2. unfold_constants. lra.
Qed.

(** X6: for every value in [[0, 1)] of [Math.random()], [startBall] puts the
    ball at the centre with speed exactly [BALL_INITIAL_SPEED], a nonzero
    horizontal velocity toward the named side, and a vertical velocity no
    larger in size than the horizontal one (the serve is within 45 degrees
    of the horizontal). *)
Theorem startBall_serve (towardsPlayer : Types.Side) (rnd : R) :
  0 <= rnd < 1 ->
  let b := Physics.startBall towardsPlayer rnd in
  Physics.b_ballX b = 50 /\ Physics.b_ballY b = 50 /\
  sqrt (Physics.b_ballVelX b ^ 2 + Physics.b_ballVelY b ^ 2)
  = Constants.BALL_INITIAL_SPEED /\
  Rabs (Physics.b_ballVelY b) <= Rabs (Physics.b_ballVelX b) /\
  match towardsPlayer with
  | Types.Player1 => Physics.b_ballVelX b < 0
  | Types.Player2 => 0 < Physics.b_ballVelX b
  end.
Proof.
  intros Hrnd b. pose proof PI_RGT_0 as Hpi.
  pose proof (startBall_direction towardsPlayer rnd Hrnd) as Hdir.
  pose proof (startBall_speed towardsPlayer rnd) as Hspeed.
  fold b in Hdir, Hspeed.
  assert (Hang : Rabs (sin ((rnd - 1 / 2) * (PI / 2)))
                 <= cos ((rnd - 1 / 2) * (PI / 2))).
  { apply sin_le_cos_PI4. split; nra. }
  subst b. unfold Physics.startBall in *. cbv zeta in *.
  cbn [Physics.b_ballX Physics.b_ballY Physics.b_ballVelX Physics.b_ballVelY] in *.
  set (a := (rnd - 1 / 2) * (PI / 2)) in *. clearbody a.
  split; [reflexivity |]. split; [reflexivity |]. split; [| split].
  - exact Hspeed.
  - clear Hspeed. unfold_constants.
    assert (Hc : 0 <= cos a) by (pose proof (Rabs_pos (sin a)); lra).
    rewrite (Rabs_mult (8 / 10)), (Rabs_right (8 / 10)) by lra.
    destruct towardsPlayer.
    + replace (-1 * (8 / 10) * cos a) with (- (8 / 10 * cos a)) by ring.
      rewrite Rabs_Ropp, (Rabs_right (8 / 10 * cos a)) by lra. lra.
    + rewrite (Rabs_right (1 * (8 / 10) * cos a)) by lra. lra.
  - destruct towardsPlayer; lra.
Qed.

Lemma startBall_serve_witness :
  Physics.b_ballVelX (Physics.startBall Types.Player1 (1 / 4)) < 0.
Proof.
  apply (startBall_serve Types.Player1 (1 / 4)). lra.
Defined.

(** * Further properties of the game room *)

Lemma addPlayer_full (st : GameLogic.GameServerState) (c u : string) :
  (2 <= length (GameLogic.players st))%nat -> GameLogic.addPlayer st c u = st.
Proof.
  intros H. unfold GameLogic.addPlayer.
  apply Nat.leb_le in H. rewrite H. reflexivity.
Qed.

Lemma joinAll_full (st : GameLogic.GameServerState) (joins : list (string * string)) :
  (2 <= length (GameLogic.players st))%nat -> joinAll st joins = st.
Proof.
  intros H. induction joins as [| j joins IH]; [reflexivity |].
  unfold joinAll in *. cbn [fold_left]. rewrite addPlayer_full by exact H. exact IH.
Qed.

(** X7: [addPlayer] never grows a room beyond two players and is a no-op on
    a full room; in a room created empty, whatever the sequence of
    connections, the players are the first two to connect, in that order,
    the first as [host] and the second as [guest]. *)
Theorem addPlayer_roles (room : string) (joins : list (string * string)) :
  (forall st c u,
      (length (GameLogic.players st) <= 2)%nat ->
      (length (GameLogic.players (GameLogic.addPlayer st c u)) <= 2)%nat) /\
  (forall st c u,
      (2 <= length (GameLogic.players st))%nat -> GameLogic.addPlayer st c u = st) /\
  GameLogic.players (joinAll (GameLogic.createGameServerState room) joins)
  = match joins with
    | [] => []
    | [(c1, u1)] =>
      [ {| Types.id := c1; Types.username := u1; Types.role := Types.Host |} ]
    | (c1, u1) :: (c2, u2) :: _ =>
      [ {| Types.id := c1; Types.username := u1; Types.role := Types.Host |};
        {| Types.id := c2; Types.username := u2; Types.role := Types.Guest |} ]
    end.
Proof.
  split; [| split].
  - intros st c u Hlen. unfold GameLogic.addPlayer.
    destruct (2 <=? length (GameLogic.players st))%nat eqn:E; [exact Hlen |].
    apply Nat.leb_gt in E. cbn. rewrite length_app. cbn. lia.
  - apply addPlayer_full.
  - destruct joins as [| [c1 u1] [| [c2 u2] rest]]; try reflexivity.
    unfold joinAll. cbn [fold_left fst snd].
    change (fold_left _ rest ?s) with (joinAll s rest).
    rewrite joinAll_full; [reflexivity | cbn; lia].
Qed.

Lemma addPlayer_roles_witness :
  GameLogic.addPlayer twoPlayerRoom "conn-3" "Player3" = twoPlayerRoom.
Proof.
  apply (proj1 (proj2 (addPlayer_roles "test-room-123" []))).
  cbn. lia.
Defined.

Lemma filter_hasId_none (cid : string) (ps : list Types.PlayerInfo) :
  (forall p, In p ps -> Types.id p <> cid) ->
  List.filter (fun p => negb (GameLogic.hasId cid p)) ps = ps.
Proof.
  intros Hall. induction ps as [| p ps IH]; [reflexivity |].
  cbn [List.filter]. unfold GameLogic.hasId at 1.
  destruct (String.eqb_spec (Types.id p) cid) as [E | E].
  - exfalso. exact (Hall p (or_introl eq_refl) E).
  - cbn. f_equal. apply IH. intros q Hq. apply Hall. right. exact Hq.
Qed.

Lemma find_hasId_filter (cid : string) (ps : list Types.PlayerInfo) :
  List.find (GameLogic.hasId cid)
    (List.filter (fun p => negb (GameLogic.hasId cid p)) ps) = None.
Proof.
  induction ps as [| p ps IH]; [reflexivity |].
  cbn [List.filter]. destruct (GameLogic.hasId cid p) eqn:E; cbn [negb].
  - exact IH.
  - cbn [List.find]. rewrite E. exact IH.
Qed.

(** X8: after [removePlayer state c] no player has connection [c], the
    player list is no longer than before, and removing [c] a second time
    changes nothing. *)
Theorem removePlayer_idempotent (st : GameLogic.GameServerState) (cid : string) :
  GameLogic.getPlayer (GameLogic.removePlayer st cid) cid = None /\
  (length (GameLogic.players (GameLogic.removePlayer st cid))
   <= length (GameLogic.players st))%nat /\
  GameLogic.removePlayer (GameLogic.removePlayer st cid) cid
  = GameLogic.removePlayer st cid.
Proof.
  assert (Hgone : GameLogic.getPlayer (GameLogic.removePlayer st cid) cid = None).
  { unfold GameLogic.getPlayer, GameLogic.removePlayer.
    destruct (find (GameLogic.hasId cid) (GameLogic.players st)) eqn:E.
    - cbn [GameLogic.players]. apply find_hasId_filter.
    - exact E. }
  split; [exact Hgone |]. split.
  - unfold GameLogic.removePlayer.
    destruct (find _ _); [| lia]. cbn [GameLogic.players]. apply filter_length_le.
  - unfold GameLogic.getPlayer in Hgone.
    unfold GameLogic.removePlayer at 1. rewrite Hgone. reflexivity.
Qed.

(** X9: outside a match ([status] neither [playing] nor [countdown]),
    attaching a new connection to a room with a free slot and removing it
    again gives back the room as it was. *)
Theorem addPlayer_removePlayer (st : GameLogic.GameServerState) (c u : string) :
  (forall p, In p (GameLogic.players st) -> Types.id p <> c) ->
  (length (GameLogic.players st) < 2)%nat ->
  Types.status (GameLogic.gameState st) <> Types.Playing ->
  Types.status (GameLogic.gameState st) <> Types.Countdown ->
  GameLogic.removePlayer (GameLogic.addPlayer st c u) c = st.
Proof.
  intros Hfresh Hlen Hp Hc.
  unfold GameLogic.addPlayer.
  destruct (2 <=? length (GameLogic.players st))%nat eqn:E;
    [apply Nat.leb_le in E; lia |].
  unfold GameLogic.removePlayer, GameLogic.withPlayers.
  cbn [GameLogic.players GameLogic.gameState GameLogic.roomId GameLogic.tickCount].
  assert (Hfind : exists p,
    find (GameLogic.hasId c)
      (GameLogic.players st ++
        [{| Types.id := c; Types.username := u;
            Types.role := if (length (GameLogic.players st) =? 0)%nat
                          then Types.Host else Types.Guest |}]) = Some p).
  { destruct (find _ _) as [p |] eqn:F; [eauto |].
    exfalso. pose proof (find_none _ _ F) as Hn.
    match type of F with
    | find _ (_ ++ [?q]) = None =>
      assert (Hq : GameLogic.hasId c q = false)
        by (apply Hn, in_or_app; right; left; reflexivity)
    end.
    unfold GameLogic.hasId in Hq. cbn in Hq. rewrite String.eqb_refl in Hq.
    discriminate. }
  destruct Hfind as [p Hfind]. rewrite Hfind.
  rewrite List.filter_app, filter_hasId_none by exact Hfresh.
  cbn [List.filter]. unfold GameLogic.hasId at 1. cbn [Types.id].
  rewrite String.eqb_refl. cbn [negb]. rewrite app_nil_r.
  destruct st as [r ps gs t]. cbn in *.
  destruct (Types.status gs); try congruence; reflexivity.
Qed.

Lemma addPlayer_removePlayer_witness :
  GameLogic.removePlayer
    (GameLogic.addPlayer (roomWith [hostPlayer] Types.Waiting) "conn-2" "Player2")
    "conn-2"
  = roomWith [hostPlayer] Types.Waiting.
Proof.
  apply (addPlayer_removePlayer (roomWith [hostPlayer] Types.Waiting)).
  - intros p [Hp | []] Heq. subst p. discriminate Heq.
  - cbn. lia.
  - cbn. discriminate.
  - cbn. discriminate.
Defined.

Lemma getPlayer_updatePaddlePosition (st : GameLogic.GameServerState) (c c' : string)
  (y : Js.JsNumber) :
  GameLogic.getPlayer (GameLogic.updatePaddlePosition st c y) c'
  = GameLogic.getPlayer st c'.
Proof.
  unfold GameLogic.updatePaddlePosition, GameLogic.getPlayer.
  destruct (find (GameLogic.hasId c) (GameLogic.players st)) as [p |];
    [destruct (Types.role p) |]; reflexivity.
Qed.

(** X10: paddle writes compose as assignments.  A second write by the same
    connection replaces the first (the last write wins), and the writes of a
    host and of a guest commute. *)
Theorem updatePaddlePosition_compose (st : GameLogic.GameServerState) :
  (forall c y1 y2,
      GameLogic.updatePaddlePosition (GameLogic.updatePaddlePosition st c y1) c y2
      = GameLogic.updatePaddlePosition st c y2) /\
  (forall c1 c2 p1 p2 y1 y2,
      GameLogic.getPlayer st c1 = Some p1 ->
      GameLogic.getPlayer st c2 = Some p2 ->
      Types.role p1 = Types.Host -> Types.role p2 = Types.Guest ->
      GameLogic.updatePaddlePosition (GameLogic.updatePaddlePosition st c1 y1) c2 y2
      = GameLogic.updatePaddlePosition (GameLogic.updatePaddlePosition st c2 y2) c1 y1).
Proof.
  split.
  - intros c y1 y2.
    unfold GameLogic.updatePaddlePosition at 1.
    rewrite getPlayer_updatePaddlePosition.
    unfold GameLogic.updatePaddlePosition.
    destruct (GameLogic.getPlayer st c) as [p |]; [| reflexivity].
    destruct (Types.role p); reflexivity.
  - intros c1 c2 p1 p2 y1 y2 H1 H2 R1 R2.
    unfold GameLogic.updatePaddlePosition at 1 3.
    rewrite !getPlayer_updatePaddlePosition, H1, H2, R1, R2.
    unfold GameLogic.updatePaddlePosition. rewrite H1, H2, R1, R2. reflexivity.
Qed.

Lemma updatePaddlePosition_compose_witness :
  GameLogic.updatePaddlePosition
    (GameLogic.updatePaddlePosition twoPlayerRoom "conn-1" (Js.Num 30))
    "conn-2" (Js.Num 70)
  = GameLogic.updatePaddlePosition
      (GameLogic.updatePaddlePosition twoPlayerRoom "conn-2" (Js.Num 70))
      "conn-1" (Js.Num 30).
Proof.
  apply (proj2 (updatePaddlePosition_compose twoPlayerRoom)
           "conn-1" "conn-2" hostPlayer guestPlayer (Js.Num 30) (Js.Num 70));
    reflexivity.
Defined.

(** The five things a tick can be. *)
Lemma tick_cases (st : GameLogic.GameServerState) (rnd1 rnd2 : R) :
  let gs := GameLogic.gameState st in
  let n := (GameLogic.tickCount st + 1)%Z in
  (Types.status gs <> Types.Countdown /\ Types.status gs <> Types.Playing /\
   GameLogic.tick st rnd1 rnd2 = st) \/
  (Types.status gs = Types.Countdown /\ Types.countdown gs = 1%Z /\
   Z.rem n 60 = 0%Z /\
   GameLogic.tick st rnd1 rnd2
   = GameLogic.startGame (GameLogic.withTickCount st n) rnd1 rnd2) \/
  (Types.status gs = Types.Countdown /\
   (exists c', (c' = Types.countdown gs \/
                (Z.rem n 60 = 0%Z /\ c' = Z.max 0 (Types.countdown gs - 1))) /\
      GameLogic.tick st rnd1 rnd2
      = {| GameLogic.roomId := GameLogic.roomId st;
           GameLogic.players := GameLogic.players st;
           GameLogic.gameState := GameLogic.withCountdown gs c';
           GameLogic.tickCount := n |})) \/
  (Types.status gs = Types.Playing /\
   snd (Physics.physicsTick (physicsOf gs)) = None /\
   GameLogic.tick st rnd1 rnd2 = advanced st) \/
  (Types.status gs = Types.Playing /\
   exists scorer,
     snd (Physics.physicsTick (physicsOf gs)) = Some scorer /\
     GameLogic.tick st rnd1 rnd2 = GameLogic.handleScoring (advanced st) scorer rnd1).
Proof.
  cbv zeta. unfold GameLogic.tick. cbv zeta. rewrite ticksPerSecond_60.
  destruct (Types.status (GameLogic.gameState st)) eqn:Est;
    cbn [Types.GameStatus_eqb negb].
  - left. repeat split; congruence.
  - right.
    destruct (Z.rem (GameLogic.tickCount st + 1) 60 =? 0)%Z eqn:Erem.
    + apply Z.eqb_eq in Erem.
      destruct ((Z.max 0 (Types.countdown (GameLogic.gameState st) - 1) =? 0)%Z
                && (0 <? Types.countdown (GameLogic.gameState st))%Z) eqn:Ego.
      * left. apply andb_true_iff in Ego as [E0 Epos].
        apply Z.eqb_eq in E0. apply Z.ltb_lt in Epos.
        repeat split; try assumption; try reflexivity. lia.
      * right; left. split; [reflexivity |]. eexists. split; [| reflexivity].
        right. split; [assumption | reflexivity].
    + destruct ((Types.countdown (GameLogic.gameState st) =? 0)%Z
                && (0 <? Types.countdown (GameLogic.gameState st))%Z) eqn:Ego.
      * exfalso. apply andb_true_iff in Ego as [E0 Epos].
        apply Z.eqb_eq in E0. apply Z.ltb_lt in Epos. lia.
      * right; left. split; [reflexivity |]. eexists. split; [| reflexivity].
        left. reflexivity.
  - right; right; right.
    change {| Physics.ballX := Types.ballX (GameLogic.gameState st);
              Physics.ballY := Types.ballY (GameLogic.gameState st);
              Physics.ballVelX := Types.ballVelX (GameLogic.gameState st);
              Physics.ballVelY := Types.ballVelY (GameLogic.gameState st);
              Physics.paddle1Y := Types.paddle1Y (GameLogic.gameState st);
              Physics.paddle2Y := Types.paddle2Y (GameLogic.gameState st) |}
      with (physicsOf (GameLogic.gameState st)).
    unfold advanced. cbv zeta. rewrite Est.
    destruct (Physics.physicsTick (physicsOf (GameLogic.gameState st)))
      as [p [scorer |]] eqn:Ep; cbn [fst snd].
    + right. split; [reflexivity |]. exists scorer. split; reflexivity.
    + left. repeat split; reflexivity.
  - left. repeat split; congruence.
  - left. repeat split; congruence.
Qed.

(** [handleScoring] ends the match only on a winning score. *)
Lemma handleScoring_status (st : GameLogic.GameServerState) (scorer : Types.Side) (rnd : R) :
  let gs := GameLogic.gameState st in
  let gs' := GameLogic.gameState (GameLogic.handleScoring st scorer rnd) in
  (Types.status gs' = Types.status gs /\
   (scoreAfter1 gs scorer < 7)%Z /\ (scoreAfter2 gs scorer < 7)%Z) \/
  (Types.status gs' = Types.Finished /\
   exists w, Types.winner gs' = Some w /\ (7 <= scoreOf gs' w)%Z).
Proof.
  cbv zeta.
  destruct (handleScoring_scores st scorer rnd) as (Hs1 & Hs2 & _). cbv zeta in *.
  destruct (Z_lt_le_dec (scoreAfter1 (GameLogic.gameState st) scorer) 7) as [H1 | H1].
  - destruct (Z_lt_le_dec (scoreAfter2 (GameLogic.gameState st) scorer) 7) as [H2 | H2].
    + left. split; [| split; assumption].
      apply Z.leb_gt in H1. apply Z.leb_gt in H2.
      unfold GameLogic.handleScoring. cbv zeta.
      unfold scoreAfter1 in H1. unfold scoreAfter2 in H2.
      unfold Constants.WINNING_SCORE. rewrite H1, H2.
      destruct (Types.status (GameLogic.gameState st)); reflexivity.
    + right. destruct (handleScoring_player2_wins st scorer rnd H1 H2) as (Hst & Hw & _).
      split; [exact Hst |]. exists Types.Player2. split; [exact Hw |].
      cbn [scoreOf]. rewrite Hs2. exact H2.
  - right. destruct (handleScoring_player1_wins st scorer rnd H1) as (Hst & Hw & _).
    split; [exact Hst |]. exists Types.Player1. split; [exact Hw |].
    cbn [scoreOf]. rewrite Hs1. exact H1.
Qed.

(** X11: the status of a room moves under [tick] only along
    [countdown -> playing] and [playing -> finished]; [waiting], [paused] and
    [finished] are kept.  A match that [tick] ends has a winner, and the
    winner's score is at least the winning score. *)
Theorem tick_status_transitions (st : GameLogic.GameServerState) (rnd1 rnd2 : R) :
  let gs := GameLogic.gameState st in
  let gs' := GameLogic.gameState (GameLogic.tick st rnd1 rnd2) in
  match Types.status gs with
  | Types.Countdown =>
    Types.status gs' = Types.Countdown \/ Types.status gs' = Types.Playing
  | Types.Playing =>
    Types.status gs' = Types.Playing \/
    (Types.status gs' = Types.Finished /\
     exists w, Types.winner gs' = Some w /\ (Constants.WINNING_SCORE <= scoreOf gs' w)%Z)
  | s => Types.status gs' = s
  end.
Proof.
  cbv zeta.
  destruct (tick_cases st rnd1 rnd2)
    as [(Hc & Hp & E) | [(Hs & _ & _ & E) | [(Hs & c' & _ & E)
        | [(Hs & _ & E) | (Hs & scorer & _ & E)]]]]; cbv zeta in *; rewrite E.
  - destruct (Types.status (GameLogic.gameState st)); congruence.
  - rewrite Hs. right. reflexivity.
  - rewrite Hs. left. cbn. exact Hs.
  - rewrite Hs. left. cbn. exact Hs.
  - rewrite Hs.
    destruct (handleScoring_status (advanced st) scorer rnd1) as [(H & _) | H];
      cbv zeta in H.
    + left. rewrite H. cbn. exact Hs.
    + right. exact H.
Qed.

(** X12: under [tick] no score ever decreases and at most one point is
    counted; outside [playing] the scores do not move at all. *)
Theorem tick_scores (st : GameLogic.GameServerState) (rnd1 rnd2 : R) :
  let gs := GameLogic.gameState st in
  let gs' := GameLogic.gameState (GameLogic.tick st rnd1 rnd2) in
  (Types.score1 gs <= Types.score1 gs' /\ Types.score2 gs <= Types.score2 gs' /\
   Types.score1 gs' + Types.score2 gs' <= Types.score1 gs + Types.score2 gs + 1)%Z /\
  (Types.status gs <> Types.Playing ->
   Types.score1 gs' = Types.score1 gs /\ Types.score2 gs' = Types.score2 gs).
Proof.
  cbv zeta.
  destruct (tick_cases st rnd1 rnd2)
    as [(Hc & Hp & E) | [(Hs & _ & _ & E) | [(Hs & c' & _ & E)
        | [(Hs & _ & E) | (Hs & scorer & _ & E)]]]]; cbv zeta in *; rewrite E.
  - split; [lia | auto].
  - cbn. split; [lia | auto].
  - cbn. split; [lia | auto].
  - cbn. split; [lia | congruence].
  - destruct (handleScoring_scores (advanced st) scorer rnd1) as (H1 & H2 & _).
    cbv zeta in *. rewrite H1, H2. split; [| congruence].
    destruct scorer; cbn; lia.
Qed.

Lemma tick_scores_witness :
  Types.score1 (GameLogic.gameState
                  (GameLogic.tick (roomAt Types.Paused 2 3 40 60) (1 / 2) (1 / 2)))
  = 2%Z.
Proof.
  apply (proj2 (tick_scores (roomAt Types.Paused 2 3 40 60) (1 / 2) (1 / 2))).
  cbn. discriminate.
Defined.

(** X13: [tick] never touches the room id, the players or the paddles, in
    any status; in [countdown] and [playing] it advances the tick counter by
    exactly one. *)
Theorem tick_frame (st : GameLogic.GameServerState) (rnd1 rnd2 : R) :
  let st' := GameLogic.tick st rnd1 rnd2 in
  GameLogic.roomId st' = GameLogic.roomId st /\
  GameLogic.players st' = GameLogic.players st /\
  Types.paddle1Y (GameLogic.gameState st') = Types.paddle1Y (GameLogic.gameState st) /\
  Types.paddle2Y (GameLogic.gameState st') = Types.paddle2Y (GameLogic.gameState st) /\
  (Types.status (GameLogic.gameState st) = Types.Countdown \/
   Types.status (GameLogic.gameState st) = Types.Playing ->
   GameLogic.tickCount st' = (GameLogic.tickCount st + 1)%Z).
Proof.
  cbv zeta.
  destruct (tick_cases st rnd1 rnd2)
    as [(Hc & Hp & E) | [(Hs & _ & _ & E) | [(Hs & c' & _ & E)
        | [(Hs & _ & E) | (Hs & scorer & _ & E)]]]]; cbv zeta in *; rewrite E.
  - repeat split; try reflexivity. intros [H | H]; congruence.
  - cbn. repeat split; reflexivity.
  - cbn. repeat split; reflexivity.
  - cbn. repeat split; reflexivity.
  - destruct (handleScoring_scores (advanced st) scorer rnd1)
      as (_ & _ & Hp1 & Hp2 & _ & Hr & Hpl & Ht). cbv zeta in *.
    rewrite Hp1, Hp2, Hr, Hpl, Ht. cbn. repeat split; reflexivity.
Qed.

Lemma tick_frame_witness :
  GameLogic.tickCount (GameLogic.tick (roomAt Types.Playing 2 3 40 60) (1 / 2) (1 / 2))
  = 1%Z.
Proof.
  apply (tick_frame (roomAt Types.Playing 2 3 40 60) (1 / 2) (1 / 2)).
  right. reflexivity.
Defined.

Lemma tick_keeps_paddles (st : GameLogic.GameServerState) (rnd1 rnd2 : R) :
  Types.paddle1Y (GameLogic.gameState (GameLogic.tick st rnd1 rnd2))
  = Types.paddle1Y (GameLogic.gameState st) /\
  Types.paddle2Y (GameLogic.gameState (GameLogic.tick st rnd1 rnd2))
  = Types.paddle2Y (GameLogic.gameState st).
Proof.
  destruct (tick_cases st rnd1 rnd2)
    as [(Hc & Hp & E) | [(Hs & _ & _ & E) | [(Hs & c' & _ & E)
        | [(Hs & _ & E) | (Hs & scorer & _ & E)]]]]; cbv zeta in *; rewrite E;
    try (split; reflexivity).
  destruct (handleScoring_scores (advanced st) scorer rnd1)
    as (_ & _ & Hp1 & Hp2 & _). cbv zeta in *.
  rewrite Hp1, Hp2. split; reflexivity.
Qed.

(** X14: the paddle range is an invariant of the room as long as no
    [PADDLE_MOVE] carries a [y] that is [NaN].  It holds in the initial game
    state; [addPlayer], [removePlayer], [startCountdown], [startGame],
    [handleScoring] and [tick] keep both paddle centres in
    [[PADDLE_HEIGHT / 2, ARENA_HEIGHT - PADDLE_HEIGHT / 2]], and so does
    [updatePaddlePosition] on every [y] other than [NaN], the infinities
    included.  On [NaN] sent by a player of the room it does not: the paddle
    of that player is [NaN] afterwards. *)
Theorem paddlesInRange_invariant (st : GameLogic.GameServerState) :
  paddlesInRange Types.createInitialGameState /\
  (paddlesInRange (GameLogic.gameState st) ->
   (forall c u, paddlesInRange (GameLogic.gameState (GameLogic.addPlayer st c u))) /\
   (forall c, paddlesInRange (GameLogic.gameState (GameLogic.removePlayer st c))) /\
   (forall c y,
       y <> Js.NaN ->
       paddlesInRange (GameLogic.gameState (GameLogic.updatePaddlePosition st c y))) /\
   (forall c p,
       GameLogic.getPlayer st c = Some p ->
       ~ paddlesInRange
           (GameLogic.gameState (GameLogic.updatePaddlePosition st c Js.NaN))) /\
   paddlesInRange (GameLogic.gameState (GameLogic.startCountdown st)) /\
   (forall r1 r2, paddlesInRange (GameLogic.gameState (GameLogic.startGame st r1 r2))) /\
   (forall scorer r,
       paddlesInRange (GameLogic.gameState (GameLogic.handleScoring st scorer r))) /\
   (forall r1 r2, paddlesInRange (GameLogic.gameState (GameLogic.tick st r1 r2)))).
Proof.
  split.
  - unfold paddlesInRange. cbn. unfold_constants. lra.
  - intros Hin.
    refine (conj _ (conj _ (conj _ (conj _ (conj _ (conj _ (conj _ _)))))));
      intros.
    + unfold GameLogic.addPlayer. destruct (2 <=? _)%nat; exact Hin.
    + unfold GameLogic.removePlayer. destruct (find _ _); [| exact Hin].
      cbn [GameLogic.gameState].
      destruct (_ || _); exact Hin.
    + pose proof (proj2 (clampPaddlePosition_inPaddleRange y) H) as Hy.
      unfold GameLogic.updatePaddlePosition.
      destruct (GameLogic.getPlayer st c) as [p |]; [| exact Hin].
      destruct Hin as [Hin1 Hin2].
      destruct (Types.role p); split; cbn; assumption.
    + unfold GameLogic.updatePaddlePosition. rewrite H.
      destruct (Types.role p); cbn; intros [H1 H2]; assumption.
    + unfold GameLogic.startCountdown. destruct (_ <? 2)%nat; exact Hin.
    + exact Hin.
    + destruct (handleScoring_scores st scorer r) as (_ & _ & Hp1 & Hp2 & _).
      cbv zeta in *. unfold paddlesInRange in *. rewrite Hp1, Hp2. exact Hin.
    + destruct (tick_keeps_paddles st r1 r2) as (Hp1 & Hp2).
      unfold paddlesInRange in *. rewrite Hp1, Hp2. exact Hin.
Qed.

Lemma paddlesInRange_invariant_witness :
  paddlesInRange
    (GameLogic.gameState
       (GameLogic.updatePaddlePosition twoPlayerRoom "conn-1" (Js.Num 120))) /\
  ~ paddlesInRange
      (GameLogic.gameState
         (GameLogic.updatePaddlePosition twoPlayerRoom "conn-1" Js.NaN)).
Proof.
  assert (Hin : paddlesInRange (GameLogic.gameState twoPlayerRoom)).
  { unfold paddlesInRange. cbn. unfold_constants. lra. }
  destruct (proj2 (paddlesInRange_invariant twoPlayerRoom) Hin)
    as (_ & _ & Hnum & Hnan & _).
  split.
  - apply Hnum. discriminate.
  - apply (Hnan "conn-1" hostPlayer). reflexivity.
Defined.

Lemma ticks_snoc (st : GameLogic.GameServerState) (rnds : list (R * R)) (r : R * R) :
  ticks st (rnds ++ [r]) = GameLogic.tick (ticks st rnds) (fst r) (snd r).
Proof. unfold ticks. rewrite fold_left_app. reflexivity. Qed.

(** The room during the first 179 ticks of a countdown that starts at
    3 seconds with the tick counter at 0. *)
Lemma countdown_prefix (st0 : GameLogic.GameServerState) (rnds : list (R * R)) :
  Types.status (GameLogic.gameState st0) = Types.Countdown ->
  Types.countdown (GameLogic.gameState st0) = 3%Z ->
  GameLogic.tickCount st0 = 0%Z ->
  (length rnds <= 179)%nat ->
  ticks st0 rnds
  = {| GameLogic.roomId := GameLogic.roomId st0;
       GameLogic.players := GameLogic.players st0;
       GameLogic.gameState :=
         GameLogic.withCountdown (GameLogic.gameState st0)
           (3 - Z.of_nat (length rnds) / 60);
       GameLogic.tickCount := Z.of_nat (length rnds) |}.
Proof.
  intros Hst Hcd Ht. induction rnds as [| r rnds IH] using rev_ind; intros Hlen.
  - cbn. destruct st0 as [room ps gs t]. cbn in *. subst t.
    destruct gs. cbn in *. subst. reflexivity.
  - rewrite length_app in Hlen. cbn in Hlen.
    rewrite ticks_snoc, IH by lia.
    rewrite length_app. cbn [length].
    set (n := length rnds) in *.
    unfold GameLogic.tick. cbv zeta. rewrite ticksPerSecond_60.
    cbn [GameLogic.gameState GameLogic.tickCount GameLogic.roomId GameLogic.players
         GameLogic.withCountdown Types.status Types.countdown].
    rewrite Hst. cbn [Types.GameStatus_eqb].
    assert (Hrem : (Z.rem (Z.of_nat n + 1) 60 = (Z.of_nat n + 1) mod 60)%Z)
      by (apply Z.rem_mod_nonneg; lia).
    rewrite Hrem.
    replace (Z.of_nat (n + 1)) with (Z.of_nat n + 1)%Z by lia.
    destruct ((Z.of_nat n + 1) mod 60 =? 0)%Z eqn:Em.
    + apply Z.eqb_eq in Em.
      assert (Hq : ((Z.of_nat n + 1) / 60 = Z.of_nat n / 60 + 1)%Z).
      { pose proof (Z.div_mod (Z.of_nat n + 1) 60 ltac:(lia)).
        pose proof (Z.div_mod (Z.of_nat n) 60 ltac:(lia)).
        pose proof (Z.mod_pos_bound (Z.of_nat n) 60 ltac:(lia)). lia. }
      assert (Hc : (1 <= Z.of_nat n / 60 + 1 <= 2)%Z).
      { pose proof (Z.div_mod (Z.of_nat n + 1) 60 ltac:(lia)). lia. }
      rewrite Hq.
      replace (Z.max 0 (3 - Z.of_nat n / 60 - 1) =? 0)%Z with false
        by (symmetry; apply Z.eqb_neq; lia).
      cbn [andb]. f_equal. unfold GameLogic.withCountdown. cbn. f_equal. lia.
    + apply Z.eqb_neq in Em.
      assert (Hq : ((Z.of_nat n + 1) / 60 = Z.of_nat n / 60)%Z).
      { pose proof (Z.div_mod (Z.of_nat n + 1) 60 ltac:(lia)).
        pose proof (Z.div_mod (Z.of_nat n) 60 ltac:(lia)).
        pose proof (Z.mod_pos_bound (Z.of_nat n) 60 ltac:(lia)).
        pose proof (Z.mod_pos_bound (Z.of_nat n + 1) 60 ltac:(lia)). lia. }
      assert (Hc : (0 <= Z.of_nat n / 60 <= 2)%Z).
      { pose proof (Z.div_mod (Z.of_nat n) 60 ltac:(lia)).
        pose proof (Z.mod_pos_bound (Z.of_nat n) 60 ltac:(lia)). lia. }
      rewrite Hq.
      replace (3 - Z.of_nat n / 60 =? 0)%Z with false
        by (symmetry; apply Z.eqb_neq; lia).
      cbn [andb]. reflexivity.
Qed.

(** X15: the countdown lasts exactly 180 ticks.  In a room in [countdown]
    with 3 seconds to go and the tick counter at 0, after [n < 180] ticks
    the room is still in [countdown] with [3 - n / 60] seconds left, the ball
    and the scores untouched; the 180th tick starts the game: the status is
    [playing], the countdown is 0, and the ball is served from the centre at
    the initial speed. *)
Theorem countdown_timeline (st0 : GameLogic.GameServerState) (rnds : list (R * R)) :
  Types.status (GameLogic.gameState st0) = Types.Countdown ->
  Types.countdown (GameLogic.gameState st0) = Constants.COUNTDOWN_SECONDS ->
  GameLogic.tickCount st0 = 0%Z ->
  let st := ticks st0 rnds in
  let gs := GameLogic.gameState st in
  ((length rnds < 180)%nat ->
   Types.status gs = Types.Countdown /\
   Types.countdown gs = (3 - Z.of_nat (length rnds) / 60)%Z /\
   (1 <= Types.countdown gs)%Z /\
   sameBall gs (GameLogic.gameState st0)) /\
  (length rnds = 180%nat ->
   Types.status gs = Types.Playing /\
   Types.countdown gs = 0%Z /\
   Types.ballX gs = 50 /\ Types.ballY gs = 50 /\
   ballSpeed gs = Constants.BALL_INITIAL_SPEED) /\
  ((length rnds <= 180)%nat ->
   GameLogic.tickCount st = Z.of_nat (length rnds) /\
   GameLogic.players st = GameLogic.players st0 /\
   Types.score1 gs = Types.score1 (GameLogic.gameState st0) /\
   Types.score2 gs = Types.score2 (GameLogic.gameState st0)).
Proof.
  intros Hst Hcd Ht st gs. unfold Constants.COUNTDOWN_SECONDS in Hcd.
  assert (Hlast : length rnds = 180%nat ->
    exists r1 r2,
      st = GameLogic.startGame
             (GameLogic.withTickCount
                {| GameLogic.roomId := GameLogic.roomId st0;
                   GameLogic.players := GameLogic.players st0;
                   GameLogic.gameState :=
                     GameLogic.withCountdown (GameLogic.gameState st0) 1;
                   GameLogic.tickCount := 179 |} 180) r1 r2).
  { intros Hlen. subst gs st.
    destruct rnds as [| r rnds] using rev_ind; [discriminate |]. clear IHrnds.
    rewrite length_app in Hlen. cbn in Hlen.
    rewrite ticks_snoc, (countdown_prefix st0 rnds Hst Hcd Ht) by lia.
    replace (length rnds) with 179%nat by lia.
    exists (fst r), (snd r).
    unfold GameLogic.tick. cbv zeta. rewrite ticksPerSecond_60.
    cbn [GameLogic.gameState GameLogic.tickCount GameLogic.withCountdown Types.status
         Types.countdown].
    rewrite Hst. reflexivity. }
  split; [| split].
  - intros Hlen. subst gs st.
    rewrite (countdown_prefix st0 rnds Hst Hcd Ht) by lia.
    cbn [GameLogic.gameState GameLogic.withCountdown Types.status Types.countdown].
    assert (0 <= Z.of_nat (length rnds) / 60 <= 2)%Z.
    { pose proof (Z.div_mod (Z.of_nat (length rnds)) 60 ltac:(lia)).
      pose proof (Z.mod_pos_bound (Z.of_nat (length rnds)) 60 ltac:(lia)). lia. }
    unfold sameBall. cbn. repeat split; try reflexivity; try assumption; lia.
  - intros Hlen. destruct (Hlast Hlen) as (r1 & r2 & E). subst gs. rewrite E.
    unfold GameLogic.startGame, ballSpeed.
    cbn [GameLogic.gameState GameLogic.withGameState GameLogic.withCountdown
         GameLogic.withBall GameLogic.withStatus Types.status Types.countdown
         Types.ballX Types.ballY Types.ballVelX Types.ballVelY].
    repeat split; try reflexivity. apply startBall_speed.
  - intros Hlen.
    destruct (Nat.eq_dec (length rnds) 180%nat) as [H180 | H180].
    + destruct (Hlast H180) as (r1 & r2 & E). subst gs. rewrite E, H180.
      cbn. repeat split; reflexivity.
    + subst gs st. rewrite (countdown_prefix st0 rnds Hst Hcd Ht) by lia.
      cbn. repeat split; reflexivity.
Qed.

Lemma countdown_timeline_witness :
  Types.status
    (GameLogic.gameState
       (ticks (GameLogic.startCountdown twoPlayerRoom)
              (repeat (1 / 2, 1 / 2) 180)))
  = Types.Playing.
Proof.
  apply (proj1 (proj2 (countdown_timeline (GameLogic.startCountdown twoPlayerRoom)
                         (repeat (1 / 2, 1 / 2) 180)
                         eq_refl eq_refl eq_refl))).
  apply repeat_length.
Defined.

Lemma ballSpeed_physicsOf (gs : Types.GameState) :
  Physics.speed (physicsOf gs) = ballSpeed gs.
Proof. reflexivity. Qed.

Lemma physicsTick_speed_le (s : Physics.PhysicsState) :
  Physics.speed s <= Constants.BALL_MAX_SPEED ->
  Physics.speed (fst (Physics.physicsTick s)) <= Constants.BALL_MAX_SPEED.
Proof.
  intros Hle. destruct (decide (Physics.paddleCollision s)) as [Hc | Hc].
  - rewrite (speed_physicsTick_hit s Hc). apply Rmin_r.
  - rewrite (speed_physicsTick_miss s Hc). exact Hle.
Qed.

(** [handleScoring] keeps the ball or serves it. *)
Lemma handleScoring_ballSpeed (st : GameLogic.GameServerState) (scorer : Types.Side) (rnd : R) :
  ballSpeed (GameLogic.gameState (GameLogic.handleScoring st scorer rnd))
  = ballSpeed (GameLogic.gameState st) \/
  ballSpeed (GameLogic.gameState (GameLogic.handleScoring st scorer rnd))
  = Constants.BALL_INITIAL_SPEED.
Proof.
  pose proof (startBall_speed scorer rnd) as Hserve.
  unfold GameLogic.handleScoring. cbv zeta.
  destruct (Constants.WINNING_SCORE <=? _)%Z; [left; reflexivity |].
  destruct (Constants.WINNING_SCORE <=? _)%Z; [left; reflexivity |].
  destruct (Types.status (GameLogic.gameState st));
    first [left; reflexivity | right; exact Hserve].
Qed.

(** X16: the speed limit is an invariant of the game tick.  If the ball of
    a room is no faster than [BALL_MAX_SPEED], it is no faster than
    [BALL_MAX_SPEED] after [tick], in every status and whatever the random
    values. *)
Theorem tick_ballSpeed (st : GameLogic.GameServerState) (rnd1 rnd2 : R) :
  ballSpeed (GameLogic.gameState st) <= Constants.BALL_MAX_SPEED ->
  0 <= ballSpeed (GameLogic.gameState (GameLogic.tick st rnd1 rnd2))
    <= Constants.BALL_MAX_SPEED.
Proof.
  intros Hle. split; [apply sqrt_pos |].
  assert (Hinit : Constants.BALL_INITIAL_SPEED <= Constants.BALL_MAX_SPEED)
    by (unfold_constants; lra).
  assert (Hadv : ballSpeed (GameLogic.gameState (advanced st))
                 <= Constants.BALL_MAX_SPEED).
  { unfold advanced. cbv zeta. cbn [GameLogic.gameState].
    change (ballSpeed _)
      with (Physics.speed
              (fst (Physics.physicsTick (physicsOf (GameLogic.gameState st))))).
    apply physicsTick_speed_le. rewrite ballSpeed_physicsOf. exact Hle. }
  destruct (tick_cases st rnd1 rnd2)
    as [(Hc & Hp & E) | [(Hs & _ & _ & E) | [(Hs & c' & _ & E)
        | [(Hs & _ & E) | (Hs & scorer & _ & E)]]]]; cbv zeta in *; rewrite E.
  - exact Hle.
  - unfold GameLogic.startGame, ballSpeed.
    cbn [GameLogic.gameState GameLogic.withGameState GameLogic.withCountdown
         GameLogic.withBall Types.ballVelX Types.ballVelY].
    rewrite startBall_speed. exact Hinit.
  - exact Hle.
  - exact Hadv.
  - destruct (handleScoring_ballSpeed (advanced st) scorer rnd1) as [H | H];
      rewrite H; assumption.
Qed.

Lemma tick_ballSpeed_witness :
  0 <= ballSpeed (GameLogic.gameState
                    (GameLogic.tick (roomAt Types.Playing 2 3 40 60) (1 / 2) (1 / 2)))
    <= Constants.BALL_MAX_SPEED.
Proof.
  apply (tick_ballSpeed (roomAt Types.Playing 2 3 40 60)).
  unfold ballSpeed, roomAt.
  cbn [GameLogic.gameState Types.ballVelX Types.ballVelY].
  replace (0 ^ 2 + 0 ^ 2) with 0 by ring.
  rewrite sqrt_0. unfold_constants. lra.
Defined.

(** * Further properties of the matchmaking queue *)

(** X17: [joinQueue] succeeds exactly when [isUsernameTaken] says the name
    is free; once it has succeeded the name is taken in every letter case,
    and every name that was taken before still is. *)
Theorem joinQueue_isUsernameTaken (st : Matchmaker.MatchmakerState)
  (cid name : string) (now : Z) :
  let r := Matchmaker.joinQueue st cid name now in
  Matchmaker.jq_success r = negb (Matchmaker.isUsernameTaken st name) /\
  (Matchmaker.jq_success r = true ->
   forall name',
     Matchmaker.toLowerCase name' = Matchmaker.toLowerCase name ->
     Matchmaker.isUsernameTaken (Matchmaker.jq_state r) name' = true) /\
  (forall other,
      Matchmaker.isUsernameTaken st other = true ->
      Matchmaker.isUsernameTaken (Matchmaker.jq_state r) other = true).
Proof.
  cbv zeta. unfold Matchmaker.joinQueue, Matchmaker.isUsernameTaken. cbv zeta.
  case_bool_decide as Hin; cbn [Matchmaker.jq_success Matchmaker.jq_state
                                 Matchmaker.activeUsernames negb].
  - split; [reflexivity |]. split; [discriminate | auto].
  - split; [reflexivity |]. split.
    + intros _ name' Heq. apply bool_decide_eq_true. rewrite Heq. set_solver.
    + intros other Hother. apply bool_decide_eq_true in Hother.
      apply bool_decide_eq_true. set_solver.
Qed.

Lemma joinQueue_isUsernameTaken_witness :
  Matchmaker.isUsernameTaken onePlayerQueued "PLAYER1" = true.
Proof.
  apply (proj1 (proj2 (joinQueue_isUsernameTaken Matchmaker.createMatchmakerState
                         "conn-1" "player1" 1000))); reflexivity.
Defined.

Lemma filter_hasConnection_none (cid : string) (q : list Matchmaker.QueuedPlayer) :
  (forall p, In p q -> Matchmaker.connectionId p <> cid) ->
  List.filter (fun p => negb (Matchmaker.hasConnection cid p)) q = q.
Proof.
  intros Hall. induction q as [| p q IH]; [reflexivity |].
  cbn [List.filter]. unfold Matchmaker.hasConnection at 1.
  destruct (String.eqb_spec (Matchmaker.connectionId p) cid) as [E | E].
  - exfalso. exact (Hall p (or_introl eq_refl) E).
  - cbn. f_equal. apply IH. intros x Hx. apply Hall. right. exact Hx.
Qed.

Lemma find_hasConnection_none (cid : string) (q : list Matchmaker.QueuedPlayer) :
  List.find (Matchmaker.hasConnection cid) q = None <->
  (forall p, In p q -> Matchmaker.connectionId p <> cid).
Proof.
  split.
  - intros Hnone p Hin Heq. pose proof (find_none _ _ Hnone p Hin) as Hf.
    unfold Matchmaker.hasConnection in Hf. apply String.eqb_neq in Hf. contradiction.
  - intros Hall. destruct (find _ _) as [p |] eqn:E; [| reflexivity].
    apply find_some in E as [Hin Hf].
    unfold Matchmaker.hasConnection in Hf. apply String.eqb_eq in Hf.
    exfalso. exact (Hall p Hin Hf).
Qed.

Lemma find_hasConnection_app (cid : string) (q : list Matchmaker.QueuedPlayer)
  (p : Matchmaker.QueuedPlayer) :
  (forall x, In x q -> Matchmaker.connectionId x <> cid) ->
  Matchmaker.connectionId p = cid ->
  List.find (Matchmaker.hasConnection cid) (q ++ [p]) = Some p.
Proof.
  intros Hall Hp. induction q as [| x q IH]; cbn [app List.find].
  - unfold Matchmaker.hasConnection. rewrite Hp, String.eqb_refl. reflexivity.
  - unfold Matchmaker.hasConnection at 1.
    destruct (String.eqb_spec (Matchmaker.connectionId x) cid) as [E | E].
    + exfalso. exact (Hall x (or_introl eq_refl) E).
    + apply IH. intros y Hy. apply Hall. right. exact Hy.
Qed.

(** X18: joining and leaving is a round trip.  When the name is free and
    the connection is not yet queued, [leaveQueue] after [joinQueue] gives
    back the matchmaker state as it was: the queue and the set of active
    names. *)
Theorem joinQueue_leaveQueue (st : Matchmaker.MatchmakerState)
  (cid name : string) (now : Z) :
  Matchmaker.toLowerCase name ∉ Matchmaker.activeUsernames st ->
  (forall p, In p (Matchmaker.queue st) -> Matchmaker.connectionId p <> cid) ->
  Matchmaker.leaveQueue
    (Matchmaker.jq_state (Matchmaker.joinQueue st cid name now)) cid
  = st.
Proof.
  intros Hfree Hfresh.
  unfold Matchmaker.joinQueue. cbv zeta.
  rewrite bool_decide_eq_false_2 by exact Hfree. cbn [Matchmaker.jq_state].
  unfold Matchmaker.leaveQueue. cbn [Matchmaker.queue Matchmaker.activeUsernames].
  rewrite (find_hasConnection_app cid (Matchmaker.queue st)) by (auto; reflexivity).
  rewrite List.filter_app, filter_hasConnection_none by exact Hfresh.
  cbn [List.filter Matchmaker.username]. unfold Matchmaker.hasConnection.
  cbn [Matchmaker.connectionId]. rewrite String.eqb_refl. cbn [negb].
  rewrite app_nil_r. destruct st as [q active]. cbn in *. f_equal.
  apply set_eq. intros x.
  rewrite elem_of_difference, elem_of_union, elem_of_singleton. split.
  - intros [[-> | Hx] Hne]; [exfalso; apply Hne; reflexivity | exact Hx].
  - intros Hx. split; [right; exact Hx | intros ->; contradiction].
Qed.

Lemma joinQueue_leaveQueue_witness :
  Matchmaker.leaveQueue
    (Matchmaker.jq_state (Matchmaker.joinQueue fourQueued "conn-e" "Erin" 1004))
    "conn-e"
  = fourQueued.
Proof.
  apply (joinQueue_leaveQueue fourQueued "conn-e" "Erin" 1004).
  - apply (bool_decide_unpack _). vm_compute. exact I.
  - intros p Hp Heq. cbn in Hp.
    destruct Hp as [<- | [<- | [<- | [<- | []]]]]; discriminate Heq.
Defined.

Lemma NoDup_map_injective_on {A B : Type} (f : A -> B) (l : list A) (x y : A) :
  List.NoDup (List.map f l) -> In x l -> In y l -> f x = f y -> x = y.
Proof.
  induction l as [| a l IH]; intros Hnd Hx Hy Hf; [destruct Hx |].
  cbn in Hnd. inversion Hnd as [| ? ? Hnotin Hnd']; subst.
  destruct Hx as [-> | Hx]; destruct Hy as [-> | Hy]; auto.
  - exfalso. apply Hnotin. rewrite Hf. apply in_map. exact Hy.
  - exfalso. apply Hnotin. rewrite <- Hf. apply in_map. exact Hx.
Qed.

Lemma NoDup_map_filter {A B : Type} (f : A -> B) (keep : A -> bool) (l : list A) :
  List.NoDup (List.map f l) -> List.NoDup (List.map f (List.filter keep l)).
Proof.
  induction l as [| a l IH]; intros Hnd; [exact Hnd |].
  cbn in Hnd. inversion Hnd as [| ? ? Hnotin Hnd']; subst.
  cbn [List.filter]. destruct (keep a); [| auto].
  cbn [List.map]. constructor; [| auto].
  intros Hin. apply Hnotin. apply in_map_iff in Hin as (x & Hfx & Hx).
  apply filter_In in Hx as [Hx _]. rewrite <- Hfx. apply in_map. exact Hx.
Qed.

(** X19: the queue stays consistent.  In the empty matchmaker no two queued
    players share a name up to letter case and every queued name is active;
    [joinQueue], [leaveQueue] and [findMatch] keep it so. *)
Theorem queueConsistent_invariant (st : Matchmaker.MatchmakerState) :
  queueConsistent Matchmaker.createMatchmakerState /\
  (queueConsistent st ->
   (forall cid name now,
       queueConsistent (Matchmaker.jq_state (Matchmaker.joinQueue st cid name now))) /\
   (forall cid, queueConsistent (Matchmaker.leaveQueue st cid)) /\
   (forall timestamp random,
       queueConsistent (Matchmaker.fm_state (Matchmaker.findMatch st timestamp random)))).
Proof.
  split.
  - split; [constructor | intros n []].
  - intros [Hnd Hact]. refine (conj _ (conj _ _)).
    + intros cid name now. unfold Matchmaker.joinQueue. cbv zeta.
      case_bool_decide as Hin; cbn [Matchmaker.jq_state]; [split; assumption |].
      unfold queueConsistent, queuedNames in *.
      cbn [Matchmaker.queue Matchmaker.activeUsernames Matchmaker.username].
      rewrite map_app. cbn [List.map Matchmaker.username]. split.
      * apply List.NoDup_app; [exact Hnd | |].
        -- constructor; [intros [] | constructor].
        -- intros x Hx [<- | []]. apply Hin, Hact, Hx.
      * intros n Hn. apply in_app_or in Hn as [Hn | [<- | []]].
        -- apply elem_of_union_r, Hact, Hn.
        -- apply elem_of_union_l, elem_of_singleton. reflexivity.
    + intros cid. unfold Matchmaker.leaveQueue.
      destruct (find _ _) as [leaver |] eqn:Hfind; [| split; assumption].
      apply find_some in Hfind as [Hleaver Hcid].
      unfold queueConsistent, queuedNames in *.
      cbn [Matchmaker.queue Matchmaker.activeUsernames]. split.
      * apply NoDup_map_filter. exact Hnd.
      * intros n Hn. apply in_map_iff in Hn as (q & <- & Hq).
        apply filter_In in Hq as [Hq Hkeep].
        apply elem_of_difference. split.
        { apply Hact, in_map_iff. exists q. split; [reflexivity | exact Hq]. }
        rewrite elem_of_singleton. intros Heq.
        assert (q = leaver)
          by exact (NoDup_map_injective_on _ _ q leaver Hnd Hq Hleaver Heq).
        subst q. rewrite Hcid in Hkeep. discriminate.
    + intros timestamp random. unfold Matchmaker.findMatch.
      destruct (length (Matchmaker.queue st) <? 2)%nat; [split; assumption |].
      unfold queueConsistent, queuedNames in *.
      destruct (Matchmaker.queue st) as [| a [| b rest]] eqn:Hq;
        cbn [Matchmaker.fm_state Matchmaker.queue Matchmaker.activeUsernames];
        try (rewrite Hq; split; assumption).
      cbn [List.map] in *.
      apply NoDup_cons_iff in Hnd as [_ Hnd].
      apply NoDup_cons_iff in Hnd as [_ Hnd].
      split; [exact Hnd |]. intros n Hn. apply Hact. right; right. exact Hn.
Qed.

Lemma queueConsistent_invariant_witness : queueConsistent onePlayerQueued.
Proof.
  apply (proj2 (queueConsistent_invariant Matchmaker.createMatchmakerState)).
  split; [constructor | intros n []].
Defined.

(** X20: [freeUsername] releases a name in every letter case, touches
    neither the queue nor any other name, and makes the next [joinQueue]
    with that name succeed. *)
Theorem freeUsername_releases (st : Matchmaker.MatchmakerState) (name : string) :
  let st' := Matchmaker.freeUsername st name in
  Matchmaker.queue st' = Matchmaker.queue st /\
  (forall name',
      Matchmaker.toLowerCase name' = Matchmaker.toLowerCase name ->
      Matchmaker.isUsernameTaken st' name' = false) /\
  (forall other,
      Matchmaker.toLowerCase other <> Matchmaker.toLowerCase name ->
      Matchmaker.isUsernameTaken st' other = Matchmaker.isUsernameTaken st other) /\
  (forall cid now,
      Matchmaker.jq_success (Matchmaker.joinQueue st' cid name now) = true).
Proof.
  cbv zeta.
  assert (Hfree : Matchmaker.toLowerCase name
                  ∉ Matchmaker.activeUsernames (Matchmaker.freeUsername st name)).
  { unfold Matchmaker.freeUsername. cbn [Matchmaker.activeUsernames].
    rewrite elem_of_difference, elem_of_singleton. tauto. }
  split; [reflexivity |]. split; [| split].
  - intros name' Heq. unfold Matchmaker.isUsernameTaken.
    apply bool_decide_eq_false. rewrite Heq. exact Hfree.
  - intros other Hne. unfold Matchmaker.isUsernameTaken, Matchmaker.freeUsername.
    cbn [Matchmaker.activeUsernames]. apply bool_decide_ext.
    rewrite elem_of_difference, elem_of_singleton. tauto.
  - intros cid now. unfold Matchmaker.joinQueue. cbv zeta.
    rewrite bool_decide_eq_false_2 by exact Hfree. reflexivity.
Qed.

Lemma freeUsername_releases_witness :
  Matchmaker.isUsernameTaken (Matchmaker.freeUsername fourQueued "ALICE") "Alice"
  = false /\
  Matchmaker.isUsernameTaken (Matchmaker.freeUsername fourQueued "ALICE") "Bob"
  = Matchmaker.isUsernameTaken fourQueued "Bob".
Proof.
  split.
  - apply (proj1 (proj2 (freeUsername_releases fourQueued "ALICE"))). reflexivity.
  - apply (proj1 (proj2 (proj2 (freeUsername_releases fourQueued "ALICE")))).
    discriminate.
Defined.

(** What [findIndex] finds. *)
Lemma findIndex_spec (cid : string) (q : list Matchmaker.QueuedPlayer) :
  match Matchmaker.findIndex cid q with
  | None => forall p, In p q -> Matchmaker.connectionId p <> cid
  | Some i =>
    (i < length q)%nat /\
    (exists p, nth_error q i = Some p /\ Matchmaker.connectionId p = cid) /\
    (forall j p, (j < i)%nat -> nth_error q j = Some p ->
                 Matchmaker.connectionId p <> cid)
  end.
Proof.
  induction q as [| x q IH]; cbn [Matchmaker.findIndex].
  - intros p [].
  - unfold Matchmaker.hasConnection at 1.
    destruct (String.eqb_spec (Matchmaker.connectionId x) cid) as [E | E].
    + split; [cbn; lia |]. split; [exists x; split; [reflexivity | exact E] |].
      intros j p Hj. lia.
    + destruct (Matchmaker.findIndex cid q) as [i |]; cbn [option_map].
      * destruct IH as (Hlt & (p & Hp & Hc) & Hbefore).
        split; [cbn; lia |]. split; [exists p; split; assumption |].
        intros [| j] y Hj Hy; cbn in Hy.
        -- injection Hy as <-. exact E.
        -- apply (Hbefore j y); [lia | exact Hy].
      * intros p [<- | Hp]; [exact E | apply IH, Hp].
Qed.

(** X21: [getQueuePosition] is [-1] exactly when the connection is not
    queued; otherwise it is the 1-based index, between 1 and the queue
    length, of the first queued player with that connection. *)
Theorem getQueuePosition_spec (st : Matchmaker.MatchmakerState) (cid : string) :
  let pos := Matchmaker.getQueuePosition st cid in
  (pos = (-1)%Z <-> ~ queued st cid) /\
  (queued st cid ->
   (1 <= pos <= Z.of_nat (length (Matchmaker.queue st)))%Z /\
   (exists p, nth_error (Matchmaker.queue st) (Z.to_nat (pos - 1)) = Some p /\
              Matchmaker.connectionId p = cid) /\
   (forall j p, (Z.of_nat j < pos - 1)%Z ->
                nth_error (Matchmaker.queue st) j = Some p ->
                Matchmaker.connectionId p <> cid)).
Proof.
  cbv zeta. unfold Matchmaker.getQueuePosition, queued.
  pose proof (findIndex_spec cid (Matchmaker.queue st)) as Hspec.
  destruct (Matchmaker.findIndex cid (Matchmaker.queue st)) as [i |].
  - destruct Hspec as (Hlt & (p & Hp & Hc) & Hbefore). split.
    + split; [lia |]. intros Hnot. exfalso. apply Hnot.
      exists p. split; [eapply nth_error_In; exact Hp | exact Hc].
    + intros _. split; [lia |]. split.
      * exists p. replace (Z.to_nat (Z.of_nat i + 1 - 1)) with i by lia.
        split; assumption.
      * intros j y Hj. apply Hbefore. lia.
  - split.
    + split; [| reflexivity]. intros _ (p & Hp & Hc). exact (Hspec p Hp Hc).
    + intros (p & Hp & Hc). exfalso. exact (Hspec p Hp Hc).
Qed.

Lemma getQueuePosition_spec_witness :
  (1 <= Matchmaker.getQueuePosition fourQueued "conn-c"
     <= Z.of_nat (length (Matchmaker.queue fourQueued)))%Z.
Proof.
  apply (proj2 (getQueuePosition_spec fourQueued "conn-c")).
  exists playerC. split; [right; right; left; reflexivity | reflexivity].
Defined.

Lemma findIndex_app_fresh (cid : string) (q : list Matchmaker.QueuedPlayer)
  (p : Matchmaker.QueuedPlayer) :
  (forall x, In x q -> Matchmaker.connectionId x <> cid) ->
  Matchmaker.connectionId p = cid ->
  Matchmaker.findIndex cid (q ++ [p]) = Some (length q).
Proof.
  intros Hall Hp. induction q as [| x q IH]; cbn [app Matchmaker.findIndex length].
  - unfold Matchmaker.hasConnection. rewrite Hp, String.eqb_refl. reflexivity.
  - unfold Matchmaker.hasConnection at 1.
    destruct (String.eqb_spec (Matchmaker.connectionId x) cid) as [E | E].
    + exfalso. exact (Hall x (or_introl eq_refl) E).
    + rewrite IH; [reflexivity |]. intros y Hy. apply Hall. right. exact Hy.
Qed.

Lemma findIndex_app_queued (cid : string) (q : list Matchmaker.QueuedPlayer)
  (p : Matchmaker.QueuedPlayer) (i : nat) :
  Matchmaker.findIndex cid q = Some i ->
  Matchmaker.findIndex cid (q ++ [p]) = Some i.
Proof.
  revert i. induction q as [| x q IH]; intros i; cbn [app Matchmaker.findIndex].
  - discriminate.
  - destruct (Matchmaker.hasConnection cid x); [auto |].
    destruct (Matchmaker.findIndex cid q) as [k |]; [| discriminate].
    intros H. rewrite (IH k eq_refl). exact H.
Qed.

(** X22: the position [joinQueue] returns to a new connection is the one
    [getQueuePosition] reports for it afterwards, and a join never moves a
    player who is already queued. *)
Theorem joinQueue_getQueuePosition (st : Matchmaker.MatchmakerState)
  (cid name : string) (now : Z) :
  let r := Matchmaker.joinQueue st cid name now in
  (Matchmaker.jq_success r = true ->
   ~ queued st cid ->
   exists pos, Matchmaker.jq_position r = Some pos /\
               Matchmaker.getQueuePosition (Matchmaker.jq_state r) cid = Z.of_nat pos) /\
  (forall other,
      queued st other ->
      Matchmaker.getQueuePosition (Matchmaker.jq_state r) other
      = Matchmaker.getQueuePosition st other).
Proof.
  cbv zeta. unfold Matchmaker.joinQueue. cbv zeta.
  case_bool_decide as Hin;
    cbn [Matchmaker.jq_success Matchmaker.jq_state Matchmaker.jq_position].
  - split; [discriminate | reflexivity].
  - split.
    + intros _ Hfresh. eexists. split; [reflexivity |].
      unfold Matchmaker.getQueuePosition. cbn [Matchmaker.queue].
      rewrite findIndex_app_fresh; [rewrite length_app; cbn; lia | | reflexivity].
      intros x Hx Hc. apply Hfresh. exists x. split; assumption.
    + intros other (p & Hp & Hc).
      unfold Matchmaker.getQueuePosition. cbn [Matchmaker.queue].
      pose proof (findIndex_spec other (Matchmaker.queue st)) as Hspec.
      destruct (Matchmaker.findIndex other (Matchmaker.queue st)) as [i |] eqn:E.
      * rewrite (findIndex_app_queued _ _ _ _ E). reflexivity.
      * exfalso. exact (Hspec p Hp Hc).
Qed.

Lemma joinQueue_getQueuePosition_witness :
  Matchmaker.getQueuePosition
    (Matchmaker.jq_state (Matchmaker.joinQueue fourQueued "conn-e" "Erin" 1004))
    "conn-b"
  = Matchmaker.getQueuePosition fourQueued "conn-b".
Proof.
  apply (proj2 (joinQueue_getQueuePosition fourQueued "conn-e" "Erin" 1004)).
  exists playerB. split; [right; left; reflexivity | reflexivity].
Defined.

Lemma findIndex_filter (cid : string) (q : list Matchmaker.QueuedPlayer) :
  Matchmaker.findIndex cid
    (List.filter (fun p => negb (Matchmaker.hasConnection cid p)) q) = None.
Proof.
  induction q as [| x q IH]; [reflexivity |].
  cbn [List.filter]. destruct (Matchmaker.hasConnection cid x) eqn:E; cbn [negb].
  - exact IH.
  - cbn [Matchmaker.findIndex]. rewrite E, IH. reflexivity.
Qed.

(** X23: [leaveQueue] removes every queued player of the connection and
    keeps the others in their order; afterwards the connection has no queue
    position.  If the connection was not queued the state is unchanged; if
    it was, the queue gets shorter and the name of its first queued player
    is free again. *)
Theorem leaveQueue_spec (st : Matchmaker.MatchmakerState) (cid : string) :
  let st' := Matchmaker.leaveQueue st cid in
  Matchmaker.queue st'
  = List.filter (fun p => negb (Matchmaker.hasConnection cid p)) (Matchmaker.queue st) /\
  Matchmaker.getQueuePosition st' cid = (-1)%Z /\
  (~ queued st cid -> st' = st) /\
  (forall leaver,
      List.find (Matchmaker.hasConnection cid) (Matchmaker.queue st) = Some leaver ->
      (length (Matchmaker.queue st') < length (Matchmaker.queue st))%nat /\
      Matchmaker.isUsernameTaken st' (Matchmaker.username leaver) = false).
Proof.
  cbv zeta.
  assert (Hq : Matchmaker.queue (Matchmaker.leaveQueue st cid)
    = List.filter (fun p => negb (Matchmaker.hasConnection cid p)) (Matchmaker.queue st)).
  { unfold Matchmaker.leaveQueue.
    destruct (find _ _) as [leaver |] eqn:Hfind; [reflexivity |].
    symmetry. apply filter_hasConnection_none, find_hasConnection_none, Hfind. }
  split; [exact Hq |]. split; [| split].
  - unfold Matchmaker.getQueuePosition. rewrite Hq, findIndex_filter. reflexivity.
  - intros Hnot. unfold Matchmaker.leaveQueue.
    destruct (find _ _) as [leaver |] eqn:Hfind; [| reflexivity].
    exfalso. apply Hnot. apply find_some in Hfind as [Hin Hc].
    unfold Matchmaker.hasConnection in Hc. apply String.eqb_eq in Hc.
    exists leaver. split; assumption.
  - intros leaver Hfind. split.
    + rewrite Hq. apply find_some in Hfind as [Hin Hc].
      clear Hq. induction (Matchmaker.queue st) as [| x q IH]; [destruct Hin |].
      cbn [List.filter length].
      destruct Hin as [-> | Hin].
      * rewrite Hc. cbn [negb].
        pose proof (filter_length_le
          (fun p => negb (Matchmaker.hasConnection cid p)) q). lia.
      * specialize (IH Hin).
        destruct (negb (Matchmaker.hasConnection cid x)); cbn [length]; lia.
    + unfold Matchmaker.leaveQueue. rewrite Hfind.
      unfold Matchmaker.isUsernameTaken. cbn [Matchmaker.activeUsernames].
      apply bool_decide_eq_false.
      rewrite elem_of_difference, elem_of_singleton. tauto.
Qed.

Lemma leaveQueue_spec_witness :
  Matchmaker.leaveQueue fourQueued "conn-x" = fourQueued /\
  Matchmaker.isUsernameTaken (Matchmaker.leaveQueue fourQueued "conn-b") "Bob" = false.
Proof.
  split.
  - apply (proj1 (proj2 (proj2 (leaveQueue_spec fourQueued "conn-x")))).
    intros (p & Hp & Hc). cbn in Hp.
    destruct Hp as [<- | [<- | [<- | [<- | []]]]]; discriminate Hc.
  - apply (proj2 (proj2 (proj2 (leaveQueue_spec fourQueued "conn-b"))) playerB).
    reflexivity.
Defined.

(** X24: a match keeps the names of the matched players taken.  In a
    consistent queue, after [findMatch] has paired two players, neither is
    queued any more, the queue is two shorter, and a [joinQueue] under the
    name of either fails with [USERNAME_TAKEN]. *)
Theorem findMatch_names_stay_taken (st : Matchmaker.MatchmakerState)
  (timestamp random : string) (m : Matchmaker.MatchResult) :
  queueConsistent st ->
  Matchmaker.fm_match (Matchmaker.findMatch st timestamp random) = Some m ->
  let st' := Matchmaker.fm_state (Matchmaker.findMatch st timestamp random) in
  Matchmaker.queue st = Matchmaker.player1 m :: Matchmaker.player2 m :: Matchmaker.queue st' /\
  ~ In (Matchmaker.player1 m) (Matchmaker.queue st') /\
  ~ In (Matchmaker.player2 m) (Matchmaker.queue st') /\
  (forall cid now,
      Matchmaker.jq_error
        (Matchmaker.joinQueue st' cid (Matchmaker.username (Matchmaker.player1 m)) now)
      = Some Matchmaker.USERNAME_TAKEN) /\
  (forall cid now,
      Matchmaker.jq_error
        (Matchmaker.joinQueue st' cid (Matchmaker.username (Matchmaker.player2 m)) now)
      = Some Matchmaker.USERNAME_TAKEN).
Proof.
  intros [Hnd Hact] Hm. cbv zeta. revert Hm.
  unfold Matchmaker.findMatch. unfold queuedNames in *.
  destruct (length (Matchmaker.queue st) <? 2)%nat; [discriminate |].
  destruct (Matchmaker.queue st) as [| a [| b rest]]; try discriminate.
  cbn [Matchmaker.fm_match Matchmaker.fm_state Matchmaker.queue
       Matchmaker.activeUsernames].
  intros [= <-]. cbn [Matchmaker.player1 Matchmaker.player2].
  cbn [List.map] in Hnd, Hact.
  apply NoDup_cons_iff in Hnd as [Ha Hnd]. apply NoDup_cons_iff in Hnd as [Hb Hnd].
  assert (Htaken : forall p, p = a \/ p = b -> forall cid now,
    Matchmaker.jq_error
      (Matchmaker.joinQueue
         {| Matchmaker.queue := rest;
            Matchmaker.activeUsernames := Matchmaker.activeUsernames st |}
         cid (Matchmaker.username p) now)
    = Some Matchmaker.USERNAME_TAKEN).
  { intros p Hp cid now. unfold Matchmaker.joinQueue. cbv zeta.
    cbn [Matchmaker.activeUsernames].
    rewrite bool_decide_eq_true_2; [reflexivity |].
    apply Hact. destruct Hp as [-> | ->]; [left | right; left]; reflexivity. }
  split; [reflexivity |]. split; [| split; [| split]].
  - intros Hin. apply Ha. right.
    apply in_map_iff. exists a. split; [reflexivity | exact Hin].
  - intros Hin. apply Hb.
    apply in_map_iff. exists b. split; [reflexivity | exact Hin].
  - apply Htaken. left. reflexivity.
  - apply Htaken. right. reflexivity.
Qed.

Lemma fourQueued_consistent : queueConsistent fourQueued.
Proof.
  split.
  - unfold queuedNames. cbn.
    repeat (constructor; [cbn; intuition discriminate |]). constructor.
  - intros n Hn. unfold queuedNames in Hn. cbn in Hn.
    apply (bool_decide_unpack _).
    destruct Hn as [<- | [<- | [<- | [<- | []]]]]; vm_compute; exact I.
Qed.

Lemma findMatch_names_stay_taken_witness :
  Matchmaker.jq_error
    (Matchmaker.joinQueue
       (Matchmaker.fm_state (Matchmaker.findMatch fourQueued "lx2k9" "a1b2c3"))
       "conn-z" "ALICE" 2000)
  = Some Matchmaker.USERNAME_TAKEN.
Proof.
  apply (proj1 (proj2 (proj2 (proj2
           (findMatch_names_stay_taken fourQueued "lx2k9" "a1b2c3"
              {| Matchmaker.player1 := playerA; Matchmaker.player2 := playerB;
                 Matchmaker.gameRoomId :=
                   Matchmaker.generateGameRoomId "lx2k9" "a1b2c3" |}
              fourQueued_consistent eq_refl)))) "conn-z" 2000%Z).
Defined.

(** * Properties of the game room server *)

Lemma tick_inProgress (st : GameLogic.GameServerState) (rnd1 rnd2 : R) :
  inProgress (Types.status (GameLogic.gameState st)) = true ->
  inProgress (Types.status (GameLogic.gameState (GameLogic.tick st rnd1 rnd2))) = true \/
  Types.status (GameLogic.gameState (GameLogic.tick st rnd1 rnd2)) = Types.Finished.
Proof.
  intros Hin.
  destruct (tick_cases st rnd1 rnd2)
    as [(Hc & Hp & E) | [(Hs & _ & _ & E) | [(Hs & c' & _ & E)
        | [(Hs & _ & E) | (Hs & scorer & _ & E)]]]]; cbv zeta in *; rewrite E.
  - left. exact Hin.
  - left. reflexivity.
  - left. cbn. rewrite Hs. reflexivity.
  - left. cbn. rewrite Hs. reflexivity.
  - destruct (handleScoring_status (advanced st) scorer rnd1) as [(H & _) | (H & _)];
      cbv zeta in H.
    + left. rewrite H. cbn. rewrite Hs. reflexivity.
    + right. exact H.
Qed.

Lemma tick_players (st : GameLogic.GameServerState) (rnd1 rnd2 : R) :
  GameLogic.players (GameLogic.tick st rnd1 rnd2) = GameLogic.players st.
Proof.
  destruct (tick_cases st rnd1 rnd2)
    as [(Hc & Hp & E) | [(Hs & _ & _ & E) | [(Hs & c' & _ & E)
        | [(Hs & _ & E) | (Hs & scorer & _ & E)]]]]; cbv zeta in *; rewrite E;
    try reflexivity.
  destruct (handleScoring_scores (advanced st) scorer rnd1)
    as (_ & _ & _ & _ & _ & _ & Hpl & _). exact Hpl.
Qed.

(** [removePlayer] ends a match in progress when the connection is a
    player, and touches the game state in no other case. *)
Lemma removePlayer_gameState (st : GameLogic.GameServerState) (c : string) :
  (exists p, List.find (GameLogic.hasId c) (GameLogic.players st) = Some p) /\
  inProgress (Types.status (GameLogic.gameState st)) = true /\
  Types.status (GameLogic.gameState (GameLogic.removePlayer st c)) = Types.Finished
  \/
  GameLogic.gameState (GameLogic.removePlayer st c) = GameLogic.gameState st /\
  (List.find (GameLogic.hasId c) (GameLogic.players st) = None \/
   inProgress (Types.status (GameLogic.gameState st)) = false).
Proof.
  unfold GameLogic.removePlayer.
  destruct (find _ _) as [p |]; [| right; auto].
  destruct (Types.status (GameLogic.gameState st)) eqn:E; cbn;
    first [right; rewrite ?E; split; [reflexivity | right; reflexivity]
          | left; eauto].
Qed.

Lemma addPlayer_length (st : GameLogic.GameServerState) (c u : string) :
  (length (GameLogic.players st) <= 2)%nat ->
  (length (GameLogic.players (GameLogic.addPlayer st c u)) <= 2)%nat.
Proof.
  intros Hlen. unfold GameLogic.addPlayer.
  destruct (2 <=? length (GameLogic.players st))%nat eqn:E; [exact Hlen |].
  apply Nat.leb_gt in E. cbn. rewrite length_app. cbn. lia.
Qed.

Lemma addPlayer_gameState (st : GameLogic.GameServerState) (c u : string) :
  GameLogic.gameState (GameLogic.addPlayer st c u) = GameLogic.gameState st.
Proof. unfold GameLogic.addPlayer. destruct (2 <=? _)%nat; reflexivity. Qed.

Lemma removePlayer_length (st : GameLogic.GameServerState) (c : string) :
  (length (GameLogic.players (GameLogic.removePlayer st c))
   <= length (GameLogic.players st))%nat.
Proof.
  unfold GameLogic.removePlayer. destruct (find _ _); [| lia].
  cbn [GameLogic.players]. apply filter_length_le.
Qed.

Lemma updatePaddlePosition_keeps (st : GameLogic.GameServerState) (c : string)
  (y : Js.JsNumber) :
  let st' := GameLogic.updatePaddlePosition st c y in
  GameLogic.players st' = GameLogic.players st /\
  Types.status (GameLogic.gameState st') = Types.status (GameLogic.gameState st) /\
  Types.winner (GameLogic.gameState st') = Types.winner (GameLogic.gameState st) /\
  Types.score1 (GameLogic.gameState st') = Types.score1 (GameLogic.gameState st) /\
  Types.score2 (GameLogic.gameState st') = Types.score2 (GameLogic.gameState st).
Proof.
  cbv zeta. unfold GameLogic.updatePaddlePosition.
  destruct (GameLogic.getPlayer st c) as [p |]; [destruct (Types.role p) |];
    repeat split; reflexivity.
Qed.

(** One step of the server keeps it consistent. *)
Lemma gameStep_consistent (s : GameServer.Server) (e : GameEvent) :
  serverConsistent s -> serverConsistent (fst (gameStep s e)).
Proof.
  intros [Hloop Hlen]. unfold serverConsistent in *.
  destruct s as [st loop]. cbn [GameServer.state GameServer.gameLoop] in *.
  assert (Hclose : forall c,
    GameServer.gameLoop (fst (GameServer.onClose (GameServer.mkServer st loop) c))
    = inProgress (Types.status (GameLogic.gameState
        (GameServer.state (fst (GameServer.onClose (GameServer.mkServer st loop) c)))))
    /\ (length (GameLogic.players
          (GameServer.state (fst (GameServer.onClose (GameServer.mkServer st loop) c))))
        <= 2)%nat).
  { intros c. pose proof (removePlayer_length st c) as Hrl.
    unfold GameServer.onClose. cbn [GameServer.state GameServer.gameLoop].
    destruct (removePlayer_gameState st c) as [((p & Hf) & Hin & Hfin) | (Hgs & Hcase)].
    - rewrite Hf, Hfin. cbn [Types.GameStatus_eqb fst].
      unfold GameServer.stopGameLoop. cbn [GameServer.gameLoop GameServer.state].
      destruct loop; cbn; rewrite Hfin; split; try reflexivity; lia.
    - destruct (find _ _) as [p |] eqn:Hf.
      + destruct Hcase as [Hcase | Hcase]; [discriminate |].
        rewrite Hgs.
        destruct (Types.status (GameLogic.gameState st)) eqn:Est;
          try discriminate; cbn [Types.GameStatus_eqb fst];
          unfold GameServer.stopGameLoop;
          cbn [GameServer.gameLoop GameServer.state];
          rewrite ?Hloop; cbn; rewrite ?Hgs, ?Est; split; try reflexivity; lia.
      + cbn [fst GameServer.gameLoop GameServer.state]. rewrite Hgs.
        split; [exact Hloop | lia]. }
  destruct e as [c u | c m | c | r1 r2]; cbn [gameStep].
  - (* onConnect *)
    unfold GameServer.onConnect. cbv zeta.
    cbn [GameServer.state GameServer.gameLoop].
    set (name := match u with Some _ => _ | None => _ end).
    pose proof (addPlayer_length st c name Hlen) as Hal.
    pose proof (addPlayer_gameState st c name) as Hag.
    destruct (GameLogic.isReadyToStart (GameLogic.addPlayer st c name)) eqn:Hready.
    + unfold GameLogic.isReadyToStart in Hready.
      apply andb_true_iff in Hready as [H2 Hw]. apply Nat.eqb_eq in H2.
      unfold GameServer.startCountdownPhase, GameServer.startGameLoop.
      cbn [fst GameServer.state GameServer.gameLoop].
      unfold GameLogic.startCountdown. rewrite H2. cbn [Nat.ltb Nat.leb].
      destruct loop; cbn; split; try reflexivity; lia.
    + cbn [fst GameServer.state GameServer.gameLoop]. rewrite Hag.
      split; assumption.
  - (* onMessage *)
    destruct m as [[y t | | | |] |]; cbn [GameServer.onMessage fst];
      try (split; assumption).
    + unfold GameServer.handlePaddleMove. cbn [GameServer.state GameServer.gameLoop].
      destruct (updatePaddlePosition_keeps st c y) as (Hp & Hs & _). cbv zeta in *.
      rewrite Hp, Hs. split; assumption.
    + unfold GameServer.handlePause. cbn [GameServer.state GameServer.gameLoop].
      destruct (Types.status (GameLogic.gameState st)) eqn:Est;
        cbn [Types.GameStatus_eqb fst GameServer.state GameServer.gameLoop];
        rewrite ?Est; try (split; assumption).
      unfold GameServer.stopGameLoop. cbn [GameServer.gameLoop].
      destruct loop; cbn; split; try reflexivity; lia.
    + unfold GameServer.handleResume. cbn [GameServer.state GameServer.gameLoop].
      destruct (Types.status (GameLogic.gameState st)) eqn:Est;
        cbn [Types.GameStatus_eqb fst GameServer.state GameServer.gameLoop];
        rewrite ?Est; try (split; assumption).
      unfold GameServer.startGameLoop. cbn [GameServer.gameLoop].
      destruct loop; cbn; split; try reflexivity; lia.
    + apply Hclose.
  - apply Hclose.
  - (* onTimer *)
    unfold GameServer.onTimer. cbv zeta. cbn [GameServer.state GameServer.gameLoop].
    destruct loop; cbn [negb]; [| split; assumption].
    symmetry in Hloop.
    pose proof (tick_players st r1 r2) as Hpl.
    destruct (tick_inProgress st r1 r2 Hloop) as [Hgo | Hfin].
    + destruct (Types.status (GameLogic.gameState (GameLogic.tick st r1 r2))) eqn:Est;
        try discriminate; cbn [Types.GameStatus_eqb fst GameServer.state
                                GameServer.gameLoop];
        rewrite Est, Hpl; split; try reflexivity; lia.
    + rewrite Hfin. cbn [Types.GameStatus_eqb fst]. unfold GameServer.stopGameLoop.
      cbn [GameServer.gameLoop GameServer.state]. rewrite Hfin, Hpl.
      split; [reflexivity | lia].
Qed.

Lemma gameRun_cons (s : GameServer.Server) (e : GameEvent) (es : list GameEvent) :
  gameRun s (e :: es)
  = (fst (gameRun (fst (gameStep s e)) es),
     snd (gameStep s e) ++ snd (gameRun (fst (gameStep s e)) es)).
Proof.
  cbn [gameRun]. destruct (gameStep s e) as [s1 out1]. cbn [fst snd].
  destruct (gameRun s1 es) as [s2 out2]. reflexivity.
Qed.

Lemma create_consistent (roomId : string) :
  serverConsistent (GameServer.create roomId).
Proof. split; [reflexivity | cbn; lia]. Qed.

(** X25: in every state the game room server reaches from its creation,
    whatever the connections, messages, disconnections and interval firings,
    the interval is set exactly when the status is [countdown] or
    [playing], and the room holds at most two players. *)
Theorem gameServer_loop_invariant (roomId : string) (es : list GameEvent) :
  let s := fst (gameRun (GameServer.create roomId) es) in
  GameServer.gameLoop s
  = inProgress (Types.status (GameLogic.gameState (GameServer.state s))) /\
  (length (GameLogic.players (GameServer.state s)) <= 2)%nat.
Proof.
  cbv zeta. pose proof (create_consistent roomId) as Hinit.
  revert Hinit. generalize (GameServer.create roomId) as s.
  induction es as [| e es IH]; intros s Hs.
  - exact Hs.
  - rewrite gameRun_cons. cbn [fst]. apply IH, gameStep_consistent, Hs.
Qed.

Lemma gameOvers_app (a b : list GameServer.Action) :
  gameOvers (a ++ b) = (gameOvers a + gameOvers b)%nat.
Proof.
  induction a as [| [c m | m] a IH]; cbn [app gameOvers]; [reflexivity | exact IH |].
  destruct m; cbn; rewrite IH; reflexivity.
Qed.

Lemma gameOvers_zero (out : list GameServer.Action) (w : Types.Winner) (sc : Z * Z) :
  gameOvers out = 0%nat ->
  ~ In (GameServer.Broadcast (GameMessages.GAME_OVER w sc)) out.
Proof.
  induction out as [| [c m | m] out IH]; cbn [gameOvers]; intros H0 Hin.
  - destruct Hin.
  - destruct Hin as [Hin | Hin]; [discriminate | exact (IH H0 Hin)].
  - destruct m; try discriminate;
      (destruct Hin as [Hin | Hin]; [discriminate | exact (IH H0 Hin)]).
Qed.

(** What one step of a consistent server says about the end of the match:
    either it announces no [GAME_OVER], and a finished match stays as it
    is; or the match ends in this step, with one [GAME_OVER] that carries
    the winner and the scores of the new state. *)
Lemma gameStep_gameOver (s : GameServer.Server) (e : GameEvent) :
  serverConsistent s ->
  let gs := GameLogic.gameState (GameServer.state s) in
  let gs' := GameLogic.gameState (GameServer.state (fst (gameStep s e))) in
  let out := snd (gameStep s e) in
  (gameOvers out = 0%nat /\ (Types.status gs = Types.Finished -> sameResult gs gs')) \/
  (Types.status gs <> Types.Finished /\ Types.status gs' = Types.Finished /\
   gameOvers out = 1%nat /\
   forall w sc, In (GameServer.Broadcast (GameMessages.GAME_OVER w sc)) out ->
                w = Types.winner gs' /\ sc = (Types.score1 gs', Types.score2 gs')).
Proof.
  intros [Hloop Hlen]. cbv zeta.
  destruct s as [st loop]. cbn [GameServer.state GameServer.gameLoop] in *.
  assert (Hclose : forall c,
    gameOvers (snd (GameServer.onClose (GameServer.mkServer st loop) c)) = 0%nat /\
    (Types.status (GameLogic.gameState st) = Types.Finished ->
     sameResult (GameLogic.gameState st)
       (GameLogic.gameState
          (GameServer.state (fst (GameServer.onClose (GameServer.mkServer st loop) c)))))).
  { intros c. unfold GameServer.onClose. cbn [GameServer.state GameServer.gameLoop].
    split.
    - destruct (find _ _); [| reflexivity].
      destruct (Types.GameStatus_eqb _ _); reflexivity.
    - intros Hfin.
      assert (Hgs : GameLogic.gameState (GameLogic.removePlayer st c)
                    = GameLogic.gameState st).
      { destruct (removePlayer_gameState st c) as [(_ & Hin & _) | (Hgs & _)];
          [rewrite Hfin in Hin; discriminate | exact Hgs]. }
      destruct (find _ _);
        [destruct (Types.GameStatus_eqb _ _) |];
        unfold GameServer.stopGameLoop;
        cbn [fst GameServer.state GameServer.gameLoop];
        try destruct loop; cbn [fst GameServer.state];
        rewrite Hgs; repeat split; auto. }
  destruct e as [c u | c m | c | r1 r2]; cbn [gameStep].
  - (* onConnect *)
    left. unfold GameServer.onConnect. cbv zeta.
    cbn [GameServer.state GameServer.gameLoop].
    set (name := match u with Some _ => _ | None => _ end).
    pose proof (addPlayer_gameState st c name) as Hag.
    destruct (GameLogic.isReadyToStart (GameLogic.addPlayer st c name)) eqn:Hready.
    + unfold GameLogic.isReadyToStart in Hready.
      apply andb_true_iff in Hready as [_ Hw]. rewrite Hag in Hw.
      cbn [fst snd GameServer.startCountdownPhase]. split.
      * rewrite !gameOvers_app. destruct (find _ _); reflexivity.
      * intros Hfin. rewrite Hfin in Hw. discriminate.
    + cbn [fst snd GameServer.state]. split.
      * rewrite gameOvers_app. destruct (find _ _); reflexivity.
      * intros Hfin. rewrite Hag. repeat split; auto.
  - (* onMessage *)
    left. destruct m as [[y t | | | |] |]; cbn [GameServer.onMessage fst snd];
      try solve [split; [reflexivity | intros Hfin; repeat split; auto]].
    + unfold GameServer.handlePaddleMove. cbn [GameServer.state].
      destruct (updatePaddlePosition_keeps st c y) as (_ & Hs & Hw & H1 & H2).
      cbv zeta in *. split; [reflexivity |].
      intros Hfin. unfold sameResult. rewrite Hs, Hw, H1, H2. auto.
    + unfold GameServer.handlePause. cbn [GameServer.state].
      destruct (Types.status (GameLogic.gameState st)) eqn:Est;
        cbn [Types.GameStatus_eqb fst snd];
        (split; [reflexivity | intros Hfin; try discriminate; repeat split; auto]).
    + unfold GameServer.handleResume. cbn [GameServer.state].
      destruct (Types.status (GameLogic.gameState st)) eqn:Est;
        cbn [Types.GameStatus_eqb fst snd];
        (split; [reflexivity | intros Hfin; try discriminate; repeat split; auto]).
    + apply Hclose.
  - left. apply Hclose.
  - (* onTimer *)
    unfold GameServer.onTimer. cbv zeta. cbn [GameServer.state GameServer.gameLoop].
    destruct loop; cbn [negb].
    2:{ left. cbn [fst snd]. split; [reflexivity |].
        intros Hfin. repeat split; auto. }
    symmetry in Hloop.
    set (gs' := GameLogic.gameState (GameLogic.tick st r1 r2)).
    match goal with
    | |- context [if ?b then [GameServer.Broadcast GameMessages.GAME_START] else []] =>
      set (started := if b then [GameServer.Broadcast GameMessages.GAME_START] else []);
      assert (Hst0 : gameOvers started = 0%nat)
        by (subst started; destruct b; reflexivity)
    end.
    match goal with
    | |- context [if ?b then [GameServer.Broadcast (GameMessages.COUNTDOWN ?x)] else []] =>
      set (counted := if b then [GameServer.Broadcast (GameMessages.COUNTDOWN x)] else []);
      assert (Hco0 : gameOvers counted = 0%nat)
        by (subst counted; destruct b; reflexivity)
    end.
    destruct (Types.GameStatus_eqb (Types.status gs') Types.Finished) eqn:Efin.
    + right.
      assert (Hfin : Types.status gs' = Types.Finished)
        by (destruct (Types.status gs'); try discriminate; reflexivity).
      unfold GameServer.stopGameLoop. cbn [GameServer.gameLoop GameServer.state fst snd].
      fold gs'. split; [| split; [exact Hfin | split]].
      * intros Hf. rewrite Hf in Hloop. discriminate.
      * rewrite !gameOvers_app, Hst0, Hco0. reflexivity.
      * intros w sc Hin.
        apply in_app_or in Hin as [Hin | Hin];
          [exfalso; exact (gameOvers_zero _ w sc Hst0 Hin) |].
        apply in_app_or in Hin as [Hin | Hin];
          [exfalso; exact (gameOvers_zero _ w sc Hco0 Hin) |].
        cbn in Hin. destruct Hin as [Hin | [Hin | []]]; [| discriminate].
        injection Hin as <- <-. split; reflexivity.
    + left. cbn [fst snd GameServer.state]. split.
      * rewrite !gameOvers_app, Hst0, Hco0. reflexivity.
      * intros Hf. rewrite Hf in Hloop. discriminate.
Qed.

Lemma sameResult_trans (a b c : Types.GameState) :
  sameResult a b -> sameResult b c -> sameResult a c.
Proof.
  unfold sameResult. intros (_ & Hw & H1 & H2) (Hs & Hw' & H1' & H2').
  repeat split; congruence.
Qed.

(** A consistent server announces at most one [GAME_OVER], none once the
    match is finished, and what it announces is the final result. *)
Lemma gameRun_gameOver (es : list GameEvent) (s : GameServer.Server) :
  serverConsistent s ->
  let gs := GameLogic.gameState (GameServer.state s) in
  let gs' := GameLogic.gameState (GameServer.state (fst (gameRun s es))) in
  let out := snd (gameRun s es) in
  (gameOvers out <= 1)%nat /\
  (Types.status gs = Types.Finished -> gameOvers out = 0%nat /\ sameResult gs gs') /\
  (forall w sc, In (GameServer.Broadcast (GameMessages.GAME_OVER w sc)) out ->
                Types.status gs' = Types.Finished /\
                w = Types.winner gs' /\ sc = (Types.score1 gs', Types.score2 gs')).
Proof.
  revert s. induction es as [| e es IH]; intros s Hs; cbv zeta.
  - cbn [gameRun fst snd gameOvers]. split; [lia |]. split.
    + intros Hfin. split; [reflexivity |]. repeat split; auto.
    + intros w sc [].
  - rewrite gameRun_cons. cbn [fst snd].
    pose proof (gameStep_consistent s e Hs) as Hs1.
    destruct (IH _ Hs1) as (Hle & Hfrozen & Hpayload). cbv zeta in *.
    rewrite gameOvers_app.
    destruct (gameStep_gameOver s e Hs) as [(H0 & Hkeep) | (Hnot & Hfin & H1 & Hnow)];
      cbv zeta in *.
    + rewrite H0. split; [lia |]. split.
      * intros Hf. destruct (Hkeep Hf) as (Hf1 & Hrest).
        destruct (Hfrozen Hf1) as (Hz & Hsame). split; [lia |].
        eapply sameResult_trans; [exact (Hkeep Hf) | exact Hsame].
      * intros w sc Hin. apply in_app_or in Hin as [Hin | Hin].
        -- exfalso. exact (gameOvers_zero _ w sc H0 Hin).
        -- apply Hpayload, Hin.
    + destruct (Hfrozen Hfin) as (Hz & Hsame). rewrite H1, Hz.
      split; [lia |]. split; [intros Hf; contradiction |].
      intros w sc Hin. apply in_app_or in Hin as [Hin | Hin].
      * destruct (Hnow w sc Hin) as (-> & ->).
        destruct Hsame as (Hs' & Hw & Hsc1 & Hsc2).
        rewrite Hw, Hsc1, Hsc2. auto.
      * exfalso. exact (gameOvers_zero _ w sc Hz Hin).
Qed.

(** X26: whatever happens to a game room server after its creation, it
    broadcasts [GAME_OVER] at most once, and the winner and final score of
    that message are those of the state the server ends in, which is
    [finished]. *)
Theorem gameServer_gameOver_once (roomId : string) (es : list GameEvent) :
  let final := GameLogic.gameState
                 (GameServer.state (fst (gameRun (GameServer.create roomId) es))) in
  let out := snd (gameRun (GameServer.create roomId) es) in
  (gameOvers out <= 1)%nat /\
  (forall w sc, In (GameServer.Broadcast (GameMessages.GAME_OVER w sc)) out ->
                Types.status final = Types.Finished /\
                w = Types.winner final /\
                sc = (Types.score1 final, Types.score2 final)).
Proof.
  cbv zeta.
  destruct (gameRun_gameOver es _ (create_consistent roomId)) as (Hle & _ & Hpayload).
  split; [exact Hle | exact Hpayload].
Qed.

(** X27: disconnections in a room with two players.  While a match is in
    progress the disconnection of a player is a forfeit: the server
    broadcasts [PLAYER_LEFT] then [OPPONENT_DISCONNECTED] and no
    [GAME_OVER], stops the interval, and the state is [finished] with the
    remaining player as winner.  While the match is paused a disconnection
    does not end it; if the remaining player then resumes and disconnects,
    the room ends empty, [finished], with ['player2'] as winner whichever
    role left last. *)
Theorem gameServer_disconnects (s : GameServer.Server) (p q : Types.PlayerInfo) :
  GameLogic.players (GameServer.state s) = [p; q] ->
  Types.id p <> Types.id q ->
  (inProgress (Types.status (GameLogic.gameState (GameServer.state s))) = true ->
   forall leaver stayer, (leaver = p /\ stayer = q) \/ (leaver = q /\ stayer = p) ->
   let s' := fst (GameServer.onClose s (Types.id leaver)) in
   snd (GameServer.onClose s (Types.id leaver))
   = [GameServer.Broadcast (GameMessages.PLAYER_LEFT (Types.id leaver));
      GameServer.Broadcast GameMessages.OPPONENT_DISCONNECTED] /\
   GameServer.gameLoop s' = false /\
   GameLogic.players (GameServer.state s') = [stayer] /\
   Types.status (GameLogic.gameState (GameServer.state s')) = Types.Finished /\
   Types.winner (GameLogic.gameState (GameServer.state s'))
   = Some (sideOfRole (Types.role stayer))) /\
  (Types.status (GameLogic.gameState (GameServer.state s)) = Types.Paused ->
   GameServer.gameLoop s = false ->
   forall first last, (first = p /\ last = q) \/ (first = q /\ last = p) ->
   let run := gameRun s [Close (Types.id first);
                          Message (Types.id last) (Some GameMessages.RESUME);
                          Close (Types.id last)] in
   GameLogic.players (GameServer.state (fst run)) = [] /\
   Types.status (GameLogic.gameState (GameServer.state (fst run))) = Types.Finished /\
   Types.winner (GameLogic.gameState (GameServer.state (fst run)))
   = Some Types.Player2 /\
   GameServer.gameLoop (fst run) = false /\
   gameOvers (snd run) = 0%nat).
Proof.
  intros Hps Hne.
  assert (Hpq : String.eqb (Types.id p) (Types.id q) = false)
    by (apply String.eqb_neq; exact Hne).
  assert (Hqp : String.eqb (Types.id q) (Types.id p) = false)
    by (apply String.eqb_neq; congruence).
  destruct s as [[room ps gs t] loop]. cbn in Hps. subst ps.
  cbn [GameServer.state GameServer.gameLoop GameLogic.gameState GameLogic.players].
  split.
  - intros Hin leaver stayer [[-> ->] | [-> ->]]; cbv zeta;
      unfold GameServer.onClose, GameLogic.removePlayer, GameLogic.hasId,
        GameServer.stopGameLoop;
      cbn [GameServer.state GameServer.gameLoop GameLogic.gameState
           GameLogic.players List.find List.filter];
      rewrite ?String.eqb_refl, ?Hpq, ?Hqp;
      cbn [negb List.find List.filter nth_error];
      rewrite ?String.eqb_refl, ?Hpq, ?Hqp; cbn [negb nth_error];
      destruct (Types.status gs); try discriminate;
      cbn; destruct loop; cbn;
      repeat split; try reflexivity;
      match goal with |- context [Types.role ?x] => destruct (Types.role x) end;
      reflexivity.
  - intros Hpaused Hloop first last Hcase. cbv zeta. subst loop.
    destruct gs as [bx by' vx vy p1 p2 sc1 sc2 st w cd].
    cbn [Types.status] in Hpaused. subst st.
    set (gs := Types.mkGameState bx by' vx vy p1 p2 sc1 sc2 Types.Paused w cd) in *.
    assert (Hstep : forall a b : Types.PlayerInfo,
      String.eqb (Types.id a) (Types.id b) = false ->
      String.eqb (Types.id b) (Types.id a) = false ->
      forall ps, (ps = [a; b] \/ ps = [b; a]) ->
      let s0 := GameServer.mkServer (GameLogic.mkGameServerState room ps gs t) false in
      let s1 := GameServer.mkServer (GameLogic.mkGameServerState room [b] gs t) false in
      let s2 := GameServer.mkServer
                  (GameLogic.mkGameServerState room [b]
                     (GameLogic.withStatus gs Types.Playing) t) true in
      GameServer.onClose s0 (Types.id a)
      = (s1, [GameServer.Broadcast (GameMessages.PLAYER_LEFT (Types.id a))]) /\
      GameServer.onMessage s1 (Some GameMessages.RESUME) (Types.id b)
      = (s2, GameServer.broadcastGameState s2) /\
      GameLogic.players (GameServer.state (fst (GameServer.onClose s2 (Types.id b)))) = [] /\
      Types.status (GameLogic.gameState
                      (GameServer.state (fst (GameServer.onClose s2 (Types.id b)))))
      = Types.Finished /\
      Types.winner (GameLogic.gameState
                      (GameServer.state (fst (GameServer.onClose s2 (Types.id b)))))
      = Some Types.Player2 /\
      GameServer.gameLoop (fst (GameServer.onClose s2 (Types.id b))) = false /\
      gameOvers (snd (GameServer.onClose s2 (Types.id b))) = 0%nat).
    { intros a b Hab Hba ps Hps. cbv zeta.
      unfold GameServer.onClose, GameServer.onMessage, GameServer.handleResume,
        GameLogic.removePlayer, GameLogic.hasId,
        GameServer.stopGameLoop, GameServer.startGameLoop.
      cbn [GameServer.state GameServer.gameLoop GameLogic.gameState
           GameLogic.players].
      destruct Hps as [-> | ->];
        cbn [List.find List.filter];
        rewrite ?String.eqb_refl, ?Hab, ?Hba;
        cbn [negb List.find List.filter nth_error];
        rewrite ?String.eqb_refl, ?Hab, ?Hba; cbn [negb];
        subst gs; cbn; repeat split; reflexivity. }
    rewrite !gameRun_cons. cbn [gameRun gameStep fst snd].
    destruct Hcase as [[-> ->] | [-> ->]].
    + destruct (Hstep p q Hpq Hqp [p; q] (or_introl eq_refl))
        as (E1 & E2 & H3 & H4 & H5 & H6 & H7). cbv zeta in *.
      rewrite E1. cbn [fst snd]. rewrite E2. cbn [fst snd].
      rewrite H3, H4, H5, H6, !gameOvers_app, H7. repeat split; reflexivity.
    + destruct (Hstep q p Hqp Hpq [p; q] (or_intror eq_refl))
        as (E1 & E2 & H3 & H4 & H5 & H6 & H7). cbv zeta in *.
      rewrite E1. cbn [fst snd]. rewrite E2. cbn [fst snd].
      rewrite H3, H4, H5, H6, !gameOvers_app, H7. repeat split; reflexivity.
Qed.

Lemma gameServer_disconnects_witness :
  Types.winner
    (GameLogic.gameState
       (GameServer.state
          (fst (gameRun
                  (GameServer.mkServer (roomWith [hostPlayer; guestPlayer] Types.Paused)
                                       false)
                  [Close "conn-2";
                   Message "conn-1" (Some GameMessages.RESUME);
                   Close "conn-1"]))))
  = Some Types.Player2.
Proof.
  apply (proj2 (gameServer_disconnects
                  (GameServer.mkServer (roomWith [hostPlayer; guestPlayer] Types.Paused)
                                       false)
                  hostPlayer guestPlayer eq_refl ltac:(discriminate))
           eq_refl eq_refl guestPlayer hostPlayer).
  right. split; reflexivity.
Defined.

(** * Properties of the matchmaker server *)

Lemma freeUsernames_queue (names : list string) (state : Matchmaker.MatchmakerState) :
  Matchmaker.queue (MatchmakerServer.freeUsernames state names)
  = Matchmaker.queue state.
Proof.
  revert state. induction names as [| n names IH]; intros state; [reflexivity |].
  unfold MatchmakerServer.freeUsernames in *. cbn [fold_left]. rewrite IH. reflexivity.
Qed.

Lemma leaveQueue_length (state : Matchmaker.MatchmakerState) (c : string) :
  (length (Matchmaker.queue (Matchmaker.leaveQueue state c))
   <= length (Matchmaker.queue state))%nat.
Proof.
  unfold Matchmaker.leaveQueue. destruct (find _ _); [| lia].
  cbn [Matchmaker.queue]. apply filter_length_le.
Qed.

Lemma tryMatch_length (state : Matchmaker.MatchmakerState) (ts rnd : string) :
  (length (Matchmaker.queue state) <= 2)%nat ->
  (length (Matchmaker.queue (fst (MatchmakerServer.tryMatch state ts rnd))) <= 1)%nat.
Proof.
  intros Hlen. unfold MatchmakerServer.tryMatch, Matchmaker.findMatch. cbv zeta.
  destruct (Matchmaker.queue state) as [| a [| b rest]] eqn:Hq; cbn; rewrite ?Hq; cbn;
    cbn in Hlen; lia.
Qed.

Lemma matchmakerStep_length (state : Matchmaker.MatchmakerState) (e : MatchmakerEvent) :
  (length (Matchmaker.queue state) <= 1)%nat ->
  (length (Matchmaker.queue (fst (matchmakerStep state e))) <= 1)%nat.
Proof.
  intros Hlen. destruct e as [c | c [[u |] |] now ts rnd | c | names];
    cbn [matchmakerStep MatchmakerServer.onConnect MatchmakerServer.onMessage
         MatchmakerServer.onClose MatchmakerServer.handleLeaveQueue fst];
    try exact Hlen.
  - unfold MatchmakerServer.handleJoinQueue.
    destruct (negb (MatchmakerServer.USERNAME_PATTERN_test u)); [exact Hlen |].
    destruct (negb (Matchmaker.jq_success (Matchmaker.joinQueue state c u now))) eqn:Hs;
      [exact Hlen |].
    pose proof (tryMatch_length
      (Matchmaker.jq_state (Matchmaker.joinQueue state c u now)) ts rnd) as Ht.
    destruct (MatchmakerServer.tryMatch _ ts rnd) as [s2 out2]. cbn [fst] in *.
    apply Ht. unfold Matchmaker.joinQueue. cbv zeta.
    destruct (bool_decide _); cbn [Matchmaker.jq_state Matchmaker.queue]; [lia |].
    rewrite length_app. cbn. lia.
  - pose proof (leaveQueue_length state c). lia.
  - pose proof (leaveQueue_length state c). lia.
  - rewrite freeUsernames_queue. exact Hlen.
Qed.

(** X28: nobody waits behind anybody.  Whatever connections, messages,
    disconnections and free-username requests the matchmaker server handles
    after its creation, between two events its queue holds at most one
    player: a second player is matched with the first in the very step that
    enqueues it. *)
Theorem matchmakerServer_queue_short (es : list MatchmakerEvent) :
  (length (Matchmaker.queue (fst (matchmakerRun MatchmakerServer.create es))) <= 1)%nat.
Proof.
  assert (Hinit : (length (Matchmaker.queue MatchmakerServer.create) <= 1)%nat)
    by (cbn; lia).
  revert Hinit. generalize MatchmakerServer.create as state.
  induction es as [| e es IH]; intros state Hlen; [exact Hlen |].
  cbn [matchmakerRun].
  pose proof (matchmakerStep_length state e Hlen) as Hstep.
  destruct (matchmakerStep state e) as [s1 out1]. cbn [fst] in Hstep.
  specialize (IH s1 Hstep).
  destruct (matchmakerRun s1 es) as [s2 out2]. exact IH.
Qed.

(** X29: what a [JOIN_QUEUE] does.  An invalid username is answered with an
    [ERROR] and a taken one with [USERNAME_TAKEN], the state unchanged.  A
    valid, free name joining while exactly one player waits is answered
    with [QUEUE_JOINED] at position 2, then both players are sent
    [MATCH_FOUND] with the same room id and each the name of the other, the
    queue is left empty and both names stay active. *)
Theorem handleJoinQueue_outcomes (state : Matchmaker.MatchmakerState)
  (sender username : string) (now : Z) (timestamp random : string) :
  let r := MatchmakerServer.handleJoinQueue state sender username now timestamp random in
  (MatchmakerServer.USERNAME_PATTERN_test username = false ->
   fst r = state /\
   exists text, snd r = [MatchmakerServer.Send sender (MatchmakerMessages.ERROR text)]) /\
  (MatchmakerServer.USERNAME_PATTERN_test username = true ->
   Matchmaker.isUsernameTaken state username = true ->
   fst r = state /\
   snd r = [MatchmakerServer.Send sender (MatchmakerMessages.USERNAME_TAKEN username)]) /\
  (MatchmakerServer.USERNAME_PATTERN_test username = true ->
   Matchmaker.isUsernameTaken state username = false ->
   forall waiting, Matchmaker.queue state = [waiting] ->
   let room := Matchmaker.generateGameRoomId timestamp random in
   snd r
   = [MatchmakerServer.Send sender (MatchmakerMessages.QUEUE_JOINED (Some 2%nat));
      MatchmakerServer.SendIfOpen (Matchmaker.connectionId waiting)
        (MatchmakerMessages.MATCH_FOUND room username);
      MatchmakerServer.SendIfOpen sender
        (MatchmakerMessages.MATCH_FOUND room (Matchmaker.username waiting))] /\
   Matchmaker.queue (fst r) = [] /\
   Matchmaker.activeUsernames (fst r)
   = {[ Matchmaker.toLowerCase username ]} ∪ Matchmaker.activeUsernames state).
Proof.
  cbv zeta. unfold MatchmakerServer.handleJoinQueue.
  split; [| split].
  - intros Hbad. rewrite Hbad. cbn [negb fst snd]. split; [reflexivity | eauto].
  - intros Hok Htaken. rewrite Hok. cbn [negb].
    unfold Matchmaker.isUsernameTaken in Htaken.
    unfold Matchmaker.joinQueue. cbv zeta. rewrite Htaken.
    cbn [Matchmaker.jq_success negb fst snd]. split; reflexivity.
  - intros Hok Hfree waiting Hq. rewrite Hok. cbn [negb].
    unfold Matchmaker.isUsernameTaken in Hfree.
    unfold Matchmaker.joinQueue. cbv zeta. rewrite Hfree, Hq.
    cbn [Matchmaker.jq_success Matchmaker.jq_state Matchmaker.jq_position negb].
    unfold MatchmakerServer.tryMatch, Matchmaker.findMatch. cbn.
    repeat split; reflexivity.
Qed.

Lemma handleJoinQueue_outcomes_witness :
  Matchmaker.queue
    (fst (MatchmakerServer.handleJoinQueue onePlayerQueued "conn-2" "Player_2"
            1001 "lx2k9" "a1b2c3"))
  = [].
Proof.
  apply (proj2 (proj2 (handleJoinQueue_outcomes onePlayerQueued "conn-2" "Player_2"
                         1001 "lx2k9" "a1b2c3")) eq_refl eq_refl
           {| Matchmaker.connectionId := "conn-1"; Matchmaker.username := "player1";
              Matchmaker.joinedAt := 1000 |}).
  reflexivity.
Defined.
